(** * The Namecheap client: gateway and domain/DNS facade

    A shallow embedding of [src/namecheap-client.ts] (class [NamecheapClient])
    and of the [register-domain] handler of [src/tools/domains.ts].

    - JavaScript objects that the code uses as dictionaries (the request
      parameters, a [DNSRecord], the [Partial<DNSRecord>] criteria and
      updates) are finite maps from property names to values.
    - The tree that [xml2js] hands back is the type [xml].
    - A method that awaits the network is a function in the monad [M]: it
      threads the state of the outside world and either returns a value or
      throws. *)

From Stdlib Require Import ZArith Ascii.
From stdpp Require Import base option list strings pretty gmap fin_maps.

Set Warnings "-register-all".

(** ** JavaScript values held in properties

    The numbers that the client handles ([Page], [PageSize], [Years], the
    parsed [TotalItems]) are integers; they are kept exact. *)

Inductive jsval :=
| JUndefined
| JString (s : string)
| JNumber (n : Z).

Global Instance jsval_eq_dec : EqDecision jsval.
Proof. solve_decision. Defined.

(** Truthiness, as in [if (record.mxPref)]. *)
Definition truthy (v : jsval) : bool :=
  match v with
  | JUndefined => false
  | JString s => negb (String.eqb s "")
  | JNumber n => negb (n =? 0)%Z
  end.

(** Conversion to a string, as in a template literal. *)
Definition toString (v : jsval) : string :=
  match v with
  | JUndefined => "undefined"
  | JString s => s
  | JNumber n => pretty n
  end.

(** An attribute or text that may be missing becomes a value. *)
Definition ofOption (o : option string) : jsval :=
  match o with
  | Some s => JString s
  | None => JUndefined
  end.

(** A plain object with string keys. *)
Abbreviation jsobj := (gmap string jsval).

(** Property read [o[k]]: a missing property reads as [undefined]. *)
Definition getProp (o : jsobj) (k : string) : jsval := default JUndefined (o !! k).
Notation "o .[ k ]" := (getProp o k) (at level 1, left associativity, format "o .[ k ]").

(** Object spread [{...a, ...b}]: the properties of [b] win. *)
Definition spread (a b : jsobj) : jsobj := b ∪ a.

(** ** The parsed response tree of xml2js

    With the default options an element that has neither attributes nor
    child elements is delivered as its text; any other element is an object
    with the attributes under [$], the text under [_] and every child
    element name bound to the array of the children of that name. *)

Inductive xml :=
| XText (s : string)
| XElem (attrs : option (gmap string string)) (text : option string)
        (children : list (string * list xml)).

Fixpoint assoc {A} (k : string) (l : list (string * A)) : option A :=
  match l with
  | [] => None
  | (k', v) :: l' => if decide (k = k') then Some v else assoc k l'
  end.

(** ** Thrown values *)

(** What a library or the runtime throws: an [Error] object (axios and
    xml2js reject with one, a failed property access is a [TypeError]), or
    some other value, which is never [undefined]. *)
Inductive thrown :=
| ErrorObject (name message : string)
| OtherValue (descr : string).

(** [class NamecheapError extends Error] with its [code] and [details],
    and everything else that can travel up the stack. *)
Inductive exn :=
| NamecheapError (message : string) (code : option string) (details : option thrown)
| Foreign (t : thrown).

(** [error.message] when [error instanceof Error]. *)
Definition thrown_message (t : thrown) : option string :=
  match t with
  | ErrorObject _ m => Some m
  | OtherValue _ => None
  end.

Definition exn_message (e : exn) : option string :=
  match e with
  | NamecheapError m _ _ => Some m
  | Foreign t => thrown_message t
  end.

Definition typeError (prop : string) : thrown :=
  ErrorObject "TypeError"
    ("Cannot read properties of undefined (reading '" +:+ prop +:+ "')").

Inductive result (A : Type) :=
| Ok (a : A)
| Err (e : exn).
Arguments Ok {A} a.
Arguments Err {A} e.

(** *** Property access on the response tree, with the runtime's checks *)

Definition rbind {A B} (r : result A) (f : A → result B) : result B :=
  match r with
  | Ok a => f a
  | Err e => Err e
  end.

(** [node.name] for a child element name. *)
Definition child (name : string) (n : option xml) : result (option (list xml)) :=
  match n with
  | None => Err (Foreign (typeError name))
  | Some (XText _) => Ok None
  | Some (XElem _ _ cs) => Ok (assoc name cs)
  end.

(** [array[0]]. *)
Definition first (a : option (list xml)) : result (option xml) :=
  match a with
  | None => Err (Foreign (typeError "0"))
  | Some l => Ok (head l)
  end.

(** [node.$]. *)
Definition dollar (n : option xml) : result (option (gmap string string)) :=
  match n with
  | None => Err (Foreign (typeError "$"))
  | Some (XText _) => Ok None
  | Some (XElem a _ _) => Ok a
  end.

(** [node._]. *)
Definition underscore (n : option xml) : result (option string) :=
  match n with
  | None => Err (Foreign (typeError "_"))
  | Some (XText _) => Ok None
  | Some (XElem _ t _) => Ok t
  end.

(** [attrs.name]. *)
Definition attr (name : string) (a : option (gmap string string)) : result (option string) :=
  match a with
  | None => Err (Foreign (typeError name))
  | Some m => Ok (m !! name)
  end.

(** ** Helpers of the runtime *)

(** [s.split('.')]: the pieces between the dots, at least one piece. *)
Fixpoint split_dot (s : string) : list string :=
  match s with
  | EmptyString => [""]
  | String c s' =>
      if decide (c = "."%char) then "" :: split_dot s'
      else match split_dot s' with
           | [] => [String c ""]
           | p :: ps => String c p :: ps
           end
  end.

(** [pieces.join(sep)]. *)
Definition join (sep : string) (pieces : list string) : string :=
  String.concat sep pieces.

(** [parseInt(text, 10)]: leading white space, an optional sign, then the
    longest run of decimal digits; [None] stands for [NaN].  The value is
    the exact integer, which is the runtime's number up to 2^53 (beyond, the
    runtime rounds to a double), and the white space skipped is that of
    ASCII. *)
Definition is_space (c : ascii) : bool :=
  let n := nat_of_ascii c in
  Nat.eqb n 32 || (Nat.leb 9 n && Nat.leb n 13).

Definition digit_of (c : ascii) : option Z :=
  let n := nat_of_ascii c in
  if Nat.leb 48 n && Nat.leb n 57 then Some (Z.of_nat (n - 48)) else None.

Fixpoint skip_spaces (s : string) : string :=
  match s with
  | String c s' => if is_space c then skip_spaces s' else s
  | EmptyString => s
  end.

Fixpoint digits (acc : option Z) (s : string) : option Z :=
  match s with
  | String c s' =>
      match digit_of c with
      | Some d => digits (Some (10 * default 0%Z acc + d)%Z) s'
      | None => acc
      end
  | EmptyString => acc
  end.

Definition parseInt (v : jsval) : option Z :=
  match skip_spaces (toString v) with
  | String "-" s' => Z.opp <$> digits None s'
  | String "+" s' => digits None s'
  | s => digits None s
  end.

(** ** The data of the client *)

Record NamecheapConfig := {
  apiUser : string;
  apiKey : string;
  clientIp : string;
  sandbox : bool;
}.

(** A value of type [any] read off the response tree: [undefined], a
    string, or an element object. *)
Abbreviation jsany := (option xml).

(** [premiumPrice] holds the text that the code hands to [parseFloat]. *)
Record DomainCheckResult := {
  dcr_domain : jsval;
  dcr_available : bool;
  dcr_isPremium : bool;
  dcr_premiumPrice : option string;
}.

Record DomainInfo := {
  domainName : jsany;
  created : jsany;
  expires : jsany;
  isLocked : bool;
  isAutoRenew : bool;
  whoisGuard : bool;
}.

(** A [DNSRecord] is an object with the properties [hostId], [name],
    [type], [address], [mxPref] and [ttl]. *)
Abbreviation DNSRecord := (gmap string jsval).

Record ContactInfo := {
  firstName : string;
  lastName : string;
  address1 : string;
  city : string;
  stateProvince : string;
  postalCode : string;
  country : string;
  phone : string;
  emailAddress : string;
}.

(** [v === text] for a value read off the response tree. *)
Definition isText (text : string) (v : jsany) : bool :=
  match v with
  | Some (XText s) => bool_decide (s = text)
  | _ => false
  end.

(** What one HTTP exchange gives back: [axios.post] rejects, or
    [parseStringPromise] rejects, or the document parses to an object with
    the root element bound to its name. *)
Inductive reply :=
| PostFails (cause : thrown)
| ParseFails (cause : thrown)
| Parsed (rootName : string) (root : xml).

Global Instance result_ret : MRet result := @Ok.
Global Instance result_bind : MBind result := λ A B f r, rbind r f.

(** [catch (error)] of [makeRequest]: a [NamecheapError] is thrown again,
    anything else is wrapped. *)
Definition wrapFailure (e : exn) : exn :=
  match e with
  | NamecheapError _ _ _ => e
  | Foreign t =>
      NamecheapError
        ("API request failed: " +:+ default "Unknown error" (thrown_message t))
        (Some "REQUEST_FAILED") (Some t)
  end.

(** The body of the [try] once the document is parsed. *)
Definition checkStatus (rootName : string) (root : xml) : result xml :=
  let apiResponse := if decide (rootName = "ApiResponse") then Some root else None in
  attrs ← dollar apiResponse;
  status ← attr "Status" attrs;
  if decide (status = Some "ERROR") then
    errors ← child "Errors" apiResponse;
    errors0 ← first errors;
    errs ← child "Error" errors0;
    error ← first errs;
    text ← underscore error;
    eattrs ← dollar error;
    number ← attr "Number" eattrs;
    Err (NamecheapError (default "" text) number None)
  else
    (* [return apiResponse]: it is defined here, its [$] has been read *)
    match apiResponse with
    | Some r => Ok r
    | None => Err (Foreign (typeError "$"))
    end.

Section Client.
Context {World : Type}.

(** [axios.post(url, null, { params })] followed by
    [parseStringPromise(response.data)], against the outside world. *)
Variable post : string → jsobj → World → reply * World.

Variable config : NamecheapConfig.

Definition M (A : Type) : Type := World → result A * World.

Global Instance M_ret : MRet M := λ A a w, (Ok a, w).
Global Instance M_bind : MBind M := λ A B f m w,
  match m w with
  | (Ok a, w') => f a w'
  | (Err e, w') => (Err e, w')
  end.

Definition lift {A} (r : result A) : M A := λ w, (r, w).

Definition apiUrl : string :=
  if sandbox config then "https://api.sandbox.namecheap.com/xml.response"
  else "https://api.namecheap.com/xml.response".

Definition requestParams (command : string) (params : jsobj) : jsobj :=
  spread
    {[ "ApiUser" := JString (apiUser config);
       "ApiKey" := JString (apiKey config);
       "UserName" := JString (apiUser config);
       "ClientIp" := JString (clientIp config);
       "Command" := JString command ]}
    params.

Definition makeRequest (command : string) (params : jsobj) : M xml := λ w,
  let '(r, w') := post apiUrl (requestParams command params) w in
  let attempt :=
    match r with
    | PostFails cause => Err (Foreign cause)
    | ParseFails cause => Err (Foreign cause)
    | Parsed rootName root => checkStatus rootName root
    end in
  match attempt with
  | Ok apiResponse => (Ok apiResponse, w')
  | Err error => (Err (wrapFailure error), w')
  end.

(** *** DNS operations *)

Definition sldOf (domain : string) : string := hd "" (split_dot domain).
Definition tldOf (domain : string) : string := join "." (tl (split_dot domain)).

Definition hostRecord (host : xml) : result DNSRecord :=
  a ← dollar (Some host);
  hostId ← attr "HostId" a;
  name ← attr "Name" a;
  type ← attr "Type" a;
  address ← attr "Address" a;
  mxPref ← attr "MXPref" a;
  ttl ← attr "TTL" a;
  mret ({[ "hostId" := ofOption hostId;
           "name" := ofOption name;
           "type" := ofOption type;
           "address" := ofOption address;
           "mxPref" := ofOption mxPref;
           "ttl" := ofOption ttl ]} : DNSRecord).

Definition getDNSRecords (domain : string) : M (list DNSRecord) :=
  response ← makeRequest "namecheap.domains.dns.getHosts"
               {[ "SLD" := JString (sldOf domain); "TLD" := JString (tldOf domain) ]};
  lift (cr ← child "CommandResponse" (Some response);
        cr0 ← first cr;
        res ← child "DomainDNSGetHostsResult" cr0;
        res0 ← first res;
        host ← child "host" res0;
        mapM hostRecord (default [] host)).

Definition hostParams (num : nat) (record : DNSRecord) (params : jsobj) : jsobj :=
  let params := <["HostName" +:+ pretty num := record.["name"]]> params in
  let params := <["RecordType" +:+ pretty num := record.["type"]]> params in
  let params := <["Address" +:+ pretty num := record.["address"]]> params in
  let params :=
    if truthy record.["mxPref"]
    then <["MXPref" +:+ pretty num := record.["mxPref"]]> params else params in
  if truthy record.["ttl"]
  then <["TTL" +:+ pretty num := record.["ttl"]]> params else params.

(** [records.forEach((record, index) => ...)] from position [index] on. *)
Fixpoint forEachHost (index : nat) (records : list DNSRecord) (params : jsobj) : jsobj :=
  match records with
  | [] => params
  | record :: rest => forEachHost (S index) rest (hostParams (index + 1) record params)
  end.

Definition setHostsParams (domain : string) (records : list DNSRecord) : jsobj :=
  forEachHost 0 records
    {[ "SLD" := JString (sldOf domain); "TLD" := JString (tldOf domain) ]}.

Definition setDNSRecords (domain : string) (records : list DNSRecord) : M unit :=
  _ ← makeRequest "namecheap.domains.dns.setHosts" (setHostsParams domain records);
  mret ().

Definition addDNSRecord (domain : string) (record : DNSRecord) : M unit :=
  existingRecords ← getDNSRecords domain;
  let updatedRecords := existingRecords ++ [record] in
  setDNSRecords domain updatedRecords.

(** [Object.entries(criteria).every(([key, value]) => record[key] === value)] *)
Definition matches (criteria : jsobj) (record : DNSRecord) : bool :=
  forallb (λ '(key, value), bool_decide (record.[key] = value)) (map_to_list criteria).

Definition updateDNSRecord (domain : string) (criteria updates : jsobj) : M unit :=
  records ← getDNSRecords domain;
  let updatedRecords :=
    map (λ record, if matches criteria record then spread record updates else record)
        records in
  setDNSRecords domain updatedRecords.

Definition deleteDNSRecord (domain : string) (criteria : jsobj) : M unit :=
  records ← getDNSRecords domain;
  let filteredRecords := List.filter (λ record, negb (matches criteria record)) records in
  setDNSRecords domain filteredRecords.

(** *** Domain operations *)

(** The object built from one [DomainCheckResult] element. *)
Definition checkResult (entry : option xml) : result DomainCheckResult :=
  a ← dollar entry;
  domain ← attr "Domain" a;
  a ← dollar entry;
  available ← attr "Available" a;
  a ← dollar entry;
  isPremium ← attr "IsPremiumName" a;
  a ← dollar entry;
  price ← attr "PremiumRegistrationPrice" a;
  mret {| dcr_domain := ofOption domain;
          dcr_available := bool_decide (available = Some "true");
          dcr_isPremium := bool_decide (isPremium = Some "true");
          dcr_premiumPrice := if truthy (ofOption price) then price else None |}.

Definition checkDomain (domain : string) : M DomainCheckResult :=
  response ← makeRequest "namecheap.domains.check" {[ "DomainList" := JString domain ]};
  lift (cr ← child "CommandResponse" (Some response);
        cr0 ← first cr;
        res ← child "DomainCheckResult" cr0;
        entry ← first res;
        checkResult entry).

Definition checkDomains (domains : list string) : M (list DomainCheckResult) :=
  response ← makeRequest "namecheap.domains.check"
               {[ "DomainList" := JString (join "," domains) ]};
  lift (cr ← child "CommandResponse" (Some response);
        cr0 ← first cr;
        res ← child "DomainCheckResult" cr0;
        match res with
        | None => Err (Foreign (typeError "map"))
        | Some entries => mapM (λ entry, checkResult (Some entry)) entries
        end).

(** The object built from one [Domain] element of the list. *)
Definition listedDomain (domain : xml) : result DomainInfo :=
  a ← dollar (Some domain);
  name ← attr "Name" a;
  cre ← attr "Created" a;
  exp ← attr "Expires" a;
  locked ← attr "IsLocked" a;
  renew ← attr "AutoRenew" a;
  guard ← attr "WhoisGuard" a;
  mret {| domainName := XText <$> name;
          created := XText <$> cre;
          expires := XText <$> exp;
          isLocked := bool_decide (locked = Some "true");
          isAutoRenew := bool_decide (renew = Some "true");
          whoisGuard := bool_decide (guard = Some "ENABLED") |}.

(** Returns [{ domains, totalItems }]; the defaults [page = 1] and
    [pageSize = 20] are the caller's to pass. *)
Definition listDomains (page pageSize : Z) : M (list DomainInfo * option Z) :=
  response ← makeRequest "namecheap.domains.getList"
               {[ "Page" := JNumber page; "PageSize" := JNumber pageSize ]};
  lift (pg ← child "Paging" (Some response);
        pg0 ← first pg;
        paging ← dollar pg0;
        cr ← child "CommandResponse" (Some response);
        cr0 ← first cr;
        res ← child "DomainGetListResult" cr0;
        res0 ← first res;
        domainNode ← child "Domain" res0;
        let domainList := default [] domainNode in
        domains ← mapM listedDomain domainList;
        totalItems ← attr "TotalItems" paging;
        mret (domains, parseInt (ofOption totalItems))).

Definition getDomainInfo (domain : string) : M DomainInfo :=
  response ← makeRequest "namecheap.domains.getInfo" {[ "DomainName" := JString domain ]};
  lift (cr ← child "CommandResponse" (Some response);
        cr0 ← first cr;
        res ← child "DomainGetInfoResult" cr0;
        res0 ← first res;
        dd ← child "DomainDetails" res0;
        domainDetail ← first dd;
        cd ← child "CreatedDate" domainDetail;
        cd0 ← first cd;
        ed ← child "ExpiredDate" domainDetail;
        ed0 ← first ed;
        lk ← child "IsLocked" domainDetail;
        lk0 ← first lk;
        ar ← child "AutoRenew" domainDetail;
        ar0 ← first ar;
        wg ← child "WhoisGuard" domainDetail;
        wg0 ← first wg;
        wga ← dollar wg0;
        enabled ← attr "Enabled" wga;
        mret {| domainName := Some (XText domain);
                created := cd0;
                expires := ed0;
                isLocked := isText "true" lk0;
                isAutoRenew := isText "true" ar0;
                whoisGuard := bool_decide (enabled = Some "true") |}).

Definition registerParams (domain : string) (years : Z) (contactInfo : ContactInfo) : jsobj :=
  list_to_map
    [ ("DomainName", JString domain);
      ("Years", JNumber years);
      ("AuxBillingFirstName", JString (firstName contactInfo));
      ("AuxBillingLastName", JString (lastName contactInfo));
      ("AuxBillingAddress1", JString (address1 contactInfo));
      ("AuxBillingCity", JString (city contactInfo));
      ("AuxBillingStateProvince", JString (stateProvince contactInfo));
      ("AuxBillingPostalCode", JString (postalCode contactInfo));
      ("AuxBillingCountry", JString (country contactInfo));
      ("AuxBillingPhone", JString (phone contactInfo));
      ("AuxBillingEmailAddress", JString (emailAddress contactInfo));
      ("TechFirstName", JString (firstName contactInfo));
      ("TechLastName", JString (lastName contactInfo));
      ("TechAddress1", JString (address1 contactInfo));
      ("TechCity", JString (city contactInfo));
      ("TechStateProvince", JString (stateProvince contactInfo));
      ("TechPostalCode", JString (postalCode contactInfo));
      ("TechCountry", JString (country contactInfo));
      ("TechPhone", JString (phone contactInfo));
      ("TechEmailAddress", JString (emailAddress contactInfo));
      ("AdminFirstName", JString (firstName contactInfo));
      ("AdminLastName", JString (lastName contactInfo));
      ("AdminAddress1", JString (address1 contactInfo));
      ("AdminCity", JString (city contactInfo));
      ("AdminStateProvince", JString (stateProvince contactInfo));
      ("AdminPostalCode", JString (postalCode contactInfo));
      ("AdminCountry", JString (country contactInfo));
      ("AdminPhone", JString (phone contactInfo));
      ("AdminEmailAddress", JString (emailAddress contactInfo));
      ("RegistrantFirstName", JString (firstName contactInfo));
      ("RegistrantLastName", JString (lastName contactInfo));
      ("RegistrantAddress1", JString (address1 contactInfo));
      ("RegistrantCity", JString (city contactInfo));
      ("RegistrantStateProvince", JString (stateProvince contactInfo));
      ("RegistrantPostalCode", JString (postalCode contactInfo));
      ("RegistrantCountry", JString (country contactInfo));
      ("RegistrantPhone", JString (phone contactInfo));
      ("RegistrantEmailAddress", JString (emailAddress contactInfo)) ].

(** Returns [{ domainId, orderId }]; the default [years = 1] is the
    caller's to pass. *)
Definition registerDomain (domain : string) (years : Z) (contactInfo : ContactInfo)
  : M (jsval * jsval) :=
  let params := registerParams domain years contactInfo in
  response ← makeRequest "namecheap.domains.create" params;
  lift (cr ← child "CommandResponse" (Some response);
        cr0 ← first cr;
        res ← child "DomainCreateResult" cr0;
        entry ← first res;
        a ← dollar entry;
        domainId ← attr "DomainID" a;
        a ← dollar entry;
        orderId ← attr "OrderID" a;
        mret (ofOption domainId, ofOption orderId)).

(** *** The [register-domain] tool handler ([registerDomainTool.execute]) *)

Record RegisterArgs := {
  arg_domain : string;
  arg_years : Z;
  arg_firstName : string;
  arg_lastName : string;
  arg_address : string;
  arg_city : string;
  arg_stateProvince : string;
  arg_postalCode : string;
  arg_country : string;
  arg_phone : string;
  arg_email : string;
}.

(** One entry of [content]. *)
Record ContentItem := { item_type : string; item_text : string }.

Definition contactOf (args : RegisterArgs) : ContactInfo :=
  {| firstName := arg_firstName args;
     lastName := arg_lastName args;
     address1 := arg_address args;
     city := arg_city args;
     stateProvince := arg_stateProvince args;
     postalCode := arg_postalCode args;
     country := arg_country args;
     phone := arg_phone args;
     emailAddress := arg_email args |}.

Definition registerDomainTool_try (args : RegisterArgs) : M (list ContentItem) :=
  availability ← checkDomain (arg_domain args);
  if negb (dcr_available availability) then
    mret [ {| item_type := "text";
              item_text := "Domain " +:+ arg_domain args +:+
                           " is not available for registration." |} ]
  else
    created ← registerDomain (arg_domain args) (arg_years args) (contactOf args);
    mret [ {| item_type := "text";
              item_text := "Successfully registered " +:+ arg_domain args +:+ " for " +:+
                           pretty (arg_years args) +:+ " year(s)!" +:+ String "010" (String "010" "") +:+
                           "Domain ID: " +:+ toString (fst created) +:+ String "010" "" +:+
                           "Order ID: " +:+ toString (snd created) |} ].

Definition registerDomainTool_execute (args : RegisterArgs) : M (list ContentItem) := λ w,
  match registerDomainTool_try args w with
  | (Ok r, w') => (Ok r, w')
  | (Err error, w') =>
      (Err (Foreign (ErrorObject "Error"
              ("Failed to register domain: " +:+
                 default "Unknown error" (exn_message error)))), w')
  end.

End Client.

Arguments M World A : clear implicits.

(** ** Worlds to run the client against *)

(** A scripted world answers the requests with the replies of a list, in
    order, and refuses the connection once the list is used up. *)
Module Scripted.

Definition post (url : string) (params : jsobj) (w : list reply) : reply * list reply :=
  match w with
  | [] => (PostFails (ErrorObject "Error" "connect ECONNREFUSED"), [])
  | r :: w' => (r, w')
  end.

End Scripted.

(** A world that also keeps the requests it was sent, oldest first. *)
Definition recording {World : Type} (post : string → jsobj → World → reply * World)
    (url : string) (params : jsobj) (w : World * list (string * jsobj))
  : reply * (World * list (string * jsobj)) :=
  let '(r, w') := post url params (fst w) in
  (r, (w', snd w ++ [(url, params)])).

(** Modelled from the spec: the remote registrar is not part of the
    repository.  Its zone store follows sections 3, 4.2 and 6 of the
    specification: a zone is addressed by the pair (SLD, TLD), the read
    command reports every record of the zone as a [host] element with its
    attributes, and the write command replaces the whole zone by the records
    that the indexed parameters [HostName{i}], [RecordType{i}],
    [Address{i}], [MXPref{i}] and [TTL{i}] spell out, [i] counting from 1.
    The registrar gives every stored record an identifier of its own. *)
Module Registrar.

Record host := {
  hostId : N;
  hostName : string;
  recordType : string;
  hostAddress : string;
  hostMXPref : option string;
  hostTTL : option string;
}.

Record state := {
  zones : gmap (string * string) (list host);
  nextHostId : N;
}.

(** The query string that axios sends: a parameter without a value is
    left out, any other is sent as text. *)
Definition wire (params : jsobj) : gmap string string :=
  omap (λ v, match v with JUndefined => None | _ => Some (toString v) end) params.

Definition hostAt (p : gmap string string) (next : N) (i : nat) : option host :=
  name ← p !! ("HostName" +:+ pretty i);
  type ← p !! ("RecordType" +:+ pretty i);
  address ← p !! ("Address" +:+ pretty i);
  Some {| hostId := next;
          hostName := name;
          recordType := type;
          hostAddress := address;
          hostMXPref := p !! ("MXPref" +:+ pretty i);
          hostTTL := p !! ("TTL" +:+ pretty i) |}.

(** The records at the positions [i], [i+1], ... up to the first gap;
    there cannot be more of them than there are parameters. *)
Fixpoint hostsFrom (p : gmap string string) (next : N) (i : nat) (fuel : nat) : list host :=
  match fuel with
  | 0 => []
  | S fuel' =>
      match hostAt p next i with
      | Some h => h :: hostsFrom p (N.succ next) (S i) fuel'
      | None => []
      end
  end.

Definition decodeHosts (p : gmap string string) (next : N) : list host :=
  hostsFrom p next 1 (size p).

Definition withAttr (name : string) (value : option string) (a : gmap string string)
  : gmap string string :=
  match value with
  | Some v => <[name := v]> a
  | None => a
  end.

Definition hostElem (h : host) : xml :=
  XElem
    (Some (withAttr "MXPref" (hostMXPref h)
             (withAttr "TTL" (hostTTL h)
                {[ "HostId" := pretty (hostId h);
                   "Name" := hostName h;
                   "Type" := recordType h;
                   "Address" := hostAddress h ]})))
    None [].

Definition respond (command : string) (results : list (string * list xml)) : reply :=
  Parsed "ApiResponse"
    (XElem (Some {[ "Status" := "OK" ]}) None
       [ ("CommandResponse", [ XElem (Some {[ "Type" := command ]}) None results ]) ]).

Definition failure (number text : string) : reply :=
  Parsed "ApiResponse"
    (XElem (Some {[ "Status" := "ERROR" ]}) None
       [ ("Errors", [ XElem None None
                        [ ("Error", [ XElem (Some {[ "Number" := number ]}) (Some text) [] ]) ] ]) ]).

Definition zone (s : state) (sld tld : string) : list host :=
  default [] (zones s !! (sld, tld)).

Definition getHosts (sld tld : string) (s : state) : reply * state :=
  let hosts := zone s sld tld in
  (respond "namecheap.domains.dns.getHosts"
     [ ("DomainDNSGetHostsResult",
        [ XElem (Some {[ "Domain" := sld +:+ "." +:+ tld ]}) None
            match hosts with
            | [] => []
            | _ => [ ("host", map hostElem hosts) ]
            end ]) ],
   s).

Definition setHosts (sld tld : string) (p : gmap string string) (s : state) : reply * state :=
  let hosts := decodeHosts p (nextHostId s) in
  (respond "namecheap.domains.dns.setHosts"
     [ ("DomainDNSSetHostsResult",
        [ XElem (Some {[ "Domain" := sld +:+ "." +:+ tld; "IsSuccess" := "true" ]}) None [] ]) ],
   {| zones := <[(sld, tld) := hosts]> (zones s);
      nextHostId := (nextHostId s + N.of_nat (length hosts))%N |}).

(** Modelled from the spec: the answer of the registrar to one request,
    for the two zone commands; the registrar itself is outside the
    repository. *)
Definition post (url : string) (params : jsobj) (s : state) : reply * state :=
  let p := wire params in
  match p !! "Command", p !! "SLD", p !! "TLD" with
  | Some command, Some sld, Some tld =>
      if decide (command = "namecheap.domains.dns.getHosts") then getHosts sld tld s
      else if decide (command = "namecheap.domains.dns.setHosts") then setHosts sld tld p s
      else (failure "1011102" "Parameter Command is invalid", s)
  | _, _, _ => (failure "1011102" "Parameter is missing", s)
  end.

End Registrar.

(** ** The operations of the facade, as data *)

Inductive operation :=
| CheckDomain (domain : string)
| CheckDomains (domains : list string)
| ListDomains (page pageSize : Z)
| GetDomainInfo (domain : string)
| GetDNSRecords (domain : string)
| SetDNSRecords (domain : string) (records : list DNSRecord)
| AddDNSRecord (domain : string) (record : DNSRecord)
| UpdateDNSRecord (domain : string) (criteria updates : jsobj)
| DeleteDNSRecord (domain : string) (criteria : jsobj)
| RegisterDomain (domain : string) (years : Z) (contactInfo : ContactInfo).

(** What is left of a run when the returned value is set aside: the error
    thrown, if any, and the world. *)
Definition outcome {World A} (m : M World A) (w : World) : option exn * World :=
  match m w with
  | (Ok _, w') => (None, w')
  | (Err e, w') => (Some e, w')
  end.

Definition perform {World : Type} (post : string → jsobj → World → reply * World)
    (config : NamecheapConfig) (o : operation) : World → option exn * World :=
  match o with
  | CheckDomain domain => outcome (checkDomain post config domain)
  | CheckDomains domains => outcome (checkDomains post config domains)
  | ListDomains page pageSize => outcome (listDomains post config page pageSize)
  | GetDomainInfo domain => outcome (getDomainInfo post config domain)
  | GetDNSRecords domain => outcome (getDNSRecords post config domain)
  | SetDNSRecords domain records => outcome (setDNSRecords post config domain records)
  | AddDNSRecord domain record => outcome (addDNSRecord post config domain record)
  | UpdateDNSRecord domain criteria updates =>
      outcome (updateDNSRecord post config domain criteria updates)
  | DeleteDNSRecord domain criteria => outcome (deleteDNSRecord post config domain criteria)
  | RegisterDomain domain years contactInfo =>
      outcome (registerDomain post config domain years contactInfo)
  end.

(** The command and the parameters of the first gateway call of an
    operation. *)
Definition firstRequest (o : operation) : string * jsobj :=
  match o with
  | CheckDomain domain =>
      ("namecheap.domains.check", {[ "DomainList" := JString domain ]})
  | CheckDomains domains =>
      ("namecheap.domains.check", {[ "DomainList" := JString (join "," domains) ]})
  | ListDomains page pageSize =>
      ("namecheap.domains.getList", {[ "Page" := JNumber page; "PageSize" := JNumber pageSize ]})
  | GetDomainInfo domain =>
      ("namecheap.domains.getInfo", {[ "DomainName" := JString domain ]})
  | GetDNSRecords domain | AddDNSRecord domain _
  | UpdateDNSRecord domain _ _ | DeleteDNSRecord domain _ =>
      ("namecheap.domains.dns.getHosts",
       {[ "SLD" := JString (sldOf domain); "TLD" := JString (tldOf domain) ]})
  | SetDNSRecords domain records =>
      ("namecheap.domains.dns.setHosts", setHostsParams domain records)
  | RegisterDomain domain years contactInfo =>
      ("namecheap.domains.create", registerParams domain years contactInfo)
  end.

(** ** Vocabulary of the specification *)

(** The response carries the status [ERROR] and its first [Errors] entry
    is [{Number: code, text: message}]. *)
Definition reportsError (root : xml) (code message : string) : Prop :=
  ∃ a t cs ea et ecs more na ncs more',
    root = XElem (Some a) t cs
    ∧ a !! "Status" = Some "ERROR"
    ∧ assoc "Errors" cs = Some (XElem ea et ecs :: more)
    ∧ assoc "Error" ecs = Some (XElem (Some na) (Some message) ncs :: more')
    ∧ na !! "Number" = Some code.

(** The response does not carry the status [ERROR] and the first
    [CommandResponse] element has [node] as its first child called [name]. *)
Definition commandResult (root : xml) (name : string) (node : xml) : Prop :=
  ∃ a t cs ca ct ccs more more',
    root = XElem (Some a) t cs
    ∧ a !! "Status" ≠ Some "ERROR"
    ∧ assoc "CommandResponse" cs = Some (XElem ca ct ccs :: more)
    ∧ assoc name ccs = Some (node :: more').

(** The first [Paging] element of the response has the attributes [pa]. *)
Definition pagingAttrs (root : xml) (pa : gmap string string) : Prop :=
  ∃ a t cs pt pcs more,
    root = XElem a t cs ∧ assoc "Paging" cs = Some (XElem (Some pa) pt pcs :: more).

(** The node has no child element called [name]. *)
Definition lacksChild (name : string) (node : xml) : Prop :=
  match node with
  | XText _ => True
  | XElem _ _ cs => assoc name cs = None
  end.

(** The two kinds of failure of the specification, told apart by what a
    [NamecheapError] carries: the wrapped cause of a transport failure, or
    nothing but the code and message that the remote system reported. *)
Inductive errorKind := TransportError | RemoteApiError | OtherError.

Definition kindOf (e : exn) : errorKind :=
  match e with
  | NamecheapError _ _ (Some _) => TransportError
  | NamecheapError _ _ None => RemoteApiError
  | Foreign _ => OtherError
  end.

(** A record satisfies the criteria when every property that the criteria
    carry has the same value in the record. *)
Definition criteriaHold (criteria : jsobj) (record : DNSRecord) : Prop :=
  map_Forall (λ key value, record.[key] = value) criteria.

Global Instance criteriaHold_dec criteria record : Decision (criteriaHold criteria record).
Proof. unfold criteriaHold. apply _. Defined.

(** The parameter names that belong to position [n]. *)
Definition indexedKeys (n : nat) : list string :=
  [ "HostName" +:+ pretty n; "RecordType" +:+ pretty n; "Address" +:+ pretty n;
    "MXPref" +:+ pretty n; "TTL" +:+ pretty n ].

(** A name that is not an indexed parameter of any position. *)
Definition plainKey (k : string) : Prop := ∀ n, k ∉ indexedKeys n.

(** A value of the TypeScript type [string]. *)
Definition isString (v : jsval) : Prop := ∃ s, v = JString s.

(** A value of the TypeScript type [string | undefined]. *)
Definition isOptString (v : jsval) : Prop := v = JUndefined ∨ isString v.

(** The record is a [DNSRecord] as the interface declares it. *)
Definition typedRecord (record : DNSRecord) : Prop :=
  isString record.["name"] ∧ isString record.["type"] ∧ isString record.["address"]
  ∧ isOptString record.["mxPref"] ∧ isOptString record.["ttl"].

(** An optional property that holds nothing, or the empty string, counts
    as absent. *)
Definition optional (v : jsval) : jsval := if truthy v then v else JUndefined.

(** What a record says about the zone: everything but the identifier that
    the registrar hands out. *)
Definition content (record : DNSRecord) : jsval * jsval * jsval * jsval * jsval :=
  (record.["name"], record.["type"], record.["address"],
   optional record.["mxPref"], optional record.["ttl"]).

(** The record that [getDNSRecords] builds from a stored host. *)
Definition recordOfHost (h : Registrar.host) : DNSRecord :=
  {[ "hostId" := JString (pretty (Registrar.hostId h));
     "name" := JString (Registrar.hostName h);
     "type" := JString (Registrar.recordType h);
     "address" := JString (Registrar.hostAddress h);
     "mxPref" := ofOption (Registrar.hostMXPref h);
     "ttl" := ofOption (Registrar.hostTTL h) ]}.

(** The host that the registrar stores for a record sent to it. *)
Definition sent (v : jsval) : option string :=
  if truthy v then Some (toString v) else None.

Definition hostOfRecord (id : N) (record : DNSRecord) : Registrar.host :=
  {| Registrar.hostId := id;
     Registrar.hostName := toString record.["name"];
     Registrar.recordType := toString record.["type"];
     Registrar.hostAddress := toString record.["address"];
     Registrar.hostMXPref := sent record.["mxPref"];
     Registrar.hostTTL := sent record.["ttl"] |}.

(** The hosts that the registrar stores for a list of records, the
    identifiers counting up from [next]. *)
Fixpoint stamp (next : N) (records : list DNSRecord) : list Registrar.host :=
  match records with
  | [] => []
  | record :: rest => hostOfRecord next record :: stamp (N.succ next) rest
  end.

(** The hosts of a zone with fresh identifiers, counting up from [next]. *)
Fixpoint renumber (next : N) (hosts : list Registrar.host) : list Registrar.host :=
  match hosts with
  | [] => []
  | h :: rest =>
      {| Registrar.hostId := next;
         Registrar.hostName := Registrar.hostName h;
         Registrar.recordType := Registrar.recordType h;
         Registrar.hostAddress := Registrar.hostAddress h;
         Registrar.hostMXPref := Registrar.hostMXPref h;
         Registrar.hostTTL := Registrar.hostTTL h |} :: renumber (N.succ next) rest
  end.

(** No optional attribute of the host is stored as the empty string. *)
Definition filledOptionals (h : Registrar.host) : Prop :=
  Registrar.hostMXPref h ≠ Some "" ∧ Registrar.hostTTL h ≠ Some "".

(** ** Sample data *)

Module Sample.

Definition config : NamecheapConfig :=
  {| apiUser := "alice"; apiKey := "secret"; clientIp := "203.0.113.7"; sandbox := true |}.

(** A zone [example.com] with the two records
    (name=a, type=A, address=1.1.1.1) and (name=b, type=A, address=2.2.2.2). *)
Definition hostA : Registrar.host :=
  {| Registrar.hostId := 11; Registrar.hostName := "a"; Registrar.recordType := "A";
     Registrar.hostAddress := "1.1.1.1"; Registrar.hostMXPref := Some "10";
     Registrar.hostTTL := Some "1800" |}.

Definition hostB : Registrar.host :=
  {| Registrar.hostId := 12; Registrar.hostName := "b"; Registrar.recordType := "A";
     Registrar.hostAddress := "2.2.2.2"; Registrar.hostMXPref := Some "10";
     Registrar.hostTTL := Some "1800" |}.

Definition registrar : Registrar.state :=
  {| Registrar.zones := {[ ("example", "com") := [hostA; hostB] ]};
     Registrar.nextHostId := 13 |}.

Definition recordA : DNSRecord :=
  {[ "hostId" := JString "11"; "name" := JString "a"; "type" := JString "A";
     "address" := JString "1.1.1.1"; "mxPref" := JString "10"; "ttl" := JString "1800" ]}.

Definition recordB : DNSRecord :=
  {[ "hostId" := JString "12"; "name" := JString "b"; "type" := JString "A";
     "address" := JString "2.2.2.2"; "mxPref" := JString "10"; "ttl" := JString "1800" ]}.

(** The record that the [add-dns-record] tool builds for a CNAME. *)
Definition recordWww : DNSRecord :=
  {[ "name" := JString "www"; "type" := JString "CNAME";
     "address" := JString "example.com."; "mxPref" := JUndefined; "ttl" := JUndefined ]}.

Definition criteriaA : jsobj := {[ "name" := JString "a"; "type" := JString "A" ]}.
Definition criteriaNone : jsobj := {[ "name" := JString "zzz"; "type" := JString "A" ]}.
Definition updatesAddress : jsobj := {[ "address" := JString "9.9.9.9" ]}.

(** The answer of the registrar to a registration of a taken name. *)
Definition alreadyExists : xml :=
  XElem (Some {[ "Status" := "ERROR" ]}) None
    [ ("Errors",
       [ XElem None None
           [ ("Error",
              [ XElem (Some {[ "Number" := "2019166" ]})
                  (Some "Domain name already exists") [] ]) ] ]) ].

Definition contact : ContactInfo :=
  {| firstName := "Ada"; lastName := "Lovelace"; address1 := "12 St James Square";
     city := "London"; stateProvince := "London"; postalCode := "SW1Y 4JH";
     country := "GB"; phone := "+44.2071234567"; emailAddress := "ada@example.org" |}.

Definition registerArgs : RegisterArgs :=
  {| arg_domain := "example.org"; arg_years := 2;
     arg_firstName := "Ada"; arg_lastName := "Lovelace";
     arg_address := "12 St James Square"; arg_city := "London";
     arg_stateProvince := "London"; arg_postalCode := "SW1Y 4JH";
     arg_country := "GB"; arg_phone := "+44.2071234567";
     arg_email := "ada@example.org" |}.

(** Answers to an availability check. *)
Definition checked (available : string) : xml :=
  XElem (Some {[ "Status" := "OK" ]}) None
    [ ("CommandResponse",
       [ XElem (Some {[ "Type" := "namecheap.domains.check" ]}) None
           [ ("DomainCheckResult",
              [ XElem (Some {[ "Domain" := "example.org"; "Available" := available;
                               "IsPremiumName" := "false" ]}) None [] ]) ] ]) ].

(** The answer to a registration that went through. *)
Definition registered : xml :=
  XElem (Some {[ "Status" := "OK" ]}) None
    [ ("CommandResponse",
       [ XElem (Some {[ "Type" := "namecheap.domains.create" ]}) None
           [ ("DomainCreateResult",
              [ XElem (Some {[ "Domain" := "example.org"; "Registered" := "true";
                               "DomainID" := "9007"; "OrderID" := "196074" ]})
                  None [] ]) ] ]) ].

(** An account without domains: the list result has no [Domain] child,
    the paging node stands beside the command response. *)
Definition noDomains : xml :=
  XElem (Some {[ "Status" := "OK" ]}) None
    [ ("CommandResponse",
       [ XElem (Some {[ "Type" := "namecheap.domains.getList" ]}) None
           [ ("DomainGetListResult", [ XText "" ]) ] ]);
      ("Paging", [ XElem (Some {[ "TotalItems" := "0"; "CurrentPage" := "1";
                                  "PageSize" := "20" ]}) None [] ]) ].

(** A zone without records. *)
Definition noHosts : xml :=
  XElem (Some {[ "Status" := "OK" ]}) None
    [ ("CommandResponse",
       [ XElem (Some {[ "Type" := "namecheap.domains.dns.getHosts" ]}) None
           [ ("DomainDNSGetHostsResult",
              [ XElem (Some {[ "Domain" := "example.org"; "IsUsingOurDNS" := "true" ]})
                  None [] ]) ] ]) ].

(** A zone where the name [a] has an address record and a text record. *)
Definition hostATxt : Registrar.host :=
  {| Registrar.hostId := 21; Registrar.hostName := "a"; Registrar.recordType := "TXT";
     Registrar.hostAddress := "v=spf1 -all"; Registrar.hostMXPref := None;
     Registrar.hostTTL := None |}.

Definition registrarTxt : Registrar.state :=
  {| Registrar.zones := {[ ("example", "com") := [hostA; hostATxt] ]};
     Registrar.nextHostId := 22 |}.

End Sample.

(** * The rest of the code *)

(** ** Vocabulary for the client *)

(** The string has a dot in it. *)
Fixpoint hasDot (s : string) : bool :=
  match s with
  | EmptyString => false
  | String c s' => if decide (c = "."%char) then true else hasDot s'
  end.

(** The attributes of a [host] element, when it has any. *)
Definition hostAttrs (host : xml) : option (gmap string string) :=
  match host with
  | XText _ => None
  | XElem a _ _ => a
  end.

(** ** The DNS tool handlers ([src/tools/dns.ts])

    A handler receives the arguments that its schema describes: strings,
    and options for the fields that the schema marks optional. *)

(** [args.value || fallback]. *)
Definition orElse (value : option string) (fallback : string) : string :=
  match value with
  | Some v => if truthy (JString v) then v else fallback
  | None => fallback
  end.

(** [if (value) object[key] = value]. *)
Definition ifGiven (key : string) (value : option string) (object : jsobj) : jsobj :=
  match value with
  | Some v => if truthy (JString v) then <[key := JString v]> object else object
  | None => object
  end.

(** [s.replace('.', '-')]: the first dot, if there is one, becomes a dash. *)
Fixpoint replaceDot (s : string) : string :=
  match s with
  | EmptyString => EmptyString
  | String c s' =>
      if decide (c = "."%char) then String "-" s' else String c (replaceDot s')
  end.

Inductive template := GoogleWorkspace | Microsoft365 | Vercel | Netlify | GithubPages.

Definition templateName (t : template) : string :=
  match t with
  | GoogleWorkspace => "google-workspace"
  | Microsoft365 => "microsoft-365"
  | Vercel => "vercel"
  | Netlify => "netlify"
  | GithubPages => "github-pages"
  end.

Record AddArgs := {
  add_domain : string;
  add_name : string;
  add_type : string;
  add_address : string;
  add_mxPref : option string;
  add_ttl : option string;
}.

Record UpdateArgs := {
  upd_domain : string;
  upd_findName : string;
  upd_findType : string;
  upd_newAddress : option string;
  upd_newName : option string;
  upd_newTtl : option string;
}.

Record DeleteArgs := {
  del_domain : string;
  del_name : string;
  del_type : string;
  del_address : option string;
}.

Record TemplateArgs := {
  tpl_domain : string;
  tpl_template : template;
  tpl_customValue : option string;
}.

(** The records of a template, as the [switch] builds them. *)
Definition templateRecords (args : TemplateArgs) : list DNSRecord :=
  match tpl_template args with
  | GoogleWorkspace =>
      [ {[ "name" := JString "@"; "type" := JString "MX";
           "address" := JString "aspmx.l.google.com"; "mxPref" := JString "1" ]};
        {[ "name" := JString "@"; "type" := JString "MX";
           "address" := JString "alt1.aspmx.l.google.com"; "mxPref" := JString "5" ]};
        {[ "name" := JString "@"; "type" := JString "MX";
           "address" := JString "alt2.aspmx.l.google.com"; "mxPref" := JString "5" ]};
        {[ "name" := JString "@"; "type" := JString "MX";
           "address" := JString "alt3.aspmx.l.google.com"; "mxPref" := JString "10" ]};
        {[ "name" := JString "@"; "type" := JString "MX";
           "address" := JString "alt4.aspmx.l.google.com"; "mxPref" := JString "10" ]};
        {[ "name" := JString "@"; "type" := JString "TXT";
           "address" := JString "v=spf1 include:_spf.google.com ~all" ]} ]
  | Microsoft365 =>
      [ {[ "name" := JString "@"; "type" := JString "MX";
           "address" := JString (replaceDot (tpl_domain args) +:+
                                   ".mail.protection.outlook.com");
           "mxPref" := JString "0" ]};
        {[ "name" := JString "@"; "type" := JString "TXT";
           "address" := JString "v=spf1 include:spf.protection.outlook.com -all" ]};
        {[ "name" := JString "autodiscover"; "type" := JString "CNAME";
           "address" := JString "autodiscover.outlook.com" ]} ]
  | Vercel =>
      let vercelApp := orElse (tpl_customValue args) "cname.vercel-dns.com" in
      [ {[ "name" := JString "@"; "type" := JString "A"; "address" := JString "76.76.21.21" ]};
        {[ "name" := JString "www"; "type" := JString "CNAME";
           "address" := JString vercelApp ]} ]
  | Netlify =>
      let netlifyApp := orElse (tpl_customValue args) "apex-loadbalancer.netlify.com" in
      [ {[ "name" := JString "@"; "type" := JString "A"; "address" := JString "75.2.60.5" ]};
        {[ "name" := JString "www"; "type" := JString "CNAME";
           "address" := JString netlifyApp ]} ]
  | GithubPages =>
      [ {[ "name" := JString "@"; "type" := JString "A";
           "address" := JString "185.199.108.153" ]};
        {[ "name" := JString "@"; "type" := JString "A";
           "address" := JString "185.199.109.153" ]};
        {[ "name" := JString "@"; "type" := JString "A";
           "address" := JString "185.199.110.153" ]};
        {[ "name" := JString "@"; "type" := JString "A";
           "address" := JString "185.199.111.153" ]};
        {[ "name" := JString "www"; "type" := JString "CNAME";
           "address" := JString (orElse (tpl_customValue args) "username" +:+ ".github.io") ]} ]
  end.

(** [records.some(newRecord => existing.name === newRecord.name &&
    existing.type === newRecord.type)] *)
Definition conflicts (records : list DNSRecord) (existing : DNSRecord) : bool :=
  existsb (λ newRecord,
             bool_decide (existing.["name"] = newRecord.["name"])
             && bool_decide (existing.["type"] = newRecord.["type"]))
          records.

Definition textContent (text : string) : list ContentItem :=
  [ {| item_type := "text"; item_text := text |} ].

Definition newline : string := String "010" "".

Section Tools.
Context {World : Type}.
Variable post : string → jsobj → World → reply * World.
Variable config : NamecheapConfig.

(** [try { ... } catch (error) { throw new Error(`${what}${error instanceof
    Error ? error.message : 'Unknown error'}`) }] *)
Definition rethrow {A} (what : string) (m : M World A) : M World A := λ w,
  match m w with
  | (Ok r, w') => (Ok r, w')
  | (Err error, w') =>
      (Err (Foreign (ErrorObject "Error"
              (what +:+ default "Unknown error" (exn_message error)))), w')
  end.

Definition addDNSRecordTool_execute (args : AddArgs) : M World (list ContentItem) :=
  rethrow "Failed to add DNS record: "
    (let record : DNSRecord :=
       {[ "name" := JString (add_name args);
          "type" := JString (add_type args);
          "address" := JString (add_address args);
          "mxPref" := ofOption (add_mxPref args);
          "ttl" := ofOption (add_ttl args) ]} in
     _ ← addDNSRecord post config (add_domain args) record;
     mret (textContent ("Successfully added " +:+ add_type args +:+ " record:" +:+ newline +:+
                        add_name args +:+ " → " +:+ add_address args))).

Definition updateDNSRecordTool_execute (args : UpdateArgs) : M World (list ContentItem) :=
  rethrow "Failed to update DNS record: "
    (let criteria : jsobj :=
       {[ "name" := JString (upd_findName args); "type" := JString (upd_findType args) ]} in
     let updates : jsobj := ∅ in
     let updates := ifGiven "address" (upd_newAddress args) updates in
     let updates := ifGiven "name" (upd_newName args) updates in
     let updates := ifGiven "ttl" (upd_newTtl args) updates in
     _ ← updateDNSRecord post config (upd_domain args) criteria updates;
     mret (textContent ("Successfully updated " +:+ upd_findType args +:+ " record for " +:+
                        upd_findName args))).

Definition deleteDNSRecordTool_execute (args : DeleteArgs) : M World (list ContentItem) :=
  rethrow "Failed to delete DNS record: "
    (let criteria : jsobj :=
       {[ "name" := JString (del_name args); "type" := JString (del_type args) ]} in
     let criteria := ifGiven "address" (del_address args) criteria in
     _ ← deleteDNSRecord post config (del_domain args) criteria;
     mret (textContent ("Successfully deleted " +:+ del_type args +:+ " record for " +:+
                        del_name args))).

Definition applyDNSTemplateTool_execute (args : TemplateArgs) : M World (list ContentItem) :=
  rethrow "Failed to apply DNS template: "
    (let records := templateRecords args in
     existingRecords ← getDNSRecords post config (tpl_domain args);
     let nonConflictingRecords :=
       List.filter (λ existing, negb (conflicts records existing)) existingRecords in
     let allRecords := nonConflictingRecords ++ records in
     _ ← setDNSRecords post config (tpl_domain args) allRecords;
     mret (textContent
             ("Successfully applied " +:+ templateName (tpl_template args) +:+
              " template to " +:+ tpl_domain args +:+ newline +:+ newline +:+
              "Added records:" +:+ newline +:+
              join newline
                (map (λ r, toString r.["type"] +:+ " " +:+ toString r.["name"] +:+ " → " +:+
                           toString r.["address"]) records)))).

End Tools.

(** ** The [suggest-domains] tool *)

(** The characters that [/[^a-z0-9-]/g] leaves in place. *)
Definition allowedChar (c : ascii) : bool :=
  let n := nat_of_ascii c in
  (Nat.leb 97 n && Nat.leb n 122) || (Nat.leb 48 n && Nat.leb n 57) || Nat.eqb n 45.

(** [s.replace(/[^a-z0-9-]/g, '')].  A character outside ASCII is encoded
    by bytes above 127, none of which is allowed, so the bytes left are the
    characters left. *)
Fixpoint strip (s : string) : string :=
  match s with
  | EmptyString => EmptyString
  | String c s' => if allowedChar c then String c (strip s') else strip s'
  end.

(** The names pushed for one TLD. *)
Definition suggestionsFor (base : string) (includeVariations : bool) (tld : string)
  : list string :=
  (base +:+ tld) ::
  (if includeVariations then
     [ "get" +:+ base +:+ tld;
       "my" +:+ base +:+ tld;
       "the" +:+ base +:+ tld;
       "go" +:+ base +:+ tld;
       base +:+ "app" +:+ tld;
       base +:+ "hq" +:+ tld;
       base +:+ "io" +:+ tld;
       base +:+ "pro" +:+ tld;
       base +:+ "-app" +:+ tld;
       base +:+ "-online" +:+ tld ]
   else []).

Definition batchSize : nat := 20.

(** [array.slice(i, j)] for [i ≤ j]. *)
Definition slice {A} (i j : nat) (l : list A) : list A := take (j - i) (drop i l).

(** The arguments as the handler finds them: [tlds] may be missing, and
    [includeVariations] counts by its truthiness. *)
Record SuggestArgs := {
  sug_baseKeyword : string;
  sug_tlds : option (list string);
  sug_includeVariations : bool;
}.

Record Suggestion := {
  sug_domain : jsval;
  sug_available : bool;
  sug_isPremium : bool;
}.

Definition isFree (r : Suggestion) : bool := sug_available r && negb (sug_isPremium r).
Definition isPremiumOffer (r : Suggestion) : bool := sug_available r && sug_isPremium r.
Definition isTaken (r : Suggestion) : bool := negb (sug_available r).

Definition quote : string := String "034" "".

Definition suggestionsMessage (baseKeyword : string) (results : list Suggestion) : string :=
  let available := List.filter isFree results in
  let premium := List.filter isPremiumOffer results in
  let unavailable := List.filter isTaken results in
  "Domain Suggestions for " +:+ quote +:+ baseKeyword +:+ quote +:+ ":" +:+ newline +:+ newline +:+
  (if Nat.ltb 0 (length available) then
     "✅ Available Domains (" +:+ pretty (length available) +:+ "):" +:+ newline +:+
     String.concat ""
       (map (λ r, "  - " +:+ toString (sug_domain r) +:+ newline) available) +:+
     newline
   else "") +:+
  (if Nat.ltb 0 (length premium) then
     "💎 Premium Domains (" +:+ pretty (length premium) +:+ "):" +:+ newline +:+
     String.concat ""
       (map (λ r, "  - " +:+ toString (sug_domain r) +:+ " (premium)" +:+ newline) premium) +:+
     newline
   else "") +:+
  "❌ Unavailable: " +:+ pretty (length unavailable) +:+ " domains".

(** The batches that the loop [for (i = 0; i < suggestions.length; i +=
    batchSize)] cuts, from index [i] on. *)
Fixpoint batchesFrom (fuel i : nat) (suggestions : list string) : list (list string) :=
  match fuel with
  | 0 => []
  | S fuel' =>
      if Nat.ltb i (length suggestions) then
        slice i (i + batchSize) suggestions
          :: batchesFrom fuel' (i + batchSize) suggestions
      else []
  end.

Section Suggest.
Context {World : Type}.
Variable post : string → jsobj → World → reply * World.
Variable config : NamecheapConfig.

(** [String.prototype.toLowerCase] is the runtime's. *)
Variable toLowerCase : string → string.

(** The loop over the batches; [i] grows by [batchSize] each round, so
    [suggestions.length] rounds are more than it ever takes. *)
Fixpoint checkBatches (fuel i : nat) (suggestions : list string)
    (results : list Suggestion) : M World (list Suggestion) :=
  match fuel with
  | 0 => mret results
  | S fuel' =>
      if Nat.ltb i (length suggestions) then
        let batch := slice i (i + batchSize) suggestions in
        batchResults ← checkDomains post config batch;
        checkBatches fuel' (i + batchSize) suggestions
          (results ++ map (λ r, {| sug_domain := dcr_domain r;
                                   sug_available := dcr_available r;
                                   sug_isPremium := dcr_isPremium r || false |})
                          batchResults)
      else mret results
  end.

Definition suggestDomainsTool_execute (args : SuggestArgs) : M World (list ContentItem) :=
  rethrow "Failed to suggest domains: "
    (let base := strip (toLowerCase (sug_baseKeyword args)) in
     suggestions ← lift
       match sug_tlds args with
       | None => Err (Foreign (typeError "forEach"))
       | Some tlds =>
           Ok (concat (map (suggestionsFor base (sug_includeVariations args)) tlds))
       end;
     results ← checkBatches (length suggestions) 0 suggestions [];
     mret (textContent (suggestionsMessage (sug_baseKeyword args) results))).

End Suggest.

(** ** The domain list resource *)

Inductive expiryStatus := Active | ExpiringSoon | Urgent | Expired.

Global Instance expiryStatus_eq_dec : EqDecision expiryStatus.
Proof. solve_decision. Defined.

(** The status that goes with [daysUntilExpiry]; [None] is [NaN], the
    number of days when the expiry date does not parse, and every comparison
    with it is false. *)
Definition statusOf (daysUntilExpiry : option Z) : expiryStatus :=
  match daysUntilExpiry with
  | None => Active
  | Some days =>
      if (days <=? 0)%Z then Expired
      else if (days <=? 7)%Z then Urgent
      else if (days <=? 30)%Z then ExpiringSoon
      else Active
  end.

(** [{ ...domain, daysUntilExpiry, status }] *)
Record DomainWithStatus := {
  dws_domain : DomainInfo;
  dws_daysUntilExpiry : option Z;
  dws_status : expiryStatus;
}.

Record Summary := {
  sum_active : nat;
  sum_expiringSoon : nat;
  sum_urgent : nat;
  sum_expired : nat;
}.

Record DomainListResult := {
  totalDomains : option Z;
  retrievedDomains : nat;
  lastUpdated : string;
  listed : list DomainWithStatus;
  summary : Summary;
}.

Definition countStatus (status : expiryStatus) (domains : list DomainWithStatus) : nat :=
  length (List.filter (λ d, bool_decide (dws_status d = status)) domains).

Section DomainList.
Context {World : Type}.
Variable post : string → jsobj → World → reply * World.
Variable config : NamecheapConfig.

(** What the runtime and the clock contribute: the whole days from [today]
    to the date that [expires] spells, [Array.prototype.sort] with the
    comparator on [daysUntilExpiry], the time stamp, and [JSON.stringify]. *)
Variable daysUntilExpiry : jsany → option Z.
Variable sort : list DomainWithStatus → list DomainWithStatus.
Variable now : string.
Variable stringifyList : DomainListResult → string.

(** The object that [domainListResource.read] serialises. *)
Definition domainList_result : M World DomainListResult :=
  '(domains, totalItems) ← listDomains post config 1 100;
  let domainsWithStatus :=
    map (λ domain,
           let days := daysUntilExpiry (expires domain) in
           {| dws_domain := domain; dws_daysUntilExpiry := days;
              dws_status := statusOf days |}) domains in
  let domainsWithStatus := sort domainsWithStatus in
  mret {| totalDomains := totalItems;
          retrievedDomains := length domains;
          lastUpdated := now;
          listed := domainsWithStatus;
          summary := {| sum_active := countStatus Active domainsWithStatus;
                        sum_expiringSoon := countStatus ExpiringSoon domainsWithStatus;
                        sum_urgent := countStatus Urgent domainsWithStatus;
                        sum_expired := countStatus Expired domainsWithStatus |} |}.

Definition domainListResource_read : M World string :=
  rethrow "Failed to retrieve domain list: "
    (result ← domainList_result; mret (stringifyList result)).

End DomainList.

(** ** The server's handlers ([index.ts]) and the availability resource *)

Section Dispatch.
Context {World Args : Type}.

(** A tool as the call handler sees it: its name and its [execute]. *)
Record Tool := {
  tool_name : string;
  tool_execute : Args → M World (list ContentItem);
}.

(** The handler of [CallToolRequestSchema]. *)
Definition callTool (allTools : list Tool) (name : string) (args : Args)
  : M World (list ContentItem) := λ w,
  match List.find (λ t, bool_decide (tool_name t = name)) allTools with
  | None => (Err (Foreign (ErrorObject "Error" ("Unknown tool: " +:+ name))), w)
  | Some tool =>
      match tool_execute tool args w with
      | (Ok result, w') => (Ok result, w')
      | (Err error, w') =>
          (Ok (textContent ("Error executing " +:+ name +:+ ": " +:+
                            default "Unknown error" (exn_message error))), w')
      end
  end.

End Dispatch.

Arguments Tool World Args : clear implicits.

Definition URI_PREFIX : string := "namecheap://domains/availability/".

(** [s.startsWith(prefix)] *)
Fixpoint startsWith (prefix s : string) : bool :=
  match prefix with
  | EmptyString => true
  | String c prefix' =>
      match s with
      | EmptyString => false
      | String d s' => if decide (c = d) then startsWith prefix' s' else false
      end
  end.

(** [s.substring(n)] *)
Fixpoint substringFrom (n : nat) (s : string) : string :=
  match n with
  | 0 => s
  | S n' =>
      match s with
      | EmptyString => EmptyString
      | String _ s' => substringFrom n' s'
      end
  end.

Definition matchesUri (uri : string) : bool := startsWith URI_PREFIX uri.

(** Called on a URI that [matchesUri] accepts. *)
Definition extractDomains (uri : string) : string :=
  substringFrom (String.length URI_PREFIX) uri.

(** [s.split(sep)] for a separator of one character. *)
Fixpoint splitOn (sep : ascii) (s : string) : list string :=
  match s with
  | EmptyString => [""]
  | String c s' =>
      if decide (c = sep) then "" :: splitOn sep s'
      else match splitOn sep s' with
           | [] => [String c ""]
           | p :: ps => String c p :: ps
           end
  end.

(** What the availability resource serialises: one result, or an array. *)
Inductive CheckOutput :=
| One (res : DomainCheckResult)
| Many (resArr : list DomainCheckResult).

(** One entry of [contents]. *)
Record ResourceContent := {
  content_uri : string;
  content_mimeType : string;
  content_text : string;
}.

Section Resources.
Context {World : Type}.
Variable post : string → jsobj → World → reply * World.
Variable config : NamecheapConfig.

(** [String.prototype.trim] and [JSON.stringify(value, null, 2)] are the
    runtime's; the code is read for any two such functions. *)
Variable trim : string → string.
Variable stringify : CheckOutput → string.

(** What [domainListResource.read] takes from the runtime and the clock. *)
Variable daysUntilExpiry : jsany → option Z.
Variable sort : list DomainWithStatus → list DomainWithStatus.
Variable now : string.
Variable stringifyList : DomainListResult → string.

(** [domainsStr.split(',').map(d => d.trim()).filter(Boolean)] *)
Definition availabilityDomains (domainsStr : string) : list string :=
  List.filter (λ d, truthy (JString d)) (map trim (splitOn "," domainsStr)).

(** [domainAvailabilityResource.read(domainsStr)] *)
Definition availability_read (domainsStr : string) : M World string :=
  let domains := availabilityDomains domainsStr in
  if Nat.eqb (length domains) 0 then
    λ w, (Err (Foreign (ErrorObject "Error" "No domain specified in availability URI")), w)
  else if Nat.eqb (length domains) 1 then
    res ← checkDomain post config (nth 0 domains "");
    mret (stringify (One res))
  else
    resArr ← checkDomains post config domains;
    mret (stringify (Many resArr)).

(** The handler of [ReadResourceRequestSchema]. *)
Definition readResource (uri : string) : M World (list ResourceContent) :=
  if decide (uri = "namecheap://domains/list") then
    content ← domainListResource_read post config daysUntilExpiry sort now stringifyList;
    mret [ {| content_uri := uri; content_mimeType := "application/json";
              content_text := content |} ]
  else if matchesUri uri then
    let domainsPart := extractDomains uri in
    content ← availability_read domainsPart;
    mret [ {| content_uri := uri; content_mimeType := "application/json";
              content_text := content |} ]
  else
    λ w, (Err (Foreign (ErrorObject "Error" ("Unknown resource: " +:+ uri))), w).

End Resources.

(** ** Vocabulary for the tools *)

(** A value that an optional argument supplies: none when the argument is
    missing or the empty string. *)
Definition given (o : option string) : option jsval :=
  match o with
  | Some v => if decide (v = "") then None else Some (JString v)
  | None => None
  end.

(** The new value that the arguments of [update-dns-record] supply for a
    property of a record. *)
Definition newValueFor (args : UpdateArgs) (key : string) : option jsval :=
  if decide (key = "address") then given (upd_newAddress args)
  else if decide (key = "name") then given (upd_newName args)
  else if decide (key = "ttl") then given (upd_newTtl args)
  else None.

(** The record has the name and the type of some record of the list. *)
Definition sharesNameAndType (records : list DNSRecord) (existing : DNSRecord) : Prop :=
  Exists (λ newRecord, existing.["name"] = newRecord.["name"]
                       ∧ existing.["type"] = newRecord.["type"]) records.

(** The request of a read of the zone, and of a write of a list of
    records. *)
Definition readRequest (config : NamecheapConfig) (domain : string) : string * jsobj :=
  (apiUrl config,
   requestParams config "namecheap.domains.dns.getHosts"
     {[ "SLD" := JString (sldOf domain); "TLD" := JString (tldOf domain) ]}).

Definition writeRequest (config : NamecheapConfig) (domain : string)
    (records : list DNSRecord) : string * jsobj :=
  (apiUrl config,
   requestParams config "namecheap.domains.dns.setHosts" (setHostsParams domain records)).

(** Every character of the string passes the test. *)
Fixpoint allChars (test : ascii → bool) (s : string) : bool :=
  match s with
  | EmptyString => true
  | String c s' => test c && allChars test s'
  end.

(** The availability check of a list of names. *)
Definition checkRequest (config : NamecheapConfig) (domains : list string) : string * jsobj :=
  (apiUrl config,
   requestParams config "namecheap.domains.check"
     {[ "DomainList" := JString (join "," domains) ]}).

(** ** More sample data *)

Module Scenario.

(** The answer to a read of a zone with the given [host] elements. *)
Definition zoneDoc (hosts : list xml) : xml :=
  XElem (Some {[ "Status" := "OK" ]}) None
    [ ("CommandResponse",
       [ XElem (Some {[ "Type" := "namecheap.domains.dns.getHosts" ]}) None
           [ ("DomainDNSGetHostsResult",
              [ XElem (Some {[ "Domain" := "example.com" ]}) None [ ("host", hosts) ] ]) ] ]) ].

(** The answer to an availability check with the given result elements. *)
Definition checkDoc (entries : list xml) : xml :=
  XElem (Some {[ "Status" := "OK" ]}) None
    [ ("CommandResponse",
       [ XElem (Some {[ "Type" := "namecheap.domains.check" ]}) None
           [ ("DomainCheckResult", entries) ] ]) ].

(** The answer to an availability check that carries no result element. *)
Definition checkDocBare : xml :=
  XElem (Some {[ "Status" := "OK" ]}) None
    [ ("CommandResponse",
       [ XElem (Some {[ "Type" := "namecheap.domains.check" ]}) None [] ]) ].

Definition checkEntry (domain available premium : string) : xml :=
  XElem (Some {[ "Domain" := domain; "Available" := available;
                 "IsPremiumName" := premium ]}) None [].

Definition updateArgs : UpdateArgs :=
  {| upd_domain := "example.com"; upd_findName := "a"; upd_findType := "A";
     upd_newAddress := Some "9.9.9.9"; upd_newName := None; upd_newTtl := Some "" |}.

Definition deleteArgs : DeleteArgs :=
  {| del_domain := "example.com"; del_name := "a"; del_type := "A"; del_address := None |}.

Definition templateArgs : TemplateArgs :=
  {| tpl_domain := "example.com"; tpl_template := Vercel; tpl_customValue := None |}.

(** The answer to a listing: [total] domains in the account, the given
    [Domain] elements on this page. *)
Definition listDoc (total : string) (domains : list xml) : xml :=
  XElem (Some {[ "Status" := "OK" ]}) None
    [ ("CommandResponse",
       [ XElem (Some {[ "Type" := "namecheap.domains.getList" ]}) None
           [ ("DomainGetListResult", [ XElem None None [ ("Domain", domains) ] ]) ] ]);
      ("Paging", [ XElem (Some {[ "TotalItems" := total; "CurrentPage" := "1";
                                  "PageSize" := "20" ]}) None [] ]) ].

Definition listedElem : xml :=
  XElem (Some {[ "Name" := "example.com"; "Created" := "01/02/2020";
                 "Expires" := "01/02/2030"; "IsLocked" := "TRUE";
                 "AutoRenew" := "true"; "WhoisGuard" := "ENABLED" ]}) None [].

(** The answer to a question about one domain; the registrar spells the
    name in capitals. *)
Definition infoDoc : xml :=
  XElem (Some {[ "Status" := "OK" ]}) None
    [ ("CommandResponse",
       [ XElem (Some {[ "Type" := "namecheap.domains.getInfo" ]}) None
           [ ("DomainGetInfoResult",
              [ XElem (Some {[ "DomainName" := "EXAMPLE.COM" ]}) None
                  [ ("DomainDetails",
                     [ XElem None None
                         [ ("CreatedDate", [ XText "01/02/2020" ]);
                           ("ExpiredDate", [ XText "01/02/2030" ]);
                           ("IsLocked", [ XText "true" ]);
                           ("AutoRenew", [ XText "false" ]);
                           ("WhoisGuard",
                            [ XElem (Some {[ "Enabled" := "true" ]}) None [] ]) ] ]) ] ]) ] ]) ].

Definition suggestArgs : SuggestArgs :=
  {| sug_baseKeyword := "shop"; sug_tlds := Some [".com"; ".io"];
     sug_includeVariations := true |}.

End Scenario.

(** * Properties *)

(** ** Matching a record against criteria *)

Lemma matches_criteriaHold criteria record :
  matches criteria record = true ↔ criteriaHold criteria record.
Proof.
  unfold matches, criteriaHold.
  rewrite map_Forall_to_list, forallb_forall, Forall_forall.
  split.
  - intros H [key value] Hin. apply list_elem_of_In in Hin.
    specialize (H _ Hin). simpl in H.
    by apply bool_decide_eq_true in H.
  - intros H [key value] Hin. apply list_elem_of_In in Hin.
    apply bool_decide_eq_true. exact (H _ Hin).
Qed.

Lemma matches_false criteria record :
  matches criteria record = false ↔ ¬ criteriaHold criteria record.
Proof.
  rewrite <- matches_criteriaHold. destruct (matches criteria record); naive_solver.
Qed.

Lemma criteriaHold_differs criteria record key value :
  criteria !! key = Some value → record.[key] ≠ value → ¬ criteriaHold criteria record.
Proof. intros Hk Hne H. exact (Hne (H _ _ Hk)). Qed.

Lemma criteriaHold_empty record : criteriaHold ∅ record.
Proof. apply map_Forall_empty. Qed.

(** The spread of a record and the updates, property by property. *)
Lemma spread_lookup (record updates : jsobj) key :
  spread record updates !! key =
    match updates !! key with
    | Some v => Some v
    | None => record !! key
    end.
Proof.
  unfold spread. rewrite lookup_union.
  destruct (updates !! key), (record !! key); reflexivity.
Qed.

Lemma filter_negb_matches criteria (records : list DNSRecord) :
  List.filter (λ record, negb (matches criteria record)) records =
    filter (λ record, ¬ criteriaHold criteria record) records.
Proof.
  induction records as [|r rs IH]; [reflexivity|].
  simpl. rewrite filter_cons, IH.
  destruct (matches criteria r) eqn:Hm; simpl.
  - apply matches_criteriaHold in Hm. by rewrite decide_False by tauto.
  - apply matches_false in Hm. by rewrite decide_True.
Qed.

Lemma map_unmatched criteria updates (records : list DNSRecord) :
  Forall (λ record, ¬ criteriaHold criteria record) records →
  map (λ record, if matches criteria record then spread record updates else record) records
    = records.
Proof.
  induction 1 as [|r rs Hr _ IH]; [reflexivity|].
  simpl. apply matches_false in Hr. by rewrite Hr, IH.
Qed.

Lemma filter_unmatched criteria (records : list DNSRecord) :
  Forall (λ record, ¬ criteriaHold criteria record) records →
  List.filter (λ record, negb (matches criteria record)) records = records.
Proof.
  induction 1 as [|r rs Hr _ IH]; [reflexivity|].
  simpl. apply matches_false in Hr. by rewrite Hr, IH.
Qed.

(** ** The gateway *)

Section Gateway.
Context {World : Type}.
Variable post : string → jsobj → World → reply * World.
Variable config : NamecheapConfig.

Lemma bind_ok {A B} (m : M World A) (f : A → M World B) w a w' :
  m w = (Ok a, w') → (m ≫= f) w = f a w'.
Proof. intros H. unfold mbind, M_bind. by rewrite H. Qed.

Lemma bind_err {A B} (m : M World A) (f : A → M World B) w e w' :
  m w = (Err e, w') → (m ≫= f) w = (Err e, w').
Proof. intros H. unfold mbind, M_bind. by rewrite H. Qed.

(** A reply whose status is not [ERROR] is handed back as it is. *)
Lemma makeRequest_ok command params w a t cs w' :
  post (apiUrl config) (requestParams config command params) w
    = (Parsed "ApiResponse" (XElem (Some a) t cs), w') →
  a !! "Status" ≠ Some "ERROR" →
  makeRequest post config command params w = (Ok (XElem (Some a) t cs), w').
Proof.
  intros Hpost Hst. unfold makeRequest. rewrite Hpost.
  unfold checkStatus. simpl.
  by rewrite decide_False.
Qed.

Lemma setDNSRecords_ok domain records w a t cs w' :
  post (apiUrl config)
       (requestParams config "namecheap.domains.dns.setHosts" (setHostsParams domain records)) w
    = (Parsed "ApiResponse" (XElem (Some a) t cs), w') →
  a !! "Status" ≠ Some "ERROR" →
  setDNSRecords post config domain records w = (Ok (), w').
Proof.
  intros Hpost Hst. unfold setDNSRecords.
  erewrite bind_ok by (by apply makeRequest_ok). reflexivity.
Qed.

End Gateway.

(** ** The indexed parameters of [setDNSRecords] *)

Ltac in_list :=
  unfold indexedKeys;
  repeat first [ apply list_elem_of_here | apply list_elem_of_further ].

Ltac key_ne :=
  let E := fresh in intros E; simpl in E; simplify_eq.

Ltac key_discr :=
  repeat match goal with
         | H : _ ∈ indexedKeys _ |- _ =>
             unfold indexedKeys in H; rewrite !elem_of_cons, elem_of_nil in H
         | H : _ ∨ _ |- _ => destruct H
         | H : False |- _ => destruct H
         | |- _ ∉ indexedKeys _ =>
             unfold indexedKeys; rewrite !not_elem_of_cons; repeat split;
             [ .. | apply not_elem_of_nil ]
         end;
  subst;
  try match goal with
      | |- _ ≠ _ => let E := fresh in intros E; simpl in E; simplify_eq
      end.

Lemma indexedKeys_disjoint n m k :
  n ≠ m → k ∈ indexedKeys n → k ∉ indexedKeys m.
Proof. intros Hnm Hk. key_discr; done. Qed.

Lemma plainKey_fixed k :
  k ∈ [ "SLD"; "TLD"; "ApiUser"; "ApiKey"; "UserName"; "ClientIp"; "Command" ] →
  plainKey k.
Proof.
  rewrite !elem_of_cons, elem_of_nil. intros Hk n.
  repeat (destruct Hk as [->|Hk]; [key_discr|]); done.
Qed.

Lemma hostParams_congr n record (p p' : jsobj) k :
  p' !! k = p !! k → hostParams n record p' !! k = hostParams n record p !! k.
Proof.
  intros H. unfold hostParams.
  destruct (truthy record.["mxPref"]), (truthy record.["ttl"]);
    rewrite ?lookup_insert; repeat case_decide; done.
Qed.

Lemma hostParams_frame n record (p : jsobj) k :
  k ∉ indexedKeys n → hostParams n record p !! k = p !! k.
Proof.
  unfold indexedKeys. rewrite !not_elem_of_cons. intros (?&?&?&?&?&_).
  unfold hostParams.
  destruct (truthy record.["mxPref"]), (truthy record.["ttl"]);
    rewrite ?lookup_insert_ne by done; done.
Qed.

Lemma forEachHost_frame records : ∀ i (p : jsobj) k,
  (∀ n, i < n → k ∉ indexedKeys n) →
  forEachHost i records p !! k = p !! k.
Proof.
  induction records as [|r rs IH]; intros i p k Hk; [reflexivity|].
  simpl. rewrite IH by (intros n Hn; apply Hk; lia).
  apply hostParams_frame, Hk. lia.
Qed.

Lemma forEachHost_plain records i (p : jsobj) k :
  plainKey k → forEachHost i records p !! k = p !! k.
Proof. intros Hk. apply forEachHost_frame. intros n _. apply Hk. Qed.

(** Position [j] of the list is written under the names of index [j+1]. *)
Lemma forEachHost_lookup records : ∀ i (p : jsobj) j record k,
  records !! j = Some record →
  k ∈ indexedKeys (i + j + 1) →
  forEachHost i records p !! k = hostParams (i + j + 1) record p !! k.
Proof.
  induction records as [|r rs IH]; intros i p j record k Hj Hk; [done|].
  destruct j as [|j]; simpl in *.
  - simplify_eq. replace (i + 0 + 1) with (i + 1) in * by lia.
    apply forEachHost_frame. intros n Hn.
    apply (indexedKeys_disjoint (i + 1)); [lia|done].
  - replace (i + S j + 1) with (S i + j + 1) in * by lia.
    rewrite (IH _ _ _ _ _ Hj Hk).
    apply hostParams_congr, hostParams_frame.
    apply (indexedKeys_disjoint (S i + j + 1)); [lia|done].
Qed.

(** Beyond the end of the list nothing is written. *)
Lemma forEachHost_beyond records : ∀ i (p : jsobj) n k,
  i + length records < n → k ∈ indexedKeys n →
  forEachHost i records p !! k = p !! k.
Proof.
  induction records as [|r rs IH]; intros i p n k Hn Hk; [reflexivity|].
  simpl in *. rewrite (IH _ _ n) by (done || lia).
  apply hostParams_frame, (indexedKeys_disjoint n); [lia|done].
Qed.

(** ** Records on the wire *)

Lemma typedRecord_recordOfHost h : typedRecord (recordOfHost h).
Proof.
  destruct h as [i n t a [m|] [l|]];
    (repeat split; try (eexists; reflexivity));
    solve [ right; eexists; reflexivity | left; reflexivity ].
Qed.

Lemma optional_ofOption_sent v :
  isOptString v → optional (ofOption (sent v)) = optional v.
Proof.
  intros [->|[s ->]]; [reflexivity|].
  unfold sent, optional. simpl. destruct (String.eqb s "") eqn:E; simpl; [reflexivity|].
  by rewrite E.
Qed.

Lemma content_stored id record :
  typedRecord record → content (recordOfHost (hostOfRecord id record)) = content record.
Proof.
  intros ([n Hn] & [t Ht] & [a Ha] & Hm & Hl).
  unfold content.
  replace ((recordOfHost (hostOfRecord id record)).["name"]) with (JString (toString record.["name"])) by reflexivity.
  replace ((recordOfHost (hostOfRecord id record)).["type"]) with (JString (toString record.["type"])) by reflexivity.
  replace ((recordOfHost (hostOfRecord id record)).["address"]) with (JString (toString record.["address"])) by reflexivity.
  replace ((recordOfHost (hostOfRecord id record)).["mxPref"]) with (ofOption (sent record.["mxPref"])) by reflexivity.
  replace ((recordOfHost (hostOfRecord id record)).["ttl"]) with (ofOption (sent record.["ttl"])) by reflexivity.
  rewrite !optional_ofOption_sent by done.
  by rewrite Hn, Ht, Ha.
Qed.

Lemma length_stamp records : ∀ next, length (stamp next records) = length records.
Proof. induction records as [|r rs IH]; intros next; simpl; [done|by rewrite IH]. Qed.

Lemma content_stamp records : ∀ next,
  Forall typedRecord records →
  map content (map recordOfHost (stamp next records)) = map content records.
Proof.
  induction records as [|r rs IH]; intros next Hty; [reflexivity|].
  inversion_clear Hty. simpl. by rewrite content_stored, IH.
Qed.

Section Wire.
Variable config : NamecheapConfig.

Lemma wire_lookup (p : jsobj) k :
  Registrar.wire p !! k =
    p !! k ≫= λ v, match v with JUndefined => None | _ => Some (toString v) end.
Proof. unfold Registrar.wire. apply lookup_omap. Qed.

Lemma requestParams_indexed command (p : jsobj) n k :
  k ∈ indexedKeys n → requestParams config command p !! k = p !! k.
Proof.
  intros Hk. unfold requestParams. rewrite spread_lookup.
  destruct (p !! k) eqn:E; [done|].
  assert (∀ k', k' ∈ ["ApiUser"; "ApiKey"; "UserName"; "ClientIp"; "Command"] → k ≠ k')
    as Hne.
  { intros k' Hk' ->. eapply plainKey_fixed; [|exact Hk].
    do 2 apply list_elem_of_further. exact Hk'. }
  rewrite !lookup_insert_ne by (apply not_eq_sym, Hne; in_list).
  apply lookup_singleton_ne, not_eq_sym, Hne; in_list.
Qed.

Lemma requestParams_plain command (p : jsobj) k :
  p !! k = None →
  requestParams config command p !! k =
    ({[ "ApiUser" := JString (apiUser config);
        "ApiKey" := JString (apiKey config);
        "UserName" := JString (apiUser config);
        "ClientIp" := JString (clientIp config);
        "Command" := JString command ]} : jsobj) !! k.
Proof. intros E. unfold requestParams. by rewrite spread_lookup, E. Qed.

Lemma hostParams_lookup n record (p : jsobj) :
  (∀ k, k ∈ indexedKeys n → p !! k = None) →
  hostParams n record p !! ("HostName" +:+ pretty n) = Some record.["name"]
  ∧ hostParams n record p !! ("RecordType" +:+ pretty n) = Some record.["type"]
  ∧ hostParams n record p !! ("Address" +:+ pretty n) = Some record.["address"]
  ∧ hostParams n record p !! ("MXPref" +:+ pretty n) =
      (if truthy record.["mxPref"] then Some record.["mxPref"] else None)
  ∧ hostParams n record p !! ("TTL" +:+ pretty n) =
      (if truthy record.["ttl"] then Some record.["ttl"] else None).
Proof.
  intros Hp. unfold hostParams.
  assert (p !! ("MXPref" +:+ pretty n) = None) as Hm by (apply Hp; in_list).
  assert (p !! ("TTL" +:+ pretty n) = None) as Ht by (apply Hp; in_list).
  destruct (truthy record.["mxPref"]), (truthy record.["ttl"]);
    repeat split;
    repeat first [ rewrite lookup_insert_eq | rewrite lookup_insert_ne by key_ne ];
    done.
Qed.

Lemma wire_sent_required v : isString v →
  (Some v ≫= λ v, match v with JUndefined => None | _ => Some (toString v) end)
    = Some (toString v).
Proof. by intros [s ->]. Qed.

Lemma wire_sent_optional v : isOptString v →
  ((if truthy v then Some v else None)
     ≫= λ v, match v with JUndefined => None | _ => Some (toString v) end)
    = sent v.
Proof.
  intros [->|[s ->]]; [reflexivity|].
  unfold sent. by destruct (truthy (JString s)).
Qed.

Lemma base_no_indexed domain n k :
  k ∈ indexedKeys n →
  ({[ "SLD" := JString (sldOf domain); "TLD" := JString (tldOf domain) ]} : jsobj) !! k = None.
Proof.
  intros Hk.
  rewrite lookup_insert_ne, lookup_singleton_ne; [done| |];
    intros <-; eapply plainKey_fixed; try exact Hk; in_list.
Qed.

Lemma hostAt_sent command domain records j record next :
  records !! j = Some record → typedRecord record →
  Registrar.hostAt
    (Registrar.wire (requestParams config command (setHostsParams domain records)))
    next (j + 1)
  = Some (hostOfRecord next record).
Proof.
  intros Hj (Hn & Ht & Ha & Hm & Hl).
  pose proof (hostParams_lookup (j + 1) record
                {[ "SLD" := JString (sldOf domain); "TLD" := JString (tldOf domain) ]}
                (λ k, base_no_indexed domain (j + 1) k)) as (E1 & E2 & E3 & E4 & E5).
  unfold Registrar.hostAt, setHostsParams.
  rewrite !wire_lookup.
  rewrite !(requestParams_indexed _ _ (j + 1)) by in_list.
  rewrite !(forEachHost_lookup records 0 _ j record) by (done || in_list).
  simpl (0 + j + 1). rewrite E1, E2, E3, E4, E5.
  rewrite !wire_sent_required, !wire_sent_optional by done.
  reflexivity.
Qed.

Lemma hostAt_end command domain records next :
  Registrar.hostAt
    (Registrar.wire (requestParams config command (setHostsParams domain records)))
    next (length records + 1)
  = None.
Proof.
  unfold Registrar.hostAt, setHostsParams.
  rewrite (wire_lookup _ ("HostName" +:+ _)).
  rewrite (requestParams_indexed _ _ (length records + 1) ("HostName" +:+ _)) by in_list.
  rewrite (forEachHost_beyond _ _ _ (length records + 1) ("HostName" +:+ _))
    by (simpl; lia || in_list).
  rewrite (base_no_indexed _ (length records + 1) ("HostName" +:+ _)) by in_list.
  reflexivity.
Qed.

End Wire.

(** ** The registrar reads back what [setDNSRecords] sends *)

Section Decode.
Variable config : NamecheapConfig.

Lemma hostsFrom_stamp (p : gmap string string) records : ∀ (next : N) (i fuel : nat),
  (∀ j record id, records !! j = Some record →
     Registrar.hostAt p id (i + j) = Some (hostOfRecord id record)) →
  (∀ id, Registrar.hostAt p id (i + length records) = None) →
  length records ≤ fuel →
  Registrar.hostsFrom p next i fuel = stamp next records.
Proof.
  induction records as [|r rs IH]; intros next i fuel Hat Hend Hfuel.
  - destruct fuel as [|fuel]; [reflexivity|].
    simpl in *. replace (i + 0) with i in Hend by lia. by rewrite Hend.
  - destruct fuel as [|fuel]; simpl in Hfuel; [lia|].
    simpl. pose proof (Hat 0 r next eq_refl) as H0.
    replace (i + 0) with i in H0 by lia. rewrite H0. f_equal.
    apply IH.
    + intros j record id Hj. replace (S i + j) with (i + S j) by lia.
      by apply Hat.
    + intros id. replace (S i + length rs) with (i + length (r :: rs)) by (simpl; lia).
      apply Hend.
    + lia.
Qed.

(** Every record occupies a parameter name of its own, so the request
    has at least as many parameters as there are records. *)
Lemma size_covers (p : gmap string string) n :
  (∀ j, j < n → is_Some (p !! ("HostName" +:+ pretty (j + 1)))) → n ≤ size p.
Proof.
  intros Hp.
  set (names := (λ j, "HostName" +:+ pretty (j + 1)) <$> seq 0 n).
  assert (NoDup names) as Hnd.
  { apply NoDup_fmap_2; [|apply NoDup_seq].
    intros a b E. simpl in E. simplify_eq. lia. }
  assert (list_to_set names ⊆ (dom p : gset string)) as Hsub.
  { intros k Hk. apply elem_of_list_to_set, list_elem_of_fmap in Hk as (j & -> & Hj).
    apply elem_of_seq in Hj. apply elem_of_dom, Hp. lia. }
  apply subseteq_size in Hsub.
  rewrite size_list_to_set, size_dom in Hsub by done.
  unfold names in Hsub. by rewrite length_fmap, length_seq in Hsub.
Qed.

Lemma decodeHosts_sent command domain records next :
  Forall typedRecord records →
  Registrar.decodeHosts
    (Registrar.wire (requestParams config command (setHostsParams domain records))) next
  = stamp next records.
Proof.
  intros Hty. unfold Registrar.decodeHosts.
  apply hostsFrom_stamp.
  - intros j record id Hj. replace (1 + j) with (j + 1) by lia.
    apply hostAt_sent; [done|].
    eapply Forall_lookup_1; eauto.
  - intros id. replace (1 + length records) with (length records + 1) by lia.
    apply hostAt_end.
  - apply size_covers. intros j Hj.
    destruct (lookup_lt_is_Some_2 records j Hj) as [record Hrec].
    pose proof (hostAt_sent config command domain records j record 0%N Hrec
                  (Forall_lookup_1 _ _ _ _ Hty Hrec)) as Hat.
    unfold Registrar.hostAt in Hat.
    destruct (_ !! ("HostName" +:+ pretty (j + 1))); [eauto|done].
Qed.

End Decode.

(** ** The client against the registrar *)

Section AgainstRegistrar.
Variable config : NamecheapConfig.

Lemma registrar_dispatch url command (p : jsobj) sld tld s :
  p !! "Command" = None →
  p !! "SLD" = Some (JString sld) →
  p !! "TLD" = Some (JString tld) →
  Registrar.post url (requestParams config command p) s =
    if decide (command = "namecheap.domains.dns.getHosts") then Registrar.getHosts sld tld s
    else if decide (command = "namecheap.domains.dns.setHosts")
         then Registrar.setHosts sld tld (Registrar.wire (requestParams config command p)) s
         else (Registrar.failure "1011102" "Parameter Command is invalid", s).
Proof.
  intros Hc Hs Ht. unfold Registrar.post.
  rewrite !wire_lookup.
  rewrite (requestParams_plain _ _ _ "Command") by done.
  unfold requestParams. rewrite !spread_lookup, Hs, Ht.
  reflexivity.
Qed.

Lemma base_lookup domain :
  let p : jsobj := {[ "SLD" := JString (sldOf domain); "TLD" := JString (tldOf domain) ]} in
  p !! "Command" = None ∧ p !! "SLD" = Some (JString (sldOf domain))
  ∧ p !! "TLD" = Some (JString (tldOf domain)).
Proof. done. Qed.

Lemma setHostsParams_lookup domain records :
  let p := setHostsParams domain records in
  p !! "Command" = None ∧ p !! "SLD" = Some (JString (sldOf domain))
  ∧ p !! "TLD" = Some (JString (tldOf domain)).
Proof.
  unfold setHostsParams; simpl.
  rewrite !forEachHost_plain by (apply plainKey_fixed; in_list).
  apply base_lookup.
Qed.

Lemma hostRecord_hostElem h : hostRecord (Registrar.hostElem h) = Ok (recordOfHost h).
Proof.
  destruct h as [id name type address [mx|] [ttl|]];
    unfold Registrar.hostElem, recordOfHost; simpl;
    generalize (pretty id); intros sid; reflexivity.
Qed.

Lemma mapM_result_cons {A B} (f : A → result B) x l :
  mapM f (x :: l) = y ← f x; k ← mapM f l; mret (y :: k).
Proof. reflexivity. Qed.

Lemma mapM_hostRecord hosts :
  mapM hostRecord (map Registrar.hostElem hosts) = Ok (map recordOfHost hosts).
Proof.
  induction hosts as [|h hs IH]; [reflexivity|].
  change (map Registrar.hostElem (h :: hs))
    with (Registrar.hostElem h :: map Registrar.hostElem hs).
  by rewrite mapM_result_cons, hostRecord_hostElem, IH.
Qed.

(** Reading a zone returns its hosts and leaves the registrar as it is. *)
Lemma registrar_getDNSRecords domain s :
  getDNSRecords Registrar.post config domain s =
    (Ok (map recordOfHost (Registrar.zone s (sldOf domain) (tldOf domain))), s).
Proof.
  unfold getDNSRecords.
  destruct (base_lookup domain) as (Hc & Hs & Ht).
  erewrite bind_ok; cycle 1.
  { apply makeRequest_ok.
    - rewrite (registrar_dispatch _ _ _ _ _ _ Hc Hs Ht). reflexivity.
    - done. }
  unfold lift. f_equal.
  destruct (Registrar.zone s (sldOf domain) (tldOf domain)) as [|h hs] eqn:E;
    [reflexivity|].
  rewrite <- mapM_hostRecord. reflexivity.
Qed.

(** Writing a list of records replaces the zone by these records. *)
Lemma registrar_setDNSRecords domain records s :
  Forall typedRecord records →
  setDNSRecords Registrar.post config domain records s =
    (Ok (),
     {| Registrar.zones :=
          <[(sldOf domain, tldOf domain) := stamp (Registrar.nextHostId s) records]>
            (Registrar.zones s);
        Registrar.nextHostId :=
          (Registrar.nextHostId s + N.of_nat (length records))%N |}).
Proof.
  intros Hty.
  destruct (setHostsParams_lookup domain records) as (Hc & Hs & Ht).
  erewrite setDNSRecords_ok; cycle 1.
  - rewrite (registrar_dispatch _ _ _ _ _ _ Hc Hs Ht). reflexivity.
  - done.
  - unfold Registrar.setHosts. simpl.
    by rewrite decodeHosts_sent, length_stamp.
Qed.

End AgainstRegistrar.

(** ** Read, modify, write *)

Section Reconcile.
Context {World : Type}.
Variable post : string → jsobj → World → reply * World.
Variable config : NamecheapConfig.

Lemma addDNSRecord_appends domain record w Z w1 :
  getDNSRecords post config domain w = (Ok Z, w1) →
  addDNSRecord post config domain record w
    = setDNSRecords post config domain (Z ++ [record]) w1.
Proof. intros Hget. unfold addDNSRecord. by erewrite bind_ok. Qed.

Lemma updateDNSRecord_writes domain criteria updates w Z w1 :
  getDNSRecords post config domain w = (Ok Z, w1) →
  updateDNSRecord post config domain criteria updates w
    = setDNSRecords post config domain
        (map (λ record, if matches criteria record then spread record updates else record) Z)
        w1.
Proof. intros Hget. unfold updateDNSRecord. by erewrite bind_ok. Qed.

Lemma deleteDNSRecord_writes domain criteria w Z w1 :
  getDNSRecords post config domain w = (Ok Z, w1) →
  deleteDNSRecord post config domain criteria w
    = setDNSRecords post config domain
        (List.filter (λ record, negb (matches criteria record)) Z) w1.
Proof. intros Hget. unfold deleteDNSRecord. by erewrite bind_ok. Qed.

(** A failed read ends the operation: nothing is written. *)
Lemma read_failure_stops domain record criteria updates w e w1 :
  getDNSRecords post config domain w = (Err e, w1) →
  addDNSRecord post config domain record w = (Err e, w1)
  ∧ updateDNSRecord post config domain criteria updates w = (Err e, w1)
  ∧ deleteDNSRecord post config domain criteria w = (Err e, w1).
Proof.
  intros Hget. unfold addDNSRecord, updateDNSRecord, deleteDNSRecord.
  by repeat split; erewrite bind_err.
Qed.

End Reconcile.

(** C2. [updateDNSRecord] writes back a list of the same length as the one it
    read, in the same order.  A record for which every property present in
    the criteria equals the record's own property is replaced by the merge
    of its properties with the updates, the updates taking precedence; any
    other record is written back as it was read. *)
Theorem updateDNSRecord_replaces_exactly_the_matching
    {World : Type} (post : string → jsobj → World → reply * World)
    (config : NamecheapConfig) (domain : string) (criteria updates : jsobj)
    (w w1 : World) (Z : list DNSRecord) :
  getDNSRecords post config domain w = (Ok Z, w1) →
  ∃ written : list DNSRecord,
    updateDNSRecord post config domain criteria updates w
      = setDNSRecords post config domain written w1
    ∧ length written = length Z
    ∧ ∀ (i : nat) (record : DNSRecord), Z !! i = Some record →
        ((∀ key value, criteria !! key = Some value → record.[key] = value) →
           ∃ merged : DNSRecord,
             written !! i = Some merged
             ∧ ∀ key, merged !! key = match updates !! key with
                                      | Some v => Some v
                                      | None => record !! key
                                      end)
        ∧ (¬ (∀ key value, criteria !! key = Some value → record.[key] = value) →
           written !! i = Some record).
Proof.
  intros Hget. eexists. split; [by apply updateDNSRecord_writes|].
  split; [apply length_map|].
  intros i record Hi. rewrite list_lookup_fmap, Hi. simpl. split.
  - intros Hall. apply (matches_criteriaHold criteria record) in Hall.
    rewrite Hall. eexists. split; [reflexivity|]. apply spread_lookup.
  - intros Hnot. apply (matches_false criteria record) in Hnot. by rewrite Hnot.
Qed.

Lemma updateDNSRecord_replaces_exactly_the_matching_witness :
  getDNSRecords Registrar.post Sample.config "example.com" Sample.registrar
    = (Ok [Sample.recordA; Sample.recordB], Sample.registrar)
  ∧ ∃ written : list DNSRecord,
      updateDNSRecord Registrar.post Sample.config "example.com"
        Sample.criteriaA Sample.updatesAddress Sample.registrar
        = setDNSRecords Registrar.post Sample.config "example.com" written Sample.registrar
      ∧ length written = 2
      ∧ ∀ (i : nat) (record : DNSRecord),
          [Sample.recordA; Sample.recordB] !! i = Some record →
          ((∀ key value, Sample.criteriaA !! key = Some value → record.[key] = value) →
             ∃ merged : DNSRecord,
               written !! i = Some merged
               ∧ ∀ key, merged !! key = match Sample.updatesAddress !! key with
                                        | Some v => Some v
                                        | None => record !! key
                                        end)
          ∧ (¬ (∀ key value, Sample.criteriaA !! key = Some value → record.[key] = value) →
             written !! i = Some record).
Proof.
  split; [reflexivity|].
  apply (updateDNSRecord_replaces_exactly_the_matching Registrar.post Sample.config
           "example.com" Sample.criteriaA Sample.updatesAddress
           Sample.registrar Sample.registrar [Sample.recordA; Sample.recordB]).
  reflexivity.
Defined.

(** C3. [deleteDNSRecord] writes back the records it read, in their order,
    without those for which every property present in the criteria equals
    the record's own property.  A record that differs from the criteria in
    one property, whatever it shares with them, is written back. *)
Theorem deleteDNSRecord_removes_exactly_the_matching
    {World : Type} (post : string → jsobj → World → reply * World)
    (config : NamecheapConfig) (domain : string) (criteria : jsobj)
    (w w1 : World) (Z : list DNSRecord) :
  getDNSRecords post config domain w = (Ok Z, w1) →
  ∃ written : list DNSRecord,
    deleteDNSRecord post config domain criteria w
      = setDNSRecords post config domain written w1
    ∧ written = filter (λ record, ¬ criteriaHold criteria record) Z
    ∧ (∀ record, record ∈ written ↔
         record ∈ Z
         ∧ ¬ (∀ key value, criteria !! key = Some value → record.[key] = value))
    ∧ (∀ record key value,
         record ∈ Z → criteria !! key = Some value → record.[key] ≠ value →
         record ∈ written).
Proof.
  intros Hget. eexists. split; [by apply deleteDNSRecord_writes|].
  rewrite filter_negb_matches. split; [reflexivity|]. split.
  - intros record. rewrite list_elem_of_filter. unfold criteriaHold, map_Forall. tauto.
  - intros record key value Hin Hk Hne. apply list_elem_of_filter. split; [|done].
    by eapply criteriaHold_differs.
Qed.

Lemma deleteDNSRecord_removes_exactly_the_matching_witness :
  getDNSRecords Registrar.post Sample.config "example.com" Sample.registrar
    = (Ok [Sample.recordA; Sample.recordB], Sample.registrar)
  ∧ ∃ written : list DNSRecord,
      deleteDNSRecord Registrar.post Sample.config "example.com" Sample.criteriaA
        Sample.registrar
        = setDNSRecords Registrar.post Sample.config "example.com" written Sample.registrar
      ∧ written = filter (λ record, ¬ criteriaHold Sample.criteriaA record)
                    [Sample.recordA; Sample.recordB]
      ∧ (∀ record, record ∈ written ↔
           record ∈ [Sample.recordA; Sample.recordB]
           ∧ ¬ (∀ key value, Sample.criteriaA !! key = Some value → record.[key] = value))
      ∧ (∀ record key value,
           record ∈ [Sample.recordA; Sample.recordB] →
           Sample.criteriaA !! key = Some value → record.[key] ≠ value →
           record ∈ written).
Proof.
  split; [reflexivity|].
  apply (deleteDNSRecord_removes_exactly_the_matching Registrar.post Sample.config
           "example.com" Sample.criteriaA Sample.registrar Sample.registrar
           [Sample.recordA; Sample.recordB]).
  reflexivity.
Defined.

(** C4. When the criteria match no record of the set just read,
    [updateDNSRecord] and [deleteDNSRecord] are the write of that very set:
    the request goes out with the records unchanged, and once the remote
    side acknowledges it both operations return without an error. *)
Theorem zero_match_rewrites_the_set_unchanged
    {World : Type} (post : string → jsobj → World → reply * World)
    (config : NamecheapConfig) (domain : string) (criteria updates : jsobj)
    (w w1 : World) (Z : list DNSRecord) :
  getDNSRecords post config domain w = (Ok Z, w1) →
  (∀ record, record ∈ Z →
     ¬ (∀ key value, criteria !! key = Some value → record.[key] = value)) →
  updateDNSRecord post config domain criteria updates w
    = setDNSRecords post config domain Z w1
  ∧ deleteDNSRecord post config domain criteria w
    = setDNSRecords post config domain Z w1
  ∧ ∀ a t cs w2,
      post (apiUrl config)
           (requestParams config "namecheap.domains.dns.setHosts" (setHostsParams domain Z))
           w1
        = (Parsed "ApiResponse" (XElem (Some a) t cs), w2) →
      a !! "Status" ≠ Some "ERROR" →
      updateDNSRecord post config domain criteria updates w = (Ok (), w2)
      ∧ deleteDNSRecord post config domain criteria w = (Ok (), w2).
Proof.
  intros Hget Hnone.
  assert (Forall (λ record, ¬ criteriaHold criteria record) Z) as Hall.
  { apply Forall_forall. intros record Hin. exact (Hnone record Hin). }
  assert (updateDNSRecord post config domain criteria updates w
            = setDNSRecords post config domain Z w1) as Hu.
  { rewrite (updateDNSRecord_writes _ _ _ _ _ _ _ _ Hget). by rewrite map_unmatched. }
  assert (deleteDNSRecord post config domain criteria w
            = setDNSRecords post config domain Z w1) as Hd.
  { rewrite (deleteDNSRecord_writes _ _ _ _ _ _ _ Hget). by rewrite filter_unmatched. }
  split; [exact Hu|]. split; [exact Hd|].
  intros a t cs w2 Hpost Hst. rewrite Hu, Hd.
  split; eapply setDNSRecords_ok; eauto.
Qed.

Lemma zero_match_rewrites_the_set_unchanged_witness :
  getDNSRecords Registrar.post Sample.config "example.com" Sample.registrar
    = (Ok [Sample.recordA; Sample.recordB], Sample.registrar)
  ∧ (∀ record, record ∈ [Sample.recordA; Sample.recordB] →
       ¬ (∀ key value, Sample.criteriaNone !! key = Some value → record.[key] = value))
  ∧ updateDNSRecord Registrar.post Sample.config "example.com"
      Sample.criteriaNone Sample.updatesAddress Sample.registrar
    = setDNSRecords Registrar.post Sample.config "example.com"
        [Sample.recordA; Sample.recordB] Sample.registrar
  ∧ deleteDNSRecord Registrar.post Sample.config "example.com"
      Sample.criteriaNone Sample.registrar
    = setDNSRecords Registrar.post Sample.config "example.com"
        [Sample.recordA; Sample.recordB] Sample.registrar.
Proof.
  assert (∀ record, record ∈ [Sample.recordA; Sample.recordB] →
            ¬ (∀ key value, Sample.criteriaNone !! key = Some value → record.[key] = value))
    as Hnone.
  { intros record Hin Hall.
    specialize (Hall "name" (JString "zzz") eq_refl).
    apply elem_of_cons in Hin as [->|Hin]; [discriminate Hall|].
    apply elem_of_cons in Hin as [->|Hin]; [discriminate Hall|].
    by apply elem_of_nil in Hin. }
  split; [reflexivity|]. split; [exact Hnone|].
  pose proof (zero_match_rewrites_the_set_unchanged Registrar.post Sample.config
                "example.com" Sample.criteriaNone Sample.updatesAddress
                Sample.registrar Sample.registrar [Sample.recordA; Sample.recordB]
                eq_refl Hnone) as (Hu & Hd & _).
  split; [exact Hu | exact Hd].
Defined.

Lemma registrar_zone_after_write (s : Registrar.state) sld tld hosts next :
  Registrar.zone
    {| Registrar.zones := <[(sld, tld) := hosts]> (Registrar.zones s);
       Registrar.nextHostId := next |} sld tld = hosts.
Proof. unfold Registrar.zone. simpl. by rewrite lookup_insert_eq. Qed.

Lemma sent_ofOption (o : option string) : o ≠ Some "" → sent (ofOption o) = o.
Proof.
  destruct o as [x|]; [|reflexivity]. intros Hne.
  unfold sent. simpl. destruct (String.eqb x "") eqn:E; simpl; [|reflexivity].
  apply String.eqb_eq in E. by subst.
Qed.

Lemma stamp_recordOfHost hosts : ∀ next,
  Forall filledOptionals hosts →
  stamp next (map recordOfHost hosts) = renumber next hosts.
Proof.
  induction hosts as [|h hs IH]; intros next Hall; [reflexivity|].
  inversion_clear Hall as [|? ? [Hm Ht] Hrest]. simpl. rewrite IH by done. f_equal.
  unfold hostOfRecord.
  change ((recordOfHost h).["mxPref"]) with (ofOption (Registrar.hostMXPref h)).
  change ((recordOfHost h).["ttl"]) with (ofOption (Registrar.hostTTL h)).
  by rewrite !sent_ofOption.
Qed.

(** Writing back what was read leaves in the zone the hosts it held,
    under new identifiers, and touches no other zone. *)
Lemma registrar_roundtrip_store config domain s :
  Forall filledOptionals (Registrar.zone s (sldOf domain) (tldOf domain)) →
  ∃ s2,
    (getDNSRecords Registrar.post config domain
       ≫= setDNSRecords Registrar.post config domain) s = (Ok (), s2)
    ∧ Registrar.zone s2 (sldOf domain) (tldOf domain)
      = renumber (Registrar.nextHostId s) (Registrar.zone s (sldOf domain) (tldOf domain))
    ∧ ∀ sld tld, (sld, tld) ≠ (sldOf domain, tldOf domain) →
        Registrar.zone s2 sld tld = Registrar.zone s sld tld.
Proof.
  intros Hfilled. eexists. split.
  - erewrite bind_ok by apply registrar_getDNSRecords.
    apply registrar_setDNSRecords.
    apply Forall_forall. intros r (h & -> & _)%list_elem_of_fmap.
    apply typedRecord_recordOfHost.
  - split.
    + by rewrite registrar_zone_after_write, stamp_recordOfHost.
    + intros sld tld Hne. unfold Registrar.zone. simpl.
      by rewrite lookup_insert_ne.
Qed.

Lemma registrar_read_typed config domain s Z s1 :
  getDNSRecords Registrar.post config domain s = (Ok Z, s1) →
  s1 = s ∧ Forall typedRecord Z.
Proof.
  rewrite registrar_getDNSRecords. intros [= <- <-]. split; [done|].
  apply Forall_forall. intros r (h & -> & _)%list_elem_of_fmap.
  apply typedRecord_recordOfHost.
Qed.

(** C1. Against a registrar that stores what it is sent, [addDNSRecord]
    reads the zone as [Z], writes [Z] with the record appended, and the next
    [getDNSRecords] returns the records of [Z], all of them, in their order
    and with their name, type, address, priority and time-to-live as they
    were, followed by the new record.  The identifiers are the registrar's. *)
Theorem addDNSRecord_yields_the_zone_with_the_record
    (config : NamecheapConfig) (domain : string) (record : DNSRecord)
    (s s1 : Registrar.state) (Z : list DNSRecord) :
  typedRecord record →
  getDNSRecords Registrar.post config domain s = (Ok Z, s1) →
  ∃ (s2 : Registrar.state) (Z' : list DNSRecord),
    addDNSRecord Registrar.post config domain record s
      = setDNSRecords Registrar.post config domain (Z ++ [record]) s1
    ∧ addDNSRecord Registrar.post config domain record s = (Ok (), s2)
    ∧ getDNSRecords Registrar.post config domain s2 = (Ok Z', s2)
    ∧ map content Z' = map content Z ++ [content record].
Proof.
  intros Hty Hget.
  pose proof (addDNSRecord_appends Registrar.post config domain record s Z s1 Hget) as Hadd.
  destruct (registrar_read_typed _ _ _ _ _ Hget) as [-> HZ].
  assert (Forall typedRecord (Z ++ [record])) as Hall.
  { apply Forall_app. split; [done|]. by constructor. }
  eexists _, _. split; [exact Hadd|]. rewrite Hadd.
  split; [by apply registrar_setDNSRecords|].
  split; [apply registrar_getDNSRecords|].
  rewrite registrar_zone_after_write, content_stamp by done.
  by rewrite map_app.
Qed.

Lemma addDNSRecord_yields_the_zone_with_the_record_witness :
  typedRecord Sample.recordWww
  ∧ getDNSRecords Registrar.post Sample.config "example.com" Sample.registrar
      = (Ok [Sample.recordA; Sample.recordB], Sample.registrar)
  ∧ ∃ (s2 : Registrar.state) (Z' : list DNSRecord),
      addDNSRecord Registrar.post Sample.config "example.com" Sample.recordWww
        Sample.registrar
        = setDNSRecords Registrar.post Sample.config "example.com"
            ([Sample.recordA; Sample.recordB] ++ [Sample.recordWww]) Sample.registrar
      ∧ addDNSRecord Registrar.post Sample.config "example.com" Sample.recordWww
          Sample.registrar = (Ok (), s2)
      ∧ getDNSRecords Registrar.post Sample.config "example.com" s2 = (Ok Z', s2)
      ∧ map content Z'
        = map content [Sample.recordA; Sample.recordB] ++ [content Sample.recordWww].
Proof.
  assert (typedRecord Sample.recordWww) as Hty.
  { repeat split; try (eexists; reflexivity); left; reflexivity. }
  split; [exact Hty|]. split; [reflexivity|].
  apply (addDNSRecord_yields_the_zone_with_the_record Sample.config "example.com"
           Sample.recordWww Sample.registrar Sample.registrar
           [Sample.recordA; Sample.recordB] Hty).
  reflexivity.
Defined.

(** C5. Against a registrar that stores what it is sent, writing back the
    records just read leaves the zone with the same records: the next
    [getDNSRecords] returns records with the same name, type, address,
    priority and time-to-live, one for one, so the two record sets are
    equal. *)
Theorem setDNSRecords_of_getDNSRecords_keeps_the_zone
    (config : NamecheapConfig) (domain : string)
    (s s1 : Registrar.state) (Z : list DNSRecord) :
  getDNSRecords Registrar.post config domain s = (Ok Z, s1) →
  ∃ (s2 : Registrar.state) (Z' : list DNSRecord),
    setDNSRecords Registrar.post config domain Z s1 = (Ok (), s2)
    ∧ getDNSRecords Registrar.post config domain s2 = (Ok Z', s2)
    ∧ map content Z' = map content Z
    ∧ ∀ c, c ∈ map content Z' ↔ c ∈ map content Z.
Proof.
  intros Hget.
  destruct (registrar_read_typed _ _ _ _ _ Hget) as [-> HZ].
  eexists _, _. split; [by apply registrar_setDNSRecords|].
  split; [apply registrar_getDNSRecords|].
  rewrite registrar_zone_after_write, content_stamp by done.
  split; [reflexivity|tauto].
Qed.

Lemma setDNSRecords_of_getDNSRecords_keeps_the_zone_witness :
  getDNSRecords Registrar.post Sample.config "example.com" Sample.registrar
    = (Ok [Sample.recordA; Sample.recordB], Sample.registrar)
  ∧ ∃ (s2 : Registrar.state) (Z' : list DNSRecord),
      setDNSRecords Registrar.post Sample.config "example.com"
        [Sample.recordA; Sample.recordB] Sample.registrar = (Ok (), s2)
      ∧ getDNSRecords Registrar.post Sample.config "example.com" s2 = (Ok Z', s2)
      ∧ map content Z' = map content [Sample.recordA; Sample.recordB]
      ∧ ∀ c, c ∈ map content Z' ↔ c ∈ map content [Sample.recordA; Sample.recordB].
Proof.
  split; [reflexivity|].
  apply (setDNSRecords_of_getDNSRecords_keeps_the_zone Sample.config "example.com"
           Sample.registrar Sample.registrar [Sample.recordA; Sample.recordB]).
  reflexivity.
Defined.

(** ** Errors of the gateway *)

Lemma checkStatus_reportsError root code message :
  reportsError root code message →
  checkStatus "ApiResponse" root = Err (NamecheapError message (Some code) None).
Proof.
  intros (a & t & cs & ea & et & ecs & more & na & ncs & more' & -> & Hst & Hes & He & Hn).
  unfold checkStatus. simpl. rewrite Hst. simpl. rewrite Hes. simpl. rewrite He. simpl.
  by rewrite Hn.
Qed.

Section GatewayErrors.
Context {World : Type}.
Variable post : string → jsobj → World → reply * World.
Variable config : NamecheapConfig.

Lemma makeRequest_reportsError command params w root w' code message :
  post (apiUrl config) (requestParams config command params) w
    = (Parsed "ApiResponse" root, w') →
  reportsError root code message →
  makeRequest post config command params w
    = (Err (NamecheapError message (Some code) None), w').
Proof.
  intros Hpost Herr. unfold makeRequest. rewrite Hpost.
  by rewrite (checkStatus_reportsError _ _ _ Herr).
Qed.

Lemma outcome_bind_err {A B} (m : M World A) (f : A → M World B) w e w' :
  m w = (Err e, w') → outcome (m ≫= f) w = (Some e, w').
Proof. intros H. unfold outcome. by erewrite bind_err. Qed.

(** An operation fails with whatever its first gateway call fails with. *)
Lemma perform_first_failure (o : operation) w e w' :
  makeRequest post config (firstRequest o).1 (firstRequest o).2 w = (Err e, w') →
  perform post config o w = (Some e, w').
Proof.
  intros Hreq.
  destruct o; simpl in *;
    try (by apply outcome_bind_err).
  all: apply outcome_bind_err; unfold getDNSRecords; by erewrite bind_err.
Qed.

Lemma makeRequest_failure command params w r cause w' :
  post (apiUrl config) (requestParams config command params) w = (r, w') →
  r = PostFails cause ∨ r = ParseFails cause →
  makeRequest post config command params w
    = (Err (NamecheapError
              ("API request failed: " +:+ default "Unknown error" (thrown_message cause))
              (Some "REQUEST_FAILED") (Some cause)), w').
Proof.
  intros Hpost Hr. unfold makeRequest. rewrite Hpost.
  by destruct Hr as [-> | ->].
Qed.

(** A reply that parses but lacks the expected nodes ends the same way. *)
Lemma makeRequest_malformed command params w rootName root cause w' :
  post (apiUrl config) (requestParams config command params) w
    = (Parsed rootName root, w') →
  checkStatus rootName root = Err (Foreign cause) →
  makeRequest post config command params w
    = (Err (NamecheapError
              ("API request failed: " +:+ default "Unknown error" (thrown_message cause))
              (Some "REQUEST_FAILED") (Some cause)), w').
Proof. intros Hpost Hc. unfold makeRequest. by rewrite Hpost, Hc. Qed.

End GatewayErrors.

(** The same holds when it is the write of a read-modify-write operation
    that the remote system refuses. *)
Lemma write_error_reaches_the_caller
    {World : Type} (post : string → jsobj → World → reply * World)
    (config : NamecheapConfig) domain record criteria updates
    (w w1 w2 : World) Z root code message :
  getDNSRecords post config domain w = (Ok Z, w1) →
  (∀ records,
     post (apiUrl config)
          (requestParams config "namecheap.domains.dns.setHosts"
             (setHostsParams domain records)) w1
       = (Parsed "ApiResponse" root, w2)) →
  reportsError root code message →
  let e := NamecheapError message (Some code) None in
  addDNSRecord post config domain record w = (Err e, w2)
  ∧ updateDNSRecord post config domain criteria updates w = (Err e, w2)
  ∧ deleteDNSRecord post config domain criteria w = (Err e, w2).
Proof.
  intros Hget Hpost Herr e.
  assert (∀ records, setDNSRecords post config domain records w1 = (Err e, w2)) as Hset.
  { intros records. unfold setDNSRecords.
    erewrite bind_err; [reflexivity|].
    eapply makeRequest_reportsError; eauto. }
  rewrite (addDNSRecord_appends _ _ _ _ _ _ _ Hget).
  rewrite (updateDNSRecord_writes _ _ _ _ _ _ _ _ Hget).
  rewrite (deleteDNSRecord_writes _ _ _ _ _ _ _ Hget).
  by rewrite !Hset.
Qed.

(** C6. When the response to the first gateway call of an operation
    carries the status [ERROR], the gateway fails with a [NamecheapError]
    whose code is the [Number] of the first [Errors] entry and whose message
    is its text, without a wrapped cause, and the operation of the facade
    fails with that very error. *)
Theorem remote_error_reaches_the_caller
    {World : Type} (post : string → jsobj → World → reply * World)
    (config : NamecheapConfig) (o : operation) (w w' : World)
    (root : xml) (code message : string) :
  post (apiUrl config) (requestParams config (firstRequest o).1 (firstRequest o).2) w
    = (Parsed "ApiResponse" root, w') →
  reportsError root code message →
  makeRequest post config (firstRequest o).1 (firstRequest o).2 w
    = (Err (NamecheapError message (Some code) None), w')
  ∧ perform post config o w = (Some (NamecheapError message (Some code) None), w')
  ∧ kindOf (NamecheapError message (Some code) None) = RemoteApiError.
Proof.
  intros Hpost Herr.
  pose proof (makeRequest_reportsError post config _ _ _ _ _ _ _ Hpost Herr) as Hreq.
  split; [exact Hreq|]. split; [|reflexivity].
  by apply perform_first_failure.
Qed.

Lemma remote_error_reaches_the_caller_witness :
  Scripted.post (apiUrl Sample.config)
      (requestParams Sample.config
         (firstRequest (RegisterDomain "example.org" 2 Sample.contact)).1
         (firstRequest (RegisterDomain "example.org" 2 Sample.contact)).2)
      [Parsed "ApiResponse" Sample.alreadyExists]
    = (Parsed "ApiResponse" Sample.alreadyExists, [])
  ∧ reportsError Sample.alreadyExists "2019166" "Domain name already exists"
  ∧ perform Scripted.post Sample.config (RegisterDomain "example.org" 2 Sample.contact)
      [Parsed "ApiResponse" Sample.alreadyExists]
    = (Some (NamecheapError "Domain name already exists" (Some "2019166") None), []).
Proof.
  assert (reportsError Sample.alreadyExists "2019166" "Domain name already exists") as Herr.
  { unfold reportsError, Sample.alreadyExists. do 10 eexists.
    repeat split; reflexivity. }
  split; [reflexivity|]. split; [exact Herr|].
  apply (remote_error_reaches_the_caller Scripted.post Sample.config
           (RegisterDomain "example.org" 2 Sample.contact)
           [Parsed "ApiResponse" Sample.alreadyExists] []
           Sample.alreadyExists "2019166" "Domain name already exists" eq_refl Herr).
Defined.

(** C7. When [axios.post] or [parseStringPromise] rejects, the gateway
    fails with a [NamecheapError] whose code is [REQUEST_FAILED], whose
    message names the cause and whose [details] hold the cause itself.
    Such an error is of another kind than the one raised for a response of
    status [ERROR], which carries no cause. *)
Theorem transport_failure_wraps_the_cause
    {World : Type} (post : string → jsobj → World → reply * World)
    (config : NamecheapConfig) (command : string) (params : jsobj)
    (w w' : World) (cause : thrown) :
  post (apiUrl config) (requestParams config command params) w = (PostFails cause, w')
  ∨ post (apiUrl config) (requestParams config command params) w = (ParseFails cause, w') →
  ∃ e : exn,
    makeRequest post config command params w = (Err e, w')
    ∧ e = NamecheapError
            ("API request failed: " +:+ default "Unknown error" (thrown_message cause))
            (Some "REQUEST_FAILED") (Some cause)
    ∧ kindOf e = TransportError
    ∧ ∀ (command0 : string) (params0 : jsobj) (w0 w0' : World)
        (root : xml) (code message : string),
        post (apiUrl config) (requestParams config command0 params0) w0
          = (Parsed "ApiResponse" root, w0') →
        reportsError root code message →
        ∃ e0 : exn,
          makeRequest post config command0 params0 w0 = (Err e0, w0')
          ∧ kindOf e0 = RemoteApiError
          ∧ e0 ≠ e.
Proof.
  intros Hpost. eexists. split.
  { destruct Hpost as [Hpost|Hpost];
      eapply makeRequest_failure; eauto. }
  split; [reflexivity|]. split; [reflexivity|].
  intros command0 params0 w0 w0' root code message Hpost0 Herr.
  eexists. split; [by eapply makeRequest_reportsError|].
  split; [reflexivity|discriminate].
Qed.

Lemma transport_failure_wraps_the_cause_witness :
  (Scripted.post (apiUrl Sample.config)
       (requestParams Sample.config "namecheap.domains.check"
          {[ "DomainList" := JString "example.org" ]}) []
     = (PostFails (ErrorObject "Error" "connect ECONNREFUSED"), [])
   ∨ Scripted.post (apiUrl Sample.config)
       (requestParams Sample.config "namecheap.domains.check"
          {[ "DomainList" := JString "example.org" ]}) []
     = (ParseFails (ErrorObject "Error" "connect ECONNREFUSED"), []))
  ∧ ∃ e : exn,
      makeRequest Scripted.post Sample.config "namecheap.domains.check"
        {[ "DomainList" := JString "example.org" ]} [] = (Err e, [])
      ∧ e = NamecheapError "API request failed: connect ECONNREFUSED"
              (Some "REQUEST_FAILED") (Some (ErrorObject "Error" "connect ECONNREFUSED"))
      ∧ kindOf e = TransportError.
Proof.
  split; [left; reflexivity|].
  destruct (transport_failure_wraps_the_cause Scripted.post Sample.config
              "namecheap.domains.check" {[ "DomainList" := JString "example.org" ]}
              [] [] (ErrorObject "Error" "connect ECONNREFUSED") (or_introl eq_refl))
    as (e & Hrun & He & Hk & _).
  exists e. split; [exact Hrun|]. split; [exact He|exact Hk].
Defined.

(** ** The requests that leave the client *)

Section Recording.
Context {World : Type}.
Variable post : string → jsobj → World → reply * World.
Variable config : NamecheapConfig.

Lemma makeRequest_recording command params w log :
  makeRequest (recording post) config command params (w, log) =
    let '(r, w') := makeRequest post config command params w in
    (r, (w', log ++ [(apiUrl config, requestParams config command params)])).
Proof.
  unfold makeRequest, recording. simpl.
  destruct (post _ _ w) as [r w'].
  destruct r as [c|c|n root]; simpl; try reflexivity.
  by destruct (checkStatus n root).
Qed.

(** One gateway call followed by the reshaping of its result. *)
Lemma call_then_reshape_recording {A} command params (g : xml → result A) w log :
  (makeRequest (recording post) config command params ≫= λ response, lift (g response))
    (w, log) =
    let '(r, w') :=
      (makeRequest post config command params ≫= λ response, lift (g response)) w in
    (r, (w', log ++ [(apiUrl config, requestParams config command params)])).
Proof.
  unfold mbind, M_bind. rewrite makeRequest_recording.
  destruct (makeRequest post config command params w) as [[response|e] w']; reflexivity.
Qed.

Lemma checkDomain_recording domain w log :
  checkDomain (recording post) config domain (w, log) =
    let '(r, w') := checkDomain post config domain w in
    (r, (w', log ++ [(apiUrl config,
                      requestParams config "namecheap.domains.check"
                        {[ "DomainList" := JString domain ]})])).
Proof. apply call_then_reshape_recording. Qed.

Lemma registerDomain_recording domain years contactInfo w log :
  registerDomain (recording post) config domain years contactInfo (w, log) =
    let '(r, w') := registerDomain post config domain years contactInfo w in
    (r, (w', log ++ [(apiUrl config,
                      requestParams config "namecheap.domains.create"
                        (registerParams domain years contactInfo))])).
Proof. apply call_then_reshape_recording. Qed.

End Recording.

Lemma registerParams_roles domain years contactInfo role :
  role ∈ ["Registrant"; "Admin"; "Tech"; "AuxBilling"] →
  let params := registerParams domain years contactInfo in
  params !! (role +:+ "FirstName") = Some (JString (firstName contactInfo))
  ∧ params !! (role +:+ "LastName") = Some (JString (lastName contactInfo))
  ∧ params !! (role +:+ "Address1") = Some (JString (address1 contactInfo))
  ∧ params !! (role +:+ "City") = Some (JString (city contactInfo))
  ∧ params !! (role +:+ "StateProvince") = Some (JString (stateProvince contactInfo))
  ∧ params !! (role +:+ "PostalCode") = Some (JString (postalCode contactInfo))
  ∧ params !! (role +:+ "Country") = Some (JString (country contactInfo))
  ∧ params !! (role +:+ "Phone") = Some (JString (phone contactInfo))
  ∧ params !! (role +:+ "EmailAddress") = Some (JString (emailAddress contactInfo)).
Proof.
  rewrite !elem_of_cons, elem_of_nil.
  intros [->|[->|[->|[->|[]]]]]; repeat split; reflexivity.
Qed.

(** What [checkDomain] makes of a response whose first result element has
    the attributes [a]. *)
Lemma checkDomain_reads_the_first_result
    {World : Type} (post : string → jsobj → World → reply * World)
    (config : NamecheapConfig) (domain : string) (w w' : World)
    (root entry : xml) (a : gmap string string) :
  post (apiUrl config)
       (requestParams config "namecheap.domains.check"
          {[ "DomainList" := JString domain ]}) w
    = (Parsed "ApiResponse" root, w') →
  commandResult root "DomainCheckResult" entry →
  hostAttrs entry = Some a →
  checkDomain post config domain w
    = (Ok {| dcr_domain := ofOption (a !! "Domain");
             dcr_available := bool_decide (a !! "Available" = Some "true");
             dcr_isPremium := bool_decide (a !! "IsPremiumName" = Some "true");
             dcr_premiumPrice :=
               if truthy (ofOption (a !! "PremiumRegistrationPrice"))
               then a !! "PremiumRegistrationPrice" else None |}, w').
Proof.
  intros Hpost (a0 & t & cs & ca & ct & ccs & more & more' & -> & Hst & Hcr & Hres) Ha.
  unfold checkDomain.
  erewrite bind_ok by (by apply makeRequest_ok).
  unfold lift. f_equal. simpl. rewrite Hcr. simpl. rewrite Hres. simpl.
  destruct entry as [s|ea et ecs]; [discriminate Ha|].
  simpl in Ha. subst ea. reflexivity.
Qed.

(** The requests of the handler, whatever the registrar answers: the check
    alone, or the check and then the registration, the latter only after a
    check that said the domain is available. *)
Lemma registerDomainTool_requests
    {World : Type} (post : string → jsobj → World → reply * World)
    (config : NamecheapConfig) (args : RegisterArgs)
    (w : World) (log : list (string * jsobj)) :
  let checkRequest :=
    (apiUrl config,
     requestParams config "namecheap.domains.check"
       {[ "DomainList" := JString (arg_domain args) ]}) in
  let createRequest :=
    (apiUrl config,
     requestParams config "namecheap.domains.create"
       (registerParams (arg_domain args) (arg_years args) (contactOf args))) in
  let run := registerDomainTool_execute (recording post) config args (w, log) in
  run.2.2 = log ++ [checkRequest]
  ∨ (run.2.2 = log ++ [checkRequest; createRequest]
     ∧ ∃ availability w',
         checkDomain post config (arg_domain args) w = (Ok availability, w')
         ∧ dcr_available availability = true).
Proof.
  intros checkRequest createRequest run.
  unfold run, registerDomainTool_execute, registerDomainTool_try.
  pose proof (checkDomain_recording post config (arg_domain args) w log) as Hrec.
  destruct (checkDomain post config (arg_domain args) w) as [[availability|e] w1] eqn:Hcheck;
    [|left; by erewrite bind_err by exact Hrec].
  erewrite bind_ok by exact Hrec.
  destruct (dcr_available availability) eqn:Hav; [|by left].
  right. split; [|by exists availability, w1].
  change (negb true) with false. cbv iota.
  pose proof (registerDomain_recording post config (arg_domain args) (arg_years args)
                (contactOf args) w1 (log ++ [checkRequest])) as Hreg.
  rewrite <- app_assoc in Hreg.
  change ([checkRequest] ++ [?x]) with [checkRequest; x] in Hreg.
  destruct (registerDomain post config _ _ _ w1) as [[created|e] w2].
  - by erewrite bind_ok by exact Hreg.
  - by erewrite bind_err by exact Hreg.
Qed.

(** C8. The [register-domain] handler checks the availability first, and
    goes by what the registrar answers.  When the first result of the answer
    does not say [Available="true"], the handler returns the text that says
    the domain is not available, raises nothing, and the check is the only
    request that went out.  When it says [Available="true"], the one further
    request is the registration of the client's [registerDomain], whose
    outcome the handler reports, and its parameters carry the caller's
    contact under each of the four roles.  Whatever the registrar answers,
    the registration goes out only after a check that said the domain is
    available. *)
Theorem registerDomainTool_checks_availability_first
    {World : Type} (post : string → jsobj → World → reply * World)
    (config : NamecheapConfig) (args : RegisterArgs)
    (w w1 : World) (log : list (string * jsobj))
    (root entry : xml) (a : gmap string string) :
  post (apiUrl config)
       (requestParams config "namecheap.domains.check"
          {[ "DomainList" := JString (arg_domain args) ]}) w
    = (Parsed "ApiResponse" root, w1) →
  commandResult root "DomainCheckResult" entry →
  hostAttrs entry = Some a →
  let checkRequest :=
    (apiUrl config,
     requestParams config "namecheap.domains.check"
       {[ "DomainList" := JString (arg_domain args) ]}) in
  let createParams := registerParams (arg_domain args) (arg_years args) (contactOf args) in
  let createRequest :=
    (apiUrl config, requestParams config "namecheap.domains.create" createParams) in
  (a !! "Available" ≠ Some "true" →
     registerDomainTool_execute (recording post) config args (w, log)
       = (Ok [ {| item_type := "text";
                  item_text := "Domain " +:+ arg_domain args +:+
                               " is not available for registration." |} ],
          (w1, log ++ [checkRequest])))
  ∧ (a !! "Available" = Some "true" →
       match registerDomain post config (arg_domain args) (arg_years args)
               (contactOf args) w1 with
       | (Ok created, w2) =>
           registerDomainTool_execute (recording post) config args (w, log)
             = (Ok [ {| item_type := "text";
                        item_text :=
                          "Successfully registered " +:+ arg_domain args +:+ " for " +:+
                          pretty (arg_years args) +:+ " year(s)!" +:+
                          String "010" (String "010" "") +:+
                          "Domain ID: " +:+ toString (fst created) +:+ String "010" "" +:+
                          "Order ID: " +:+ toString (snd created) |} ],
                (w2, log ++ [checkRequest; createRequest]))
       | (Err error, w2) =>
           registerDomainTool_execute (recording post) config args (w, log)
             = (Err (Foreign (ErrorObject "Error"
                                ("Failed to register domain: " +:+
                                 default "Unknown error" (exn_message error)))),
                (w2, log ++ [checkRequest; createRequest]))
       end)
  ∧ (∀ role, role ∈ ["Registrant"; "Admin"; "Tech"; "AuxBilling"] →
       createParams !! (role +:+ "FirstName") = Some (JString (arg_firstName args))
       ∧ createParams !! (role +:+ "LastName") = Some (JString (arg_lastName args))
       ∧ createParams !! (role +:+ "Address1") = Some (JString (arg_address args))
       ∧ createParams !! (role +:+ "City") = Some (JString (arg_city args))
       ∧ createParams !! (role +:+ "StateProvince") = Some (JString (arg_stateProvince args))
       ∧ createParams !! (role +:+ "PostalCode") = Some (JString (arg_postalCode args))
       ∧ createParams !! (role +:+ "Country") = Some (JString (arg_country args))
       ∧ createParams !! (role +:+ "Phone") = Some (JString (arg_phone args))
       ∧ createParams !! (role +:+ "EmailAddress") = Some (JString (arg_email args)))
  ∧ (∀ (w0 : World) (log0 : list (string * jsobj)),
       (registerDomainTool_execute (recording post) config args (w0, log0)).2.2
         = log0 ++ [checkRequest]
       ∨ ((registerDomainTool_execute (recording post) config args (w0, log0)).2.2
            = log0 ++ [checkRequest; createRequest]
          ∧ ∃ availability w',
              checkDomain post config (arg_domain args) w0 = (Ok availability, w')
              ∧ dcr_available availability = true)).
Proof.
  intros Hpost Hres Ha checkRequest createParams createRequest.
  pose proof (checkDomain_reads_the_first_result post config (arg_domain args) w w1
                root entry a Hpost Hres Ha) as Hcheck.
  match type of Hcheck with _ = (Ok ?r, _) => set (availability := r) in Hcheck end.
  assert (checkDomain (recording post) config (arg_domain args) (w, log)
            = (Ok availability, (w1, log ++ [checkRequest]))) as Hrec.
  { rewrite checkDomain_recording, Hcheck. reflexivity. }
  split_and!.
  - intros Hav. unfold registerDomainTool_execute, registerDomainTool_try.
    erewrite bind_ok by exact Hrec.
    unfold availability. cbn [dcr_available]. by rewrite bool_decide_eq_false_2.
  - intros Hav. unfold registerDomainTool_execute, registerDomainTool_try.
    erewrite bind_ok by exact Hrec.
    unfold availability. cbn [dcr_available]. rewrite bool_decide_eq_true_2 by exact Hav.
    change (negb true) with false. cbv iota.
    pose proof (registerDomain_recording post config (arg_domain args) (arg_years args)
                  (contactOf args) w1 (log ++ [checkRequest])) as Hreg.
    rewrite <- app_assoc in Hreg.
    change ([checkRequest] ++ [?x]) with [checkRequest; x] in Hreg.
    destruct (registerDomain post config _ _ _ w1) as [[created|e] w2].
    + by erewrite bind_ok by exact Hreg.
    + by erewrite bind_err by exact Hreg.
  - intros role Hrole.
    apply (registerParams_roles (arg_domain args) (arg_years args) (contactOf args) role Hrole).
  - intros w0 log0. apply registerDomainTool_requests.
Qed.

Lemma registerDomainTool_checks_availability_first_witness :
  (Scripted.post (apiUrl Sample.config)
       (requestParams Sample.config "namecheap.domains.check"
          {[ "DomainList" := JString "example.org" ]})
       [Parsed "ApiResponse" (Sample.checked "false"); Parsed "ApiResponse" Sample.registered]
     = (Parsed "ApiResponse" (Sample.checked "false"),
        [Parsed "ApiResponse" Sample.registered])
   ∧ commandResult (Sample.checked "false") "DomainCheckResult"
       (XElem (Some {[ "Domain" := "example.org"; "Available" := "false";
                       "IsPremiumName" := "false" ]}) None [])
   ∧ registerDomainTool_execute (recording Scripted.post) Sample.config Sample.registerArgs
       ([Parsed "ApiResponse" (Sample.checked "false");
         Parsed "ApiResponse" Sample.registered], [])
     = (Ok [ {| item_type := "text";
                item_text := "Domain example.org is not available for registration." |} ],
        ([Parsed "ApiResponse" Sample.registered],
         [ (apiUrl Sample.config,
            requestParams Sample.config "namecheap.domains.check"
              {[ "DomainList" := JString "example.org" ]}) ])))
  ∧ (Scripted.post (apiUrl Sample.config)
       (requestParams Sample.config "namecheap.domains.check"
          {[ "DomainList" := JString "example.org" ]})
       [Parsed "ApiResponse" (Sample.checked "true"); Parsed "ApiResponse" Sample.registered]
     = (Parsed "ApiResponse" (Sample.checked "true"),
        [Parsed "ApiResponse" Sample.registered])
     ∧ commandResult (Sample.checked "true") "DomainCheckResult"
         (XElem (Some {[ "Domain" := "example.org"; "Available" := "true";
                         "IsPremiumName" := "false" ]}) None [])
     ∧ registerDomainTool_execute (recording Scripted.post) Sample.config Sample.registerArgs
         ([Parsed "ApiResponse" (Sample.checked "true");
           Parsed "ApiResponse" Sample.registered], [])
       = (Ok [ {| item_type := "text";
                  item_text :=
                    "Successfully registered example.org for 2 year(s)!" +:+
                    String "010" (String "010" "Domain ID: 9007") +:+
                    String "010" "Order ID: 196074" |} ],
          ([],
           [ (apiUrl Sample.config,
              requestParams Sample.config "namecheap.domains.check"
                {[ "DomainList" := JString "example.org" ]});
             (apiUrl Sample.config,
              requestParams Sample.config "namecheap.domains.create"
                (registerParams "example.org" 2 Sample.contact)) ]))).
Proof.
  assert (Hres : ∀ available,
            commandResult (Sample.checked available) "DomainCheckResult"
              (XElem (Some {[ "Domain" := "example.org"; "Available" := available;
                              "IsPremiumName" := "false" ]}) None [])).
  { intros available. unfold commandResult, Sample.checked. do 8 eexists.
    repeat split; [|reflexivity..]. discriminate. }
  split.
  - split; [reflexivity|]. split; [exact (Hres "false")|].
    destruct (registerDomainTool_checks_availability_first Scripted.post Sample.config
                Sample.registerArgs
                [Parsed "ApiResponse" (Sample.checked "false");
                 Parsed "ApiResponse" Sample.registered]
                [Parsed "ApiResponse" Sample.registered] []
                (Sample.checked "false") _ _ eq_refl (Hres "false") eq_refl)
      as (Hno & _ & _ & _).
    apply Hno. discriminate.
  - split; [reflexivity|]. split; [exact (Hres "true")|].
    destruct (registerDomainTool_checks_availability_first Scripted.post Sample.config
                Sample.registerArgs
                [Parsed "ApiResponse" (Sample.checked "true");
                 Parsed "ApiResponse" Sample.registered]
                [Parsed "ApiResponse" Sample.registered] []
                (Sample.checked "true") _ _ eq_refl (Hres "true") eq_refl)
      as (_ & Hyes & _ & _).
    exact (Hyes eq_refl).
Defined.

(** The same handler on a domain that is free: the check, then the
    registration, and the confirmation text. *)
Example registerDomainTool_on_a_free_domain :
  registerDomainTool_execute (recording Scripted.post) Sample.config Sample.registerArgs
    ([Parsed "ApiResponse" (Sample.checked "true"); Parsed "ApiResponse" Sample.registered],
     [])
  = (Ok [ {| item_type := "text";
             item_text :=
               "Successfully registered example.org for 2 year(s)!" +:+
               String "010" (String "010" "Domain ID: 9007") +:+
               String "010" "Order ID: 196074" |} ],
     ([],
      [ (apiUrl Sample.config,
         requestParams Sample.config "namecheap.domains.check"
           {[ "DomainList" := JString "example.org" ]});
        (apiUrl Sample.config,
         requestParams Sample.config "namecheap.domains.create"
           (registerParams "example.org" 2 Sample.contact)) ])).
Proof. reflexivity. Qed.

(** C8, as stated of the client's [registerDomain], fails: on a domain that
    is taken the method asks nothing before it registers.  Its only request
    is the registration, no availability check goes out, and the registrar's
    refusal is raised as a [NamecheapError]. *)
Lemma registerDomain_registers_without_a_check :
  registerDomain (recording Scripted.post) Sample.config "example.org" 2 Sample.contact
    ([Parsed "ApiResponse" Sample.alreadyExists], [])
  = (Err (NamecheapError "Domain name already exists" (Some "2019166") None),
     ([],
      [ (apiUrl Sample.config,
         requestParams Sample.config "namecheap.domains.create"
           (registerParams "example.org" 2 Sample.contact)) ]))
  ∧ (apiUrl Sample.config,
     requestParams Sample.config "namecheap.domains.check"
       {[ "DomainList" := JString "example.org" ]})
    ∉ (registerDomain (recording Scripted.post) Sample.config "example.org" 2 Sample.contact
         ([Parsed "ApiResponse" Sample.alreadyExists], [])).2.2.
Proof.
  split; [reflexivity|].
  change (registerDomain (recording Scripted.post) Sample.config "example.org" 2
            Sample.contact ([Parsed "ApiResponse" Sample.alreadyExists], [])).2.2
    with [ (apiUrl Sample.config,
            requestParams Sample.config "namecheap.domains.create"
              (registerParams "example.org" 2 Sample.contact)) ].
  intros Hin%list_elem_of_singleton.
  apply (f_equal (λ request, request.2 !! "Command")) in Hin.
  discriminate Hin.
Qed.

(** The handler turns the same failure into a plain [Error] with a
    message of its own. *)
Example registerDomainTool_on_a_remote_error :
  registerDomainTool_execute Scripted.post Sample.config Sample.registerArgs
    [Parsed "ApiResponse" (Sample.checked "true"); Parsed "ApiResponse" Sample.alreadyExists]
  = (Err (Foreign (ErrorObject "Error"
                     "Failed to register domain: Domain name already exists")), []).
Proof. reflexivity. Qed.

(** ** Absent nodes *)

(** C9. When the result node of the read command has no [host] child,
    [getDNSRecords] returns the empty list and raises nothing.  When the
    result node of the list command has no [Domain] child, [listDomains]
    returns no domains, and [totalItems] is [parseInt] of the [TotalItems]
    attribute of the paging node. *)
Theorem absent_nodes_read_as_empty_lists
    {World : Type} (post : string → jsobj → World → reply * World)
    (config : NamecheapConfig) :
  (∀ (domain : string) (w w' : World) (root res0 : xml),
     post (apiUrl config)
          (requestParams config "namecheap.domains.dns.getHosts"
             {[ "SLD" := JString (sldOf domain); "TLD" := JString (tldOf domain) ]}) w
       = (Parsed "ApiResponse" root, w') →
     commandResult root "DomainDNSGetHostsResult" res0 →
     lacksChild "host" res0 →
     getDNSRecords post config domain w = (Ok [], w'))
  ∧ (∀ (page pageSize : Z) (w w' : World) (root res0 : xml) (pa : gmap string string),
       post (apiUrl config)
            (requestParams config "namecheap.domains.getList"
               {[ "Page" := JNumber page; "PageSize" := JNumber pageSize ]}) w
         = (Parsed "ApiResponse" root, w') →
       commandResult root "DomainGetListResult" res0 →
       pagingAttrs root pa →
       lacksChild "Domain" res0 →
       listDomains post config page pageSize w
         = (Ok ([], parseInt (ofOption (pa !! "TotalItems"))), w')).
Proof.
  split.
  - intros domain w w' root res0 Hpost
      (a & t & cs & ca & ct & ccs & more & more' & -> & Hst & Hcr & Hres) Hlack.
    unfold getDNSRecords.
    erewrite bind_ok by (by apply makeRequest_ok).
    unfold lift. f_equal. simpl. rewrite Hcr. simpl. rewrite Hres. simpl.
    destruct res0; simpl in *; [reflexivity|]. by rewrite Hlack.
  - intros page pageSize w w' root res0 pa Hpost
      (a & t & cs & ca & ct & ccs & more & more' & -> & Hst & Hcr & Hres)
      (a' & t' & cs' & pt & pcs & pmore & [= <- <- <-] & Hpg) Hlack.
    unfold listDomains.
    erewrite bind_ok by (by apply makeRequest_ok).
    unfold lift. f_equal. simpl. rewrite Hpg. simpl. rewrite Hcr. simpl. rewrite Hres. simpl.
    destruct res0; simpl in *; [reflexivity|]. by rewrite Hlack.
Qed.

Lemma absent_nodes_read_as_empty_lists_witness :
  (commandResult Sample.noHosts "DomainDNSGetHostsResult"
     (XElem (Some {[ "Domain" := "example.org"; "IsUsingOurDNS" := "true" ]}) None [])
   ∧ lacksChild "host"
       (XElem (Some {[ "Domain" := "example.org"; "IsUsingOurDNS" := "true" ]}) None [])
   ∧ getDNSRecords Scripted.post Sample.config "example.org"
       [Parsed "ApiResponse" Sample.noHosts] = (Ok [], []))
  ∧ (commandResult Sample.noDomains "DomainGetListResult" (XText "")
     ∧ pagingAttrs Sample.noDomains
         {[ "TotalItems" := "0"; "CurrentPage" := "1"; "PageSize" := "20" ]}
     ∧ lacksChild "Domain" (XText "")
     ∧ listDomains Scripted.post Sample.config 1 20 [Parsed "ApiResponse" Sample.noDomains]
       = (Ok ([], Some 0%Z), [])).
Proof.
  assert (commandResult Sample.noHosts "DomainDNSGetHostsResult"
            (XElem (Some {[ "Domain" := "example.org"; "IsUsingOurDNS" := "true" ]}) None []))
    as Hh.
  { unfold commandResult, Sample.noHosts. do 8 eexists.
    repeat split; [|reflexivity..]. discriminate. }
  assert (commandResult Sample.noDomains "DomainGetListResult" (XText "")) as Hd.
  { unfold commandResult, Sample.noDomains. do 8 eexists.
    repeat split; [|reflexivity..]. discriminate. }
  assert (pagingAttrs Sample.noDomains
            {[ "TotalItems" := "0"; "CurrentPage" := "1"; "PageSize" := "20" ]}) as Hp.
  { unfold pagingAttrs, Sample.noDomains. do 6 eexists. split; reflexivity. }
  destruct (absent_nodes_read_as_empty_lists Scripted.post Sample.config) as [Hhosts Hlist].
  split.
  - split; [exact Hh|]. split; [reflexivity|].
    exact (Hhosts "example.org" [Parsed "ApiResponse" Sample.noHosts] [] _ _
             eq_refl Hh eq_refl).
  - split; [exact Hd|]. split; [exact Hp|]. split; [exact I|].
    exact (Hlist 1%Z 20%Z [Parsed "ApiResponse" Sample.noDomains] [] _ _ _
             eq_refl Hd Hp I).
Defined.

(** ** The parameters of a request *)

(** C10. The request that leaves the gateway carries [requestParams].  In
    it every parameter that the caller supplies keeps the caller's value,
    also under the names [ApiUser], [ApiKey], [UserName], [ClientIp] and
    [Command]; when the caller supplies none of these five names, they
    carry the configured user, key, user again, client address, and the
    command. *)
Theorem caller_params_are_merged_after_the_identity
    {World : Type} (post : string → jsobj → World → reply * World)
    (config : NamecheapConfig) (command : string) (params : jsobj)
    (w : World) (log : list (string * jsobj)) :
  (makeRequest (recording post) config command params (w, log)).2.2
    = log ++ [(apiUrl config, requestParams config command params)]
  ∧ (∀ key value, params !! key = Some value →
       requestParams config command params !! key = Some value)
  ∧ ((∀ key, key ∈ ["ApiUser"; "ApiKey"; "UserName"; "ClientIp"; "Command"] →
        params !! key = None) →
     requestParams config command params !! "ApiUser" = Some (JString (apiUser config))
     ∧ requestParams config command params !! "ApiKey" = Some (JString (apiKey config))
     ∧ requestParams config command params !! "UserName" = Some (JString (apiUser config))
     ∧ requestParams config command params !! "ClientIp" = Some (JString (clientIp config))
     ∧ requestParams config command params !! "Command" = Some (JString command)).
Proof.
  split; [|split].
  - rewrite makeRequest_recording.
    by destruct (makeRequest post config command params w).
  - intros key value Hk. unfold requestParams. by rewrite spread_lookup, Hk.
  - intros Havoid.
    repeat split; (rewrite requestParams_plain; [reflexivity|apply Havoid; in_list]).
Qed.

Lemma caller_params_are_merged_after_the_identity_witness :
  (∀ key, key ∈ ["ApiUser"; "ApiKey"; "UserName"; "ClientIp"; "Command"] →
     ({[ "DomainList" := JString "example.org" ]} : jsobj) !! key = None)
  ∧ requestParams Sample.config "namecheap.domains.check"
      {[ "DomainList" := JString "example.org" ]} !! "ApiKey" = Some (JString "secret")
  ∧ requestParams Sample.config "namecheap.domains.check"
      {[ "DomainList" := JString "example.org" ]} !! "Command"
    = Some (JString "namecheap.domains.check").
Proof.
  assert (∀ key, key ∈ ["ApiUser"; "ApiKey"; "UserName"; "ClientIp"; "Command"] →
            ({[ "DomainList" := JString "example.org" ]} : jsobj) !! key = None) as Havoid.
  { intros key. rewrite !elem_of_cons, elem_of_nil.
    intros [->|[->|[->|[->|[->|[]]]]]]; reflexivity. }
  split; [exact Havoid|].
  destruct (caller_params_are_merged_after_the_identity Scripted.post Sample.config
              "namecheap.domains.check" {[ "DomainList" := JString "example.org" ]} [] [])
    as (_ & _ & Hid).
  destruct (Hid Havoid) as (_ & Hkey & _ & _ & Hcmd).
  split; [exact Hkey | exact Hcmd].
Defined.

(** A caller that passes [ApiKey] and [Command] replaces both in the
    request that goes out. *)
Example caller_overrides_the_identity :
  let sent := requestParams Sample.config "namecheap.domains.check"
                {[ "ApiKey" := JString "other"; "Command" := JString "namecheap.users.getBalances" ]} in
  sent !! "ApiKey" = Some (JString "other")
  ∧ sent !! "Command" = Some (JString "namecheap.users.getBalances")
  ∧ sent !! "ApiUser" = Some (JString "alice").
Proof. repeat split; reflexivity. Qed.

(** ** The cases of the specification, run against the registrar *)

(** Updating by [{name: a, type: A}] with [{address: 9.9.9.9}] changes the
    address of the first record and leaves the second as it was. *)
Example update_changes_only_the_matching_address :
  (updateDNSRecord Registrar.post Sample.config "example.com"
     Sample.criteriaA Sample.updatesAddress
     ≫= λ _, getDNSRecords Registrar.post Sample.config "example.com"
     ≫= λ Z, mret (map content Z)) Sample.registrar
  = (Ok [ (JString "a", JString "A", JString "9.9.9.9", JString "10", JString "1800");
          (JString "b", JString "A", JString "2.2.2.2", JString "10", JString "1800") ],
     {| Registrar.zones :=
          {[ ("example", "com") :=
               [ {| Registrar.hostId := 13; Registrar.hostName := "a";
                    Registrar.recordType := "A"; Registrar.hostAddress := "9.9.9.9";
                    Registrar.hostMXPref := Some "10"; Registrar.hostTTL := Some "1800" |};
                 {| Registrar.hostId := 14; Registrar.hostName := "b";
                    Registrar.recordType := "A"; Registrar.hostAddress := "2.2.2.2";
                    Registrar.hostMXPref := Some "10"; Registrar.hostTTL := Some "1800" |} ] ]};
        Registrar.nextHostId := 15 |}).
Proof. reflexivity. Qed.

(** Deleting by [{name: a, type: A}] removes the address record of [a];
    the text record of the same name stays. *)
Example delete_spares_the_other_type :
  (deleteDNSRecord Registrar.post Sample.config "example.com" Sample.criteriaA
     ≫= λ _, getDNSRecords Registrar.post Sample.config "example.com"
     ≫= λ Z, mret (map content Z)) Sample.registrarTxt
  = (Ok [ (JString "a", JString "TXT", JString "v=spf1 -all", JUndefined, JUndefined) ],
     {| Registrar.zones :=
          {[ ("example", "com") :=
               [ {| Registrar.hostId := 22; Registrar.hostName := "a";
                    Registrar.recordType := "TXT"; Registrar.hostAddress := "v=spf1 -all";
                    Registrar.hostMXPref := None; Registrar.hostTTL := None |} ] ]};
        Registrar.nextHostId := 23 |}).
Proof. reflexivity. Qed.

(** With criteria that match nothing both operations go through and the
    zone keeps its two records. *)
Example zero_match_against_the_registrar :
  (updateDNSRecord Registrar.post Sample.config "example.com"
     Sample.criteriaNone Sample.updatesAddress
     ≫= λ _, deleteDNSRecord Registrar.post Sample.config "example.com" Sample.criteriaNone
     ≫= λ _, getDNSRecords Registrar.post Sample.config "example.com"
     ≫= λ Z, mret (map content Z)) Sample.registrar
  = (Ok (map content [Sample.recordA; Sample.recordB]),
     {| Registrar.zones :=
          {[ ("example", "com") := renumber 15 [Sample.hostA; Sample.hostB] ]};
        Registrar.nextHostId := 17 |}).
Proof. reflexivity. Qed.

(** Empty criteria hold of every record: a delete by [{}] empties the
    zone. *)
Example delete_by_empty_criteria :
  (deleteDNSRecord Registrar.post Sample.config "example.com" ∅
     ≫= λ _, getDNSRecords Registrar.post Sample.config "example.com") Sample.registrar
  = (Ok [],
     {| Registrar.zones := {[ ("example", "com") := [] ]}; Registrar.nextHostId := 13 |}).
Proof. reflexivity. Qed.

(** The pieces of a domain name. *)
Example split_of_a_three_label_name :
  sldOf "example.co.uk" = "example" ∧ tldOf "example.co.uk" = "co.uk"
  ∧ sldOf "localhost" = "localhost" ∧ tldOf "localhost" = "".
Proof. repeat split; reflexivity. Qed.

(** The parameters of a write of two records: the priority and the
    time-to-live appear where the record has them. *)
Example setHostsParams_of_two_records :
  setHostsParams "example.com" [Sample.recordA; Sample.recordWww]
  = {[ "SLD" := JString "example"; "TLD" := JString "com";
       "HostName1" := JString "a"; "RecordType1" := JString "A";
       "Address1" := JString "1.1.1.1"; "MXPref1" := JString "10"; "TTL1" := JString "1800";
       "HostName2" := JString "www"; "RecordType2" := JString "CNAME";
       "Address2" := JString "example.com." ]}.
Proof. apply map_eq. intros k. vm_compute. reflexivity. Qed.

(** * Further properties of the client *)

(** ** The parameters of a write *)

(** X1. [setDNSRecords] sends the record at position [j] of the list under
    the names of index [j+1]: the name, the type and the address always,
    the priority and the time-to-live when they are truthy, and no such
    name otherwise; beside the records it sends [SLD] and [TLD], and no
    indexed name of index 0 or beyond the length of the list. *)
Theorem setDNSRecords_parameter_layout (domain : string) (records : list DNSRecord) :
  let p := setHostsParams domain records in
  p !! "SLD" = Some (JString (sldOf domain))
  ∧ p !! "TLD" = Some (JString (tldOf domain))
  ∧ (∀ (j : nat) (record : DNSRecord), records !! j = Some record →
       p !! ("HostName" +:+ pretty (j + 1)) = Some record.["name"]
       ∧ p !! ("RecordType" +:+ pretty (j + 1)) = Some record.["type"]
       ∧ p !! ("Address" +:+ pretty (j + 1)) = Some record.["address"]
       ∧ p !! ("MXPref" +:+ pretty (j + 1))
         = (if truthy record.["mxPref"] then Some record.["mxPref"] else None)
       ∧ p !! ("TTL" +:+ pretty (j + 1))
         = (if truthy record.["ttl"] then Some record.["ttl"] else None))
  ∧ (∀ (n : nat) (k : string), n = 0 ∨ length records < n → k ∈ indexedKeys n →
       p !! k = None).
Proof.
  intros p. destruct (setHostsParams_lookup domain records) as (_ & Hs & Ht).
  split; [exact Hs|]. split; [exact Ht|]. split.
  - intros j record Hj. unfold p, setHostsParams.
    pose proof (hostParams_lookup (j + 1) record
                  {[ "SLD" := JString (sldOf domain); "TLD" := JString (tldOf domain) ]}
                  (λ k, base_no_indexed domain (j + 1) k)) as (E1 & E2 & E3 & E4 & E5).
    rewrite !(forEachHost_lookup records 0 _ j record) by (done || in_list).
    simpl (0 + j + 1). by rewrite E1, E2, E3, E4, E5.
  - intros n k Hn Hk. unfold p, setHostsParams.
    destruct Hn as [-> | Hn].
    + rewrite forEachHost_frame; [by apply (base_no_indexed domain 0)|].
      intros m Hm. apply (indexedKeys_disjoint 0); [lia|done].
    + rewrite (forEachHost_beyond _ _ _ n) by (simpl; lia || done).
      by apply (base_no_indexed domain n).
Qed.

Lemma setDNSRecords_parameter_layout_witness :
  [Sample.recordA; Sample.recordWww] !! 1 = Some Sample.recordWww
  ∧ setHostsParams "example.com" [Sample.recordA; Sample.recordWww] !! "HostName2"
    = Some (JString "www")
  ∧ setHostsParams "example.com" [Sample.recordA; Sample.recordWww] !! "MXPref2" = None
  ∧ setHostsParams "example.com" [Sample.recordA; Sample.recordWww] !! "HostName3" = None.
Proof.
  destruct (setDNSRecords_parameter_layout "example.com"
              [Sample.recordA; Sample.recordWww]) as (_ & _ & Hat & Hbeyond).
  destruct (Hat 1 Sample.recordWww eq_refl) as (Hname & _ & _ & Hmx & _).
  split; [reflexivity|]. split; [exact Hname|]. split; [exact Hmx|].
  apply (Hbeyond 3 "HostName3"); [right; simpl; lia|].
  apply list_elem_of_here.
Defined.

Lemma optional_insert (v v' : jsval) (k : string) (p : jsobj) :
  optional v = optional v' →
  (if truthy v then <[k := v]> p else p) = (if truthy v' then <[k := v']> p else p).
Proof.
  unfold optional. destruct (truthy v) eqn:E, (truthy v') eqn:E'; intros H; subst;
    try reflexivity; by rewrite ?E, ?E' in *.
Qed.

Lemma hostParams_content n (r r' : DNSRecord) (p : jsobj) :
  content r = content r' → hostParams n r p = hostParams n r' p.
Proof.
  unfold content. intros [= Hn Ht Ha Hm Hl]. unfold hostParams.
  rewrite Hn, Ht, Ha.
  rewrite (optional_insert _ _ _ _ Hm).
  apply (optional_insert _ _ _ _ Hl).
Qed.

Lemma forEachHost_content (rs : list DNSRecord) : ∀ (rs' : list DNSRecord) i (p : jsobj),
  map content rs = map content rs' → forEachHost i rs p = forEachHost i rs' p.
Proof.
  induction rs as [|r rs IH]; intros [|r' rs'] i p H; try discriminate H; [done|].
  change (content r :: map content rs = content r' :: map content rs') in H.
  assert (content r = content r') as Hc by congruence.
  assert (map content rs = map content rs') as Hrest by congruence.
  simpl. rewrite (hostParams_content _ _ _ _ Hc). by apply IH.
Qed.

(** X2. What [setDNSRecords] sends depends on the name, the type, the
    address and the truthy priority and time-to-live of the records, and on
    nothing else: two lists that agree on these give the same request.  In
    particular the identifier of a record is never sent, and neither is an
    empty priority or time-to-live. *)
Theorem setDNSRecords_sends_content_only
    {World : Type} (post : string → jsobj → World → reply * World)
    (config : NamecheapConfig) (domain : string) (records records' : list DNSRecord) :
  map content records = map content records' →
  setHostsParams domain records = setHostsParams domain records'
  ∧ setDNSRecords post config domain records = setDNSRecords post config domain records'.
Proof.
  intros H.
  assert (setHostsParams domain records = setHostsParams domain records') as Hp
    by (by apply forEachHost_content).
  split; [exact Hp|]. unfold setDNSRecords. by rewrite Hp.
Qed.

Lemma setDNSRecords_sends_content_only_witness :
  map content [Sample.recordA] = map content [delete "hostId" Sample.recordA]
  ∧ setHostsParams "example.com" [Sample.recordA]
    = setHostsParams "example.com" [delete "hostId" Sample.recordA].
Proof.
  assert (map content [Sample.recordA] = map content [delete "hostId" Sample.recordA])
    as H by reflexivity.
  split; [exact H|].
  exact (proj1 (setDNSRecords_sends_content_only Scripted.post Sample.config "example.com"
                  [Sample.recordA] [delete "hostId" Sample.recordA] H)).
Defined.

(** ** The two parts of a domain name *)

Lemma split_dot_nonempty s : split_dot s ≠ [].
Proof. destruct s as [|c s]; simpl; [done|]. case_decide; [done|]. by destruct (split_dot s). Qed.

Lemma join_cons_cons sep x y l : join sep (x :: y :: l) = x +:+ sep +:+ join sep (y :: l).
Proof. reflexivity. Qed.

Lemma join_head_char sep c x l : join sep (String c x :: l) = String c (join sep (x :: l)).
Proof. destruct l; reflexivity. Qed.

Lemma join_split_dot s : join "." (split_dot s) = s.
Proof.
  induction s as [|c s IH]; [reflexivity|]. simpl.
  case_decide as Hc.
  - subst c. pose proof (split_dot_nonempty s) as Hne.
    destruct (split_dot s) as [|x l] eqn:E; [done|].
    rewrite join_cons_cons, IH. reflexivity.
  - pose proof (split_dot_nonempty s) as Hne.
    destruct (split_dot s) as [|x l] eqn:E; [done|].
    by rewrite join_head_char, IH.
Qed.

Lemma split_dot_no_dot s : hasDot s = false → split_dot s = [s].
Proof.
  induction s as [|c s IH]; [reflexivity|]. simpl.
  case_decide; [done|]. intros Hs. by rewrite (IH Hs).
Qed.

Lemma split_dot_head_no_dot s : hasDot (hd "" (split_dot s)) = false.
Proof.
  induction s as [|c s IH]; [reflexivity|]. simpl.
  case_decide as Hc; [reflexivity|].
  pose proof (split_dot_nonempty s) as Hne.
  destruct (split_dot s) as [|x l]; [done|]. simpl in *.
  by rewrite decide_False.
Qed.

Lemma split_dot_has_dot s : hasDot s = true → ∃ x y l, split_dot s = x :: y :: l.
Proof.
  induction s as [|c s IH]; [done|]. simpl.
  case_decide as Hc.
  - intros _. pose proof (split_dot_nonempty s).
    destruct (split_dot s) as [|y l]; [done|]. eauto.
  - intros Hs. destruct (IH Hs) as (x & y & l & ->). eauto.
Qed.

(** X3. The zone address that the DNS operations send is the domain name
    cut at its first dot: the SLD has no dot in it, a name with a dot is
    the SLD, a dot and the TLD, and a name without a dot is sent as the SLD
    with an empty TLD. *)
Theorem domain_is_cut_at_the_first_dot (domain : string) :
  hasDot (sldOf domain) = false
  ∧ (hasDot domain = true → domain = sldOf domain +:+ "." +:+ tldOf domain)
  ∧ (hasDot domain = false → sldOf domain = domain ∧ tldOf domain = "").
Proof.
  unfold sldOf, tldOf. split; [apply split_dot_head_no_dot|]. split.
  - intros H. destruct (split_dot_has_dot _ H) as (x & y & l & E).
    pose proof (join_split_dot domain) as J. rewrite E in *. simpl hd. simpl tl.
    by rewrite join_cons_cons in J.
  - intros H. by rewrite (split_dot_no_dot _ H).
Qed.

Lemma domain_is_cut_at_the_first_dot_witness :
  hasDot "example.co.uk" = true
  ∧ "example.co.uk" = sldOf "example.co.uk" +:+ "." +:+ tldOf "example.co.uk"
  ∧ hasDot "localhost" = false
  ∧ sldOf "localhost" = "localhost" ∧ tldOf "localhost" = "".
Proof.
  destruct (domain_is_cut_at_the_first_dot "example.co.uk") as (_ & Hdot & _).
  destruct (domain_is_cut_at_the_first_dot "localhost") as (_ & _ & Hno).
  split; [reflexivity|]. split; [exact (Hdot eq_refl)|]. split; [reflexivity|].
  exact (Hno eq_refl).
Defined.

(** ** What the gateway hands back *)

Lemma checkStatus_outcomes rootName root :
  match checkStatus rootName root with
  | Ok r => r = root ∧ rootName = "ApiResponse"
            ∧ ∃ a t cs, root = XElem (Some a) t cs ∧ a !! "Status" ≠ Some "ERROR"
  | Err (NamecheapError m c d) => d = None
  | Err (Foreign _) => True
  end.
Proof.
  unfold checkStatus.
  destruct (decide (rootName = "ApiResponse")) as [->|Hn]; [|done].
  destruct root as [s|[a|] t cs]; try done. simpl.
  destruct (decide (a !! "Status" = Some "ERROR")) as [Hst|Hst].
  - destruct (assoc "Errors" cs) as [[|e0 es]|]; try done. simpl.
    destruct e0 as [s|ea et ecs]; try done. simpl.
    destruct (assoc "Error" ecs) as [[|e1 es1]|]; try done. simpl.
    destruct e1 as [s|[na|] nt ncs]; done.
  - eauto 10.
Qed.

(** X4. Whatever the remote side answers, [makeRequest] either returns the
    root element of the response, which then has attributes and a status
    other than [ERROR], or throws a [NamecheapError]; no other error leaves
    the gateway.  It sends one request, to the configured URL. *)
Theorem makeRequest_returns_or_throws_NamecheapError
    {World : Type} (post : string → jsobj → World → reply * World)
    (config : NamecheapConfig) (command : string) (params : jsobj)
    (w : World) (log : list (string * jsobj)) :
  match makeRequest (recording post) config command params (w, log) with
  | (Ok root, (w', log')) =>
      (∃ a t cs, root = XElem (Some a) t cs ∧ a !! "Status" ≠ Some "ERROR")
      ∧ post (apiUrl config) (requestParams config command params) w
        = (Parsed "ApiResponse" root, w')
      ∧ log' = log ++ [(apiUrl config, requestParams config command params)]
  | (Err e, (w', log')) =>
      (∃ message code details, e = NamecheapError message code details)
      ∧ w' = (post (apiUrl config) (requestParams config command params) w).2
      ∧ log' = log ++ [(apiUrl config, requestParams config command params)]
  end.
Proof.
  rewrite makeRequest_recording. unfold makeRequest.
  destruct (post _ _ w) as [r w'] eqn:Hpost.
  destruct r as [c|c|n root]; simpl; [eauto 10..|].
  pose proof (checkStatus_outcomes n root) as H.
  destruct (checkStatus n root) as [r|[m c d|t]]; simpl.
  - destruct H as (-> & -> & H). eauto.
  - eauto 10.
  - eauto 10.
Qed.

(** X5. A response of status [ERROR] that has no [Errors] node, or whose
    first [Error] element carries no attributes, is not reported as the
    remote system's error: the gateway fails with the code
    [REQUEST_FAILED] and the [TypeError] of the failed access as the
    wrapped cause. *)
Theorem error_status_without_an_entry_is_a_request_failure
    {World : Type} (post : string → jsobj → World → reply * World)
    (config : NamecheapConfig) (command : string) (params : jsobj)
    (w w' : World) (a : gmap string string) (t : option string)
    (cs : list (string * list xml)) :
  post (apiUrl config) (requestParams config command params) w
    = (Parsed "ApiResponse" (XElem (Some a) t cs), w') →
  a !! "Status" = Some "ERROR" →
  assoc "Errors" cs = None
  ∨ (∃ ea et ecs more text more',
       assoc "Errors" cs = Some (XElem ea et ecs :: more)
       ∧ assoc "Error" ecs = Some (XText text :: more')) →
  ∃ message prop,
    makeRequest post config command params w
      = (Err (NamecheapError message (Some "REQUEST_FAILED") (Some (typeError prop))), w')
    ∧ kindOf (NamecheapError message (Some "REQUEST_FAILED") (Some (typeError prop)))
      = TransportError.
Proof.
  intros Hpost Hst Hshape. unfold makeRequest. rewrite Hpost.
  unfold checkStatus. simpl. rewrite Hst. simpl.
  destruct Hshape as [Hnone | (ea & et & ecs & more & text & more' & Hes & He)].
  - rewrite Hnone. simpl. eauto.
  - rewrite Hes. simpl. rewrite He. simpl. eauto.
Qed.

Lemma error_status_without_an_entry_is_a_request_failure_witness :
  Scripted.post (apiUrl Sample.config)
      (requestParams Sample.config "namecheap.domains.check"
         {[ "DomainList" := JString "example.org" ]})
      [Parsed "ApiResponse" (XElem (Some {[ "Status" := "ERROR" ]}) None [])]
    = (Parsed "ApiResponse" (XElem (Some {[ "Status" := "ERROR" ]}) None []), [])
  ∧ ({[ "Status" := "ERROR" ]} : gmap string string) !! "Status" = Some "ERROR"
  ∧ ∃ message prop,
      makeRequest Scripted.post Sample.config "namecheap.domains.check"
        {[ "DomainList" := JString "example.org" ]}
        [Parsed "ApiResponse" (XElem (Some {[ "Status" := "ERROR" ]}) None [])]
      = (Err (NamecheapError message (Some "REQUEST_FAILED") (Some (typeError prop))), []).
Proof.
  assert (({[ "Status" := "ERROR" ]} : gmap string string) !! "Status" = Some "ERROR")
    as Hst by reflexivity.
  split; [reflexivity|]. split; [exact Hst|].
  destruct (error_status_without_an_entry_is_a_request_failure Scripted.post Sample.config
              "namecheap.domains.check" {[ "DomainList" := JString "example.org" ]}
              [Parsed "ApiResponse" (XElem (Some {[ "Status" := "ERROR" ]}) None [])] []
              {[ "Status" := "ERROR" ]} None [] eq_refl Hst (or_introl eq_refl))
    as (message & prop & Hrun & _).
  exists message, prop. exact Hrun.
Defined.

(** ** Reading a zone *)

Lemma mapM_result_nil {A B} (f : A → result B) : mapM f [] = Ok [].
Proof. reflexivity. Qed.

Lemma hostRecord_outcomes host :
  match hostAttrs host with
  | Some a =>
      hostRecord host =
        Ok {[ "hostId" := ofOption (a !! "HostId");
              "name" := ofOption (a !! "Name");
              "type" := ofOption (a !! "Type");
              "address" := ofOption (a !! "Address");
              "mxPref" := ofOption (a !! "MXPref");
              "ttl" := ofOption (a !! "TTL") ]}
  | None => hostRecord host = Err (Foreign (typeError "HostId"))
  end.
Proof. destruct host as [s|[a|] t cs]; reflexivity. Qed.

Lemma mapM_hostRecord_all hosts :
  Forall (λ host, is_Some (hostAttrs host)) hosts →
  ∃ Z, mapM hostRecord hosts = Ok Z
       ∧ Forall2 (λ host r, hostRecord host = Ok r) hosts Z.
Proof.
  induction 1 as [|host hosts [a Ha] _ (Z & HZ & Hall)].
  - exists []. by split; [|constructor].
  - pose proof (hostRecord_outcomes host) as Hh. rewrite Ha in Hh.
    eexists (_ :: Z). rewrite mapM_result_cons, Hh, HZ. split; [reflexivity|].
    by constructor.
Qed.

Lemma mapM_hostRecord_some hosts :
  Exists (λ host, hostAttrs host = None) hosts →
  mapM hostRecord hosts = Err (Foreign (typeError "HostId")).
Proof.
  induction hosts as [|host hosts IH]; intros Hex; [by inversion Hex|].
  rewrite mapM_result_cons.
  pose proof (hostRecord_outcomes host) as Hh.
  destruct (hostAttrs host) as [a|] eqn:Ha.
  - rewrite Hh. inversion Hex as [? ? Hbad|? ? Hrest]; subst; [congruence|].
    by rewrite (IH Hrest).
  - by rewrite Hh.
Qed.

(** X6. [getDNSRecords] is all or nothing.  When every [host] element of
    the response has attributes, it returns one record per element, in the
    order of the response, each with the six properties [hostId], [name],
    [type], [address], [mxPref] and [ttl], a property whose attribute is
    missing being [undefined].  When one element has no attributes, the
    whole read fails with a [TypeError], which is not a [NamecheapError]. *)
Theorem getDNSRecords_is_all_or_nothing
    {World : Type} (post : string → jsobj → World → reply * World)
    (config : NamecheapConfig) (domain : string) (w w' : World)
    (root res0 : xml) (hosts : list xml) :
  post (apiUrl config)
       (requestParams config "namecheap.domains.dns.getHosts"
          {[ "SLD" := JString (sldOf domain); "TLD" := JString (tldOf domain) ]}) w
    = (Parsed "ApiResponse" root, w') →
  commandResult root "DomainDNSGetHostsResult" res0 →
  child "host" (Some res0) = Ok (Some hosts) →
  (Forall (λ host, is_Some (hostAttrs host)) hosts →
     ∃ Z, getDNSRecords post config domain w = (Ok Z, w')
          ∧ length Z = length hosts
          ∧ ∀ i host r, hosts !! i = Some host → Z !! i = Some r →
              ∃ a, hostAttrs host = Some a
                   ∧ dom r = {[ "hostId"; "name"; "type"; "address"; "mxPref"; "ttl" ]}
                   ∧ r.["hostId"] = ofOption (a !! "HostId")
                   ∧ r.["name"] = ofOption (a !! "Name")
                   ∧ r.["type"] = ofOption (a !! "Type")
                   ∧ r.["address"] = ofOption (a !! "Address")
                   ∧ r.["mxPref"] = ofOption (a !! "MXPref")
                   ∧ r.["ttl"] = ofOption (a !! "TTL"))
  ∧ (Exists (λ host, hostAttrs host = None) hosts →
       getDNSRecords post config domain w = (Err (Foreign (typeError "HostId")), w')).
Proof.
  intros Hpost (a & t & cs & ca & ct & ccs & more & more' & -> & Hst & Hcr & Hres) Hhost.
  assert (getDNSRecords post config domain w = (mapM hostRecord hosts, w')) as Hget.
  { unfold getDNSRecords.
    erewrite bind_ok by (by apply makeRequest_ok).
    unfold lift. f_equal. simpl. rewrite Hcr. simpl. rewrite Hres. simpl.
    simpl in Hhost. destruct res0 as [s|ra rt rcs]; [discriminate Hhost|].
    simpl in *. injection Hhost as ->. reflexivity. }
  split.
  - intros Hall. destruct (mapM_hostRecord_all hosts Hall) as (Z & HZ & H2).
    exists Z. rewrite Hget, HZ. split; [reflexivity|].
    split; [symmetry; by eapply Forall2_length|].
    intros i host r Hi Hr.
    pose proof (Forall2_lookup_lr _ _ _ _ _ _ H2 Hi Hr) as Hrec. cbv beta in Hrec.
    pose proof (hostRecord_outcomes host) as Hh.
    destruct (hostAttrs host) as [a'|]; [|congruence].
    rewrite Hh in Hrec. injection Hrec as <-.
    exists a'. split; [reflexivity|].
    split; [|repeat split; reflexivity].
    rewrite !dom_insert_L, dom_singleton_L. set_solver.
  - intros Hex. by rewrite Hget, (mapM_hostRecord_some hosts Hex).
Qed.

Lemma getDNSRecords_is_all_or_nothing_witness :
  Scripted.post (apiUrl Sample.config)
      (requestParams Sample.config "namecheap.domains.dns.getHosts"
         {[ "SLD" := JString (sldOf "example.com"); "TLD" := JString (tldOf "example.com") ]})
      [Parsed "ApiResponse" (Scenario.zoneDoc [Registrar.hostElem Sample.hostA; XText "x"])]
    = (Parsed "ApiResponse" (Scenario.zoneDoc [Registrar.hostElem Sample.hostA; XText "x"]), [])
  ∧ Exists (λ host, hostAttrs host = None) [Registrar.hostElem Sample.hostA; XText "x"]
  ∧ getDNSRecords Scripted.post Sample.config "example.com"
      [Parsed "ApiResponse" (Scenario.zoneDoc [Registrar.hostElem Sample.hostA; XText "x"])]
    = (Err (Foreign (typeError "HostId")), []).
Proof.
  assert (Exists (λ host, hostAttrs host = None) [Registrar.hostElem Sample.hostA; XText "x"])
    as Hex by (right; left; reflexivity).
  assert (commandResult
            (Scenario.zoneDoc [Registrar.hostElem Sample.hostA; XText "x"])
            "DomainDNSGetHostsResult"
            (XElem (Some {[ "Domain" := "example.com" ]}) None
               [ ("host", [Registrar.hostElem Sample.hostA; XText "x"]) ])) as Hcr.
  { unfold commandResult, Scenario.zoneDoc. do 8 eexists.
    repeat split; [|reflexivity..]. discriminate. }
  split; [reflexivity|]. split; [exact Hex|].
  destruct (getDNSRecords_is_all_or_nothing Scripted.post Sample.config "example.com"
              [Parsed "ApiResponse"
                 (Scenario.zoneDoc [Registrar.hostElem Sample.hostA; XText "x"])] []
              (Scenario.zoneDoc [Registrar.hostElem Sample.hostA; XText "x"])
              (XElem (Some {[ "Domain" := "example.com" ]}) None
                 [ ("host", [Registrar.hostElem Sample.hostA; XText "x"]) ])
              [Registrar.hostElem Sample.hostA; XText "x"]
              eq_refl Hcr eq_refl) as [_ Hfail].
  exact (Hfail Hex).
Defined.

Lemma bind_lift {World A B} (m : M World A) (g : A → result B) (w : World) :
  (m ≫= λ x, lift (g x)) w =
    match m w with
    | (Ok x, w1) => (g x, w1)
    | (Err e, w1) => (Err e, w1)
    end.
Proof. reflexivity. Qed.

(** ** One domain or several *)

(** X7. [checkDomain] and [checkDomains] of the one-element list send the
    same request, and [checkDomain] returns the first result of the
    response: when [checkDomains] returns a non-empty list, [checkDomain]
    returns its head.  On a response whose command response has no result
    element both throw a [TypeError] that is not a [NamecheapError]:
    [checkDomains] on reading [map], [checkDomain] on reading the index
    [0]. *)
Theorem checkDomain_is_the_head_of_checkDomains
    {World : Type} (post : string → jsobj → World → reply * World)
    (config : NamecheapConfig) (domain : string) (w w' : World) :
  firstRequest (CheckDomain domain) = firstRequest (CheckDomains [domain])
  ∧ (∀ r rs, checkDomains post config [domain] w = (Ok (r :: rs), w') →
       checkDomain post config domain w = (Ok r, w'))
  ∧ (∀ a t cs cr0 more,
       post (apiUrl config)
            (requestParams config "namecheap.domains.check"
               {[ "DomainList" := JString domain ]}) w
         = (Parsed "ApiResponse" (XElem (Some a) t cs), w') →
       a !! "Status" ≠ Some "ERROR" →
       assoc "CommandResponse" cs = Some (cr0 :: more) →
       lacksChild "DomainCheckResult" cr0 →
       checkDomains post config [domain] w = (Err (Foreign (typeError "map")), w')
       ∧ checkDomain post config domain w = (Err (Foreign (typeError "0")), w')).
Proof.
  split; [reflexivity|]. split.
  - unfold checkDomains, checkDomain.
    change (join "," [domain]) with domain.
    rewrite !bind_lift.
    destruct (makeRequest post config "namecheap.domains.check" _ w) as [[response|e] w1];
      [|intros r rs; discriminate].
    destruct (child "CommandResponse" (Some response)) as [cr|e]; simpl;
      [|intros r rs; discriminate].
    destruct (first cr) as [cr0|e]; simpl; [|intros r rs; discriminate].
    destruct (child "DomainCheckResult" cr0) as [[entries|]|e]; simpl;
      [|intros r rs; discriminate..].
    destruct entries as [|entry entries]; [intros r rs; discriminate|].
    rewrite mapM_result_cons. simpl.
    destruct (checkResult (Some entry)) as [x|e]; simpl; [|intros r rs; discriminate].
    destruct (mapM _ entries); simpl; [|intros r rs; discriminate].
    by intros r rs [= -> -> ->].
  - intros a t cs cr0 more Hpost Hst Hcr Hlack.
    unfold checkDomains, checkDomain.
    change (join "," [domain]) with domain.
    erewrite !bind_ok by (by apply makeRequest_ok).
    unfold lift. simpl. rewrite Hcr. simpl.
    destruct cr0 as [s|ca ct ccs]; simpl in *; [done|]. by rewrite Hlack.
Qed.

Lemma checkDomain_is_the_head_of_checkDomains_witness :
  (checkDomains Scripted.post Sample.config ["example.org"]
      [Parsed "ApiResponse"
         (Scenario.checkDoc [Scenario.checkEntry "example.org" "true" "false";
                             Scenario.checkEntry "example.net" "false" "false"])]
    = (Ok [ {| dcr_domain := JString "example.org"; dcr_available := true;
               dcr_isPremium := false; dcr_premiumPrice := None |};
            {| dcr_domain := JString "example.net"; dcr_available := false;
               dcr_isPremium := false; dcr_premiumPrice := None |} ], [])
   ∧ checkDomain Scripted.post Sample.config "example.org"
       [Parsed "ApiResponse"
          (Scenario.checkDoc [Scenario.checkEntry "example.org" "true" "false";
                              Scenario.checkEntry "example.net" "false" "false"])]
     = (Ok {| dcr_domain := JString "example.org"; dcr_available := true;
              dcr_isPremium := false; dcr_premiumPrice := None |}, []))
  ∧ (Scripted.post (apiUrl Sample.config)
       (requestParams Sample.config "namecheap.domains.check"
          {[ "DomainList" := JString "example.org" ]})
       [Parsed "ApiResponse" Scenario.checkDocBare]
     = (Parsed "ApiResponse" Scenario.checkDocBare, [])
     ∧ lacksChild "DomainCheckResult"
         (XElem (Some {[ "Type" := "namecheap.domains.check" ]}) None [])
     ∧ checkDomains Scripted.post Sample.config ["example.org"]
         [Parsed "ApiResponse" Scenario.checkDocBare]
       = (Err (Foreign (typeError "map")), [])
     ∧ checkDomain Scripted.post Sample.config "example.org"
         [Parsed "ApiResponse" Scenario.checkDocBare]
       = (Err (Foreign (typeError "0")), [])).
Proof.
  split.
  - split; [reflexivity|].
    destruct (checkDomain_is_the_head_of_checkDomains Scripted.post Sample.config
                "example.org"
                [Parsed "ApiResponse"
                   (Scenario.checkDoc [Scenario.checkEntry "example.org" "true" "false";
                                       Scenario.checkEntry "example.net" "false" "false"])] [])
      as (_ & Hhead & _).
    exact (Hhead _ _ eq_refl).
  - split; [reflexivity|]. split; [reflexivity|].
    destruct (checkDomain_is_the_head_of_checkDomains Scripted.post Sample.config
                "example.org" [Parsed "ApiResponse" Scenario.checkDocBare] [])
      as (_ & _ & Hbare).
    apply (Hbare {[ "Status" := "OK" ]} None
             [ ("CommandResponse",
                [ XElem (Some {[ "Type" := "namecheap.domains.check" ]}) None [] ]) ]
             (XElem (Some {[ "Type" := "namecheap.domains.check" ]}) None []) []);
      [reflexivity | discriminate | reflexivity | reflexivity].
Defined.

(** A check that comes back without a result element. *)
Example checkDomains_without_a_result_element :
  checkDomains Scripted.post Sample.config ["example.org"; "example.net"]
    [Parsed "ApiResponse" Scenario.checkDocBare]
  = (Err (Foreign (typeError "map")), [])
  ∧ checkDomain Scripted.post Sample.config "example.org"
      [Parsed "ApiResponse" Scenario.checkDocBare]
    = (Err (Foreign (typeError "0")), []).
Proof. split; reflexivity. Qed.

(** ** Degenerate criteria and updates *)

Lemma matches_empty record : matches ∅ record = true.
Proof. apply matches_criteriaHold, criteriaHold_empty. Qed.

Lemma spread_empty (record : jsobj) : spread record ∅ = record.
Proof. unfold spread. apply (left_id_L ∅ (∪)). Qed.

(** X8. Empty criteria hold of every record.  [deleteDNSRecord] with empty
    criteria writes the empty list, a request that names the zone and no
    record at all, and [updateDNSRecord] with empty criteria applies the
    updates to every record of the zone. *)
Theorem empty_criteria_select_every_record
    {World : Type} (post : string → jsobj → World → reply * World)
    (config : NamecheapConfig) (domain : string) (updates : jsobj)
    (w w1 : World) (Z : list DNSRecord) :
  getDNSRecords post config domain w = (Ok Z, w1) →
  deleteDNSRecord post config domain ∅ w = setDNSRecords post config domain [] w1
  ∧ setHostsParams domain []
    = {[ "SLD" := JString (sldOf domain); "TLD" := JString (tldOf domain) ]}
  ∧ updateDNSRecord post config domain ∅ updates w
    = setDNSRecords post config domain (map (λ record, spread record updates) Z) w1.
Proof.
  intros Hget.
  rewrite (deleteDNSRecord_writes _ _ _ _ _ _ _ Hget).
  rewrite (updateDNSRecord_writes _ _ _ _ _ _ _ _ Hget).
  split; [|split; [reflexivity|]].
  - f_equal. clear Hget. induction Z as [|r Z IH]; [reflexivity|].
    cbn [List.filter]. by rewrite matches_empty.
  - reflexivity.
Qed.

Lemma empty_criteria_select_every_record_witness :
  getDNSRecords Registrar.post Sample.config "example.com" Sample.registrar
    = (Ok [Sample.recordA; Sample.recordB], Sample.registrar)
  ∧ deleteDNSRecord Registrar.post Sample.config "example.com" ∅ Sample.registrar
    = setDNSRecords Registrar.post Sample.config "example.com" [] Sample.registrar.
Proof.
  split; [reflexivity|].
  exact (proj1 (empty_criteria_select_every_record Registrar.post Sample.config
                  "example.com" Sample.updatesAddress Sample.registrar Sample.registrar
                  [Sample.recordA; Sample.recordB] eq_refl)).
Defined.

(** X9. [updateDNSRecord] with empty updates changes no record, whatever
    the criteria: it writes back the list just read. *)
Theorem empty_updates_rewrite_the_zone
    {World : Type} (post : string → jsobj → World → reply * World)
    (config : NamecheapConfig) (domain : string) (criteria : jsobj)
    (w w1 : World) (Z : list DNSRecord) :
  getDNSRecords post config domain w = (Ok Z, w1) →
  updateDNSRecord post config domain criteria ∅ w
    = setDNSRecords post config domain Z w1.
Proof.
  intros Hget. rewrite (updateDNSRecord_writes _ _ _ _ _ _ _ _ Hget). f_equal.
  clear Hget. induction Z as [|r Z IH]; [reflexivity|].
  simpl. rewrite IH, spread_empty. by destruct (matches criteria r).
Qed.

Lemma empty_updates_rewrite_the_zone_witness :
  getDNSRecords Registrar.post Sample.config "example.com" Sample.registrar
    = (Ok [Sample.recordA; Sample.recordB], Sample.registrar)
  ∧ updateDNSRecord Registrar.post Sample.config "example.com" Sample.criteriaA ∅
      Sample.registrar
    = setDNSRecords Registrar.post Sample.config "example.com"
        [Sample.recordA; Sample.recordB] Sample.registrar.
Proof.
  split; [reflexivity|].
  exact (empty_updates_rewrite_the_zone Registrar.post Sample.config "example.com"
           Sample.criteriaA Sample.registrar Sample.registrar
           [Sample.recordA; Sample.recordB] eq_refl).
Defined.

(** ** Deleting twice *)

Lemma elem_of_stamp h records : ∀ next,
  h ∈ stamp next records → ∃ id record, record ∈ records ∧ h = hostOfRecord id record.
Proof.
  induction records as [|r rs IH]; intros next Hin; simpl in Hin.
  - by apply elem_of_nil in Hin.
  - apply elem_of_cons in Hin as [->|Hin].
    + exists next, r. split; [apply list_elem_of_here|reflexivity].
    + destruct (IH _ Hin) as (id & record & Hr & ->).
      exists id, record. split; [by apply list_elem_of_further|reflexivity].
Qed.

Lemma stored_identity_fields id record key :
  typedRecord record → key ∈ ["name"; "type"; "address"] →
  (recordOfHost (hostOfRecord id record)).[key] = record.[key].
Proof.
  intros ([n Hn] & [t Ht] & [a Ha] & _) Hkey.
  rewrite !elem_of_cons, elem_of_nil in Hkey.
  destruct Hkey as [->|[->|[->|[]]]].
  - change ((recordOfHost (hostOfRecord id record)).["name"])
      with (JString (toString record.["name"])). by rewrite Hn.
  - change ((recordOfHost (hostOfRecord id record)).["type"])
      with (JString (toString record.["type"])). by rewrite Ht.
  - change ((recordOfHost (hostOfRecord id record)).["address"])
      with (JString (toString record.["address"])). by rewrite Ha.
Qed.

Lemma criteriaHold_stored criteria id record :
  (∀ key, is_Some (criteria !! key) → key ∈ ["name"; "type"; "address"]) →
  typedRecord record →
  criteriaHold criteria (recordOfHost (hostOfRecord id record)) ↔ criteriaHold criteria record.
Proof.
  intros Hkeys Hty. unfold criteriaHold, map_Forall.
  split; intros H key value Hk; specialize (H key value Hk);
    rewrite stored_identity_fields in *; eauto.
Qed.

Lemma typed_read (domain : string) (s : Registrar.state) :
  Forall typedRecord (map recordOfHost (Registrar.zone s (sldOf domain) (tldOf domain))).
Proof.
  apply Forall_forall. intros r (h & -> & _)%list_elem_of_fmap.
  apply typedRecord_recordOfHost.
Qed.

(** X10. Against the registrar, a delete by criteria on the name, the type
    or the address leaves no record that satisfies the criteria, and a
    second delete by the same criteria removes nothing more: the zone reads
    the same after it. *)
Theorem deleteDNSRecord_twice_is_deleteDNSRecord_once
    (config : NamecheapConfig) (domain : string) (criteria : jsobj) (s : Registrar.state) :
  (∀ key, is_Some (criteria !! key) → key ∈ ["name"; "type"; "address"]) →
  ∃ (s2 s3 : Registrar.state) (Z' Z'' : list DNSRecord),
    deleteDNSRecord Registrar.post config domain criteria s = (Ok (), s2)
    ∧ getDNSRecords Registrar.post config domain s2 = (Ok Z', s2)
    ∧ (∀ record, record ∈ Z' → ¬ criteriaHold criteria record)
    ∧ deleteDNSRecord Registrar.post config domain criteria s2 = (Ok (), s3)
    ∧ getDNSRecords Registrar.post config domain s3 = (Ok Z'', s3)
    ∧ map content Z'' = map content Z'.
Proof.
  intros Hkeys.
  set (Z := map recordOfHost (Registrar.zone s (sldOf domain) (tldOf domain))).
  set (F := filter (λ record, ¬ criteriaHold criteria record) Z).
  assert (Forall typedRecord F) as HF.
  { apply Forall_forall. intros r [_ Hr]%list_elem_of_filter.
    revert r Hr. apply Forall_forall, typed_read. }
  assert (deleteDNSRecord Registrar.post config domain criteria s
            = setDNSRecords Registrar.post config domain F s) as Hdel.
  { rewrite (deleteDNSRecord_writes _ _ _ _ _ _ _ (registrar_getDNSRecords config domain s)).
    by rewrite filter_negb_matches. }
  eexists _, _, _, _.
  split; [rewrite Hdel; by apply registrar_setDNSRecords|].
  split; [apply registrar_getDNSRecords|].
  rewrite registrar_zone_after_write.
  assert (∀ record, record ∈ map recordOfHost (stamp (Registrar.nextHostId s) F) →
            ¬ criteriaHold criteria record) as Hnone.
  { intros r' (h & -> & Hh)%list_elem_of_fmap.
    destruct (elem_of_stamp _ _ _ Hh) as (id & r & Hr & ->).
    rewrite criteriaHold_stored by (done || by eapply Forall_forall in HF).
    by apply list_elem_of_filter in Hr as [Hr _]. }
  split; [exact Hnone|].
  match goal with
  | |- deleteDNSRecord _ _ _ _ ?s2 = _ ∧ _ =>
      assert (deleteDNSRecord Registrar.post config domain criteria s2
                = setDNSRecords Registrar.post config domain
                    (map recordOfHost (stamp (Registrar.nextHostId s) F)) s2) as Hdel2
  end.
  { erewrite deleteDNSRecord_writes; cycle 1.
    { rewrite registrar_getDNSRecords, registrar_zone_after_write. reflexivity. }
    rewrite filter_unmatched; [reflexivity|]. by apply Forall_forall. }
  assert (Forall typedRecord (map recordOfHost (stamp (Registrar.nextHostId s) F))) as HZ'.
  { apply Forall_forall. intros r (h & -> & _)%list_elem_of_fmap.
    apply typedRecord_recordOfHost. }
  split; [rewrite Hdel2; by apply registrar_setDNSRecords|].
  split; [apply registrar_getDNSRecords|].
  by rewrite registrar_zone_after_write, content_stamp.
Qed.

Lemma deleteDNSRecord_twice_is_deleteDNSRecord_once_witness :
  (∀ key, is_Some (Sample.criteriaA !! key) → key ∈ ["name"; "type"; "address"])
  ∧ ∃ (s2 s3 : Registrar.state) (Z' Z'' : list DNSRecord),
      deleteDNSRecord Registrar.post Sample.config "example.com" Sample.criteriaA
        Sample.registrar = (Ok (), s2)
      ∧ getDNSRecords Registrar.post Sample.config "example.com" s2 = (Ok Z', s2)
      ∧ (∀ record, record ∈ Z' → ¬ criteriaHold Sample.criteriaA record)
      ∧ deleteDNSRecord Registrar.post Sample.config "example.com" Sample.criteriaA s2
        = (Ok (), s3)
      ∧ getDNSRecords Registrar.post Sample.config "example.com" s3 = (Ok Z'', s3)
      ∧ map content Z'' = map content Z'.
Proof.
  assert (∀ key, is_Some (Sample.criteriaA !! key) → key ∈ ["name"; "type"; "address"])
    as Hkeys.
  { intros key [v Hv]. unfold Sample.criteriaA in Hv.
    apply lookup_insert_Some in Hv as [[<- _]|[_ Hv]]; [apply list_elem_of_here|].
    apply lookup_singleton_Some in Hv as [<- _].
    apply list_elem_of_further, list_elem_of_here. }
  split; [exact Hkeys|].
  exact (deleteDNSRecord_twice_is_deleteDNSRecord_once Sample.config "example.com"
           Sample.criteriaA Sample.registrar Hkeys).
Defined.

(** ** The requests of a read-modify-write operation *)

Section RecordingDNS.
Context {World : Type}.
Variable post : string → jsobj → World → reply * World.
Variable config : NamecheapConfig.

Lemma getDNSRecords_recording domain w log :
  getDNSRecords (recording post) config domain (w, log) =
    let '(r, w') := getDNSRecords post config domain w in
    (r, (w', log ++ [readRequest config domain])).
Proof. apply call_then_reshape_recording. Qed.

Lemma setDNSRecords_recording domain records w log :
  setDNSRecords (recording post) config domain records (w, log) =
    let '(r, w') := setDNSRecords post config domain records w in
    (r, (w', log ++ [writeRequest config domain records])).
Proof.
  unfold setDNSRecords, mbind, M_bind. rewrite makeRequest_recording.
  by destruct (makeRequest post config _ _ w) as [[response|e] w'].
Qed.

Lemma read_then_write_recording domain (f : list DNSRecord → list DNSRecord) w log :
  (getDNSRecords (recording post) config domain
     ≫= λ Z, setDNSRecords (recording post) config domain (f Z)) (w, log) =
    match getDNSRecords post config domain w with
    | (Err e, w1) => (Err e, (w1, log ++ [readRequest config domain]))
    | (Ok Z, w1) =>
        let '(r, w2) := setDNSRecords post config domain (f Z) w1 in
        (r, (w2, log ++ [readRequest config domain; writeRequest config domain (f Z)]))
    end.
Proof.
  unfold mbind at 1, M_bind at 1. rewrite getDNSRecords_recording.
  destruct (getDNSRecords post config domain w) as [[Z|e] w1]; [|reflexivity].
  rewrite setDNSRecords_recording.
  destruct (setDNSRecords post config domain (f Z) w1) as [r w2].
  by rewrite <- app_assoc.
Qed.

End RecordingDNS.

(** X11. [addDNSRecord], [updateDNSRecord] and [deleteDNSRecord] send the
    read of the zone and then, only if the read succeeded, one write of
    the zone, and nothing else.  When the read fails the operation fails
    with the same error and the zone is not written. *)
Theorem read_modify_write_sends_a_read_then_a_write
    {World : Type} (post : string → jsobj → World → reply * World)
    (config : NamecheapConfig) (domain : string) (record : DNSRecord)
    (criteria updates : jsobj) (w w1 : World) (log : list (string * jsobj)) :
  (∀ e, getDNSRecords post config domain w = (Err e, w1) →
     addDNSRecord (recording post) config domain record (w, log)
       = (Err e, (w1, log ++ [readRequest config domain]))
     ∧ updateDNSRecord (recording post) config domain criteria updates (w, log)
       = (Err e, (w1, log ++ [readRequest config domain]))
     ∧ deleteDNSRecord (recording post) config domain criteria (w, log)
       = (Err e, (w1, log ++ [readRequest config domain])))
  ∧ (∀ Z, getDNSRecords post config domain w = (Ok Z, w1) →
       (addDNSRecord (recording post) config domain record (w, log)).2.2
         = log ++ [readRequest config domain; writeRequest config domain (Z ++ [record])]
       ∧ (updateDNSRecord (recording post) config domain criteria updates (w, log)).2.2
         = log ++ [readRequest config domain;
                   writeRequest config domain
                     (map (λ r, if matches criteria r then spread r updates else r) Z)]
       ∧ (deleteDNSRecord (recording post) config domain criteria (w, log)).2.2
         = log ++ [readRequest config domain;
                   writeRequest config domain
                     (List.filter (λ r, negb (matches criteria r)) Z)]).
Proof.
  unfold addDNSRecord, updateDNSRecord, deleteDNSRecord.
  split.
  - intros e Hget.
    rewrite (read_then_write_recording post config domain (λ Z, Z ++ [record])).
    rewrite (read_then_write_recording post config domain
               (λ Z, map (λ r, if matches criteria r then spread r updates else r) Z)).
    rewrite (read_then_write_recording post config domain
               (λ Z, List.filter (λ r, negb (matches criteria r)) Z)).
    by rewrite Hget.
  - intros Z Hget.
    rewrite (read_then_write_recording post config domain (λ Z, Z ++ [record])).
    rewrite (read_then_write_recording post config domain
               (λ Z, map (λ r, if matches criteria r then spread r updates else r) Z)).
    rewrite (read_then_write_recording post config domain
               (λ Z, List.filter (λ r, negb (matches criteria r)) Z)).
    rewrite Hget.
    repeat split;
      match goal with
      | |- context [setDNSRecords post config domain ?l w1] =>
          by destruct (setDNSRecords post config domain l w1)
      end.
Qed.

Lemma read_modify_write_sends_a_read_then_a_write_witness :
  getDNSRecords Scripted.post Sample.config "example.com" []
    = (Err (NamecheapError "API request failed: connect ECONNREFUSED"
              (Some "REQUEST_FAILED") (Some (ErrorObject "Error" "connect ECONNREFUSED"))),
       [])
  ∧ addDNSRecord (recording Scripted.post) Sample.config "example.com" Sample.recordWww
      ([], [])
    = (Err (NamecheapError "API request failed: connect ECONNREFUSED"
              (Some "REQUEST_FAILED") (Some (ErrorObject "Error" "connect ECONNREFUSED"))),
       ([], [readRequest Sample.config "example.com"])).
Proof.
  split; [reflexivity|].
  destruct (read_modify_write_sends_a_read_then_a_write Scripted.post Sample.config
              "example.com" Sample.recordWww Sample.criteriaA Sample.updatesAddress
              [] [] []) as [Hfail _].
  exact (proj1 (Hfail _ eq_refl)).
Defined.

(** * The DNS tool handlers *)

Section ToolLemmas.
Context {World : Type}.
Variable post : string → jsobj → World → reply * World.
Variable config : NamecheapConfig.

Lemma rethrow_ok {A} what (m : M World A) w r w' :
  m w = (Ok r, w') → rethrow what m w = (Ok r, w').
Proof. intros H. unfold rethrow. by rewrite H. Qed.

Lemma rethrow_err {A} what (m : M World A) w e w' :
  m w = (Err e, w') →
  rethrow what m w
    = (Err (Foreign (ErrorObject "Error"
                       (what +:+ default "Unknown error" (exn_message e)))), w').
Proof. intros H. unfold rethrow. by rewrite H. Qed.

Lemma rethrow_outcomes {A} what (m : M World A) w :
  match rethrow what m w with
  | (Ok r, w') => m w = (Ok r, w')
  | (Err e, w') =>
      ∃ cause, m w = (Err cause, w')
        ∧ e = Foreign (ErrorObject "Error"
                         (what +:+ default "Unknown error" (exn_message cause)))
  end.
Proof. unfold rethrow. destruct (m w) as [[r|e] w']; eauto. Qed.

Lemma ifGiven_lookup key value (object : jsobj) k :
  ifGiven key value object !! k =
    if decide (k = key) then
      match given value with Some v => Some v | None => object !! k end
    else object !! k.
Proof.
  unfold ifGiven, given. destruct value as [v|]; [|by case_decide].
  simpl. destruct (decide (v = "")) as [->|Hv].
  - simpl. by case_decide.
  - assert (String.eqb v "" = false) as -> by (by apply String.eqb_neq).
    simpl. rewrite lookup_insert. repeat case_decide; congruence.
Qed.

End ToolLemmas.

(** X12. Against the registrar the [add-dns-record] handler returns its
    confirmation, and the zone then reads as before with one more record
    at the end: the name, type and address of the arguments, and the
    priority and time-to-live where the arguments give a non-empty one. *)
Theorem addDNSRecordTool_appends_the_record
    (config : NamecheapConfig) (args : AddArgs) (s : Registrar.state) :
  ∃ (Z Z' : list DNSRecord) (s2 : Registrar.state),
    getDNSRecords Registrar.post config (add_domain args) s = (Ok Z, s)
    ∧ addDNSRecordTool_execute Registrar.post config args s
      = (Ok (textContent ("Successfully added " +:+ add_type args +:+ " record:" +:+ newline +:+
                          add_name args +:+ " → " +:+ add_address args)), s2)
    ∧ getDNSRecords Registrar.post config (add_domain args) s2 = (Ok Z', s2)
    ∧ map content Z'
      = map content Z
        ++ [ (JString (add_name args), JString (add_type args), JString (add_address args),
              default JUndefined (given (add_mxPref args)),
              default JUndefined (given (add_ttl args))) ].
Proof.
  set (record := ({[ "name" := JString (add_name args);
                     "type" := JString (add_type args);
                     "address" := JString (add_address args);
                     "mxPref" := ofOption (add_mxPref args);
                     "ttl" := ofOption (add_ttl args) ]} : DNSRecord)).
  assert (typedRecord record) as Hty.
  { repeat split; try (eexists; reflexivity).
    - change (record.["mxPref"]) with (ofOption (add_mxPref args)).
      destruct (add_mxPref args); [right; eexists|left]; reflexivity.
    - change (record.["ttl"]) with (ofOption (add_ttl args)).
      destruct (add_ttl args); [right; eexists|left]; reflexivity. }
  assert (∀ o : option string, optional (ofOption o) = default JUndefined (given o)) as Hopt.
  { intros [v|]; [|reflexivity]. unfold optional, given. simpl.
    destruct (decide (v = "")) as [->|Hv]; [reflexivity|].
    by assert (String.eqb v "" = false) as -> by (by apply String.eqb_neq). }
  pose proof (registrar_getDNSRecords config (add_domain args) s) as Hget.
  assert (Forall typedRecord
            (map recordOfHost
               (Registrar.zone s (sldOf (add_domain args)) (tldOf (add_domain args)))
             ++ [record])) as Hall.
  { apply Forall_app. split; [apply typed_read|by constructor]. }
  eexists _, _, _. split; [exact Hget|]. split.
  - unfold addDNSRecordTool_execute. apply rethrow_ok. fold record.
    erewrite bind_ok; [reflexivity|].
    rewrite (addDNSRecord_appends _ _ _ _ _ _ _ Hget).
    by apply registrar_setDNSRecords.
  - split; [apply registrar_getDNSRecords|].
    rewrite registrar_zone_after_write, content_stamp by done.
    rewrite map_app. f_equal. cbn [map]. unfold content.
    change (record.["mxPref"]) with (ofOption (add_mxPref args)).
    change (record.["ttl"]) with (ofOption (add_ttl args)).
    rewrite !Hopt. reflexivity.
Qed.

Section ToolReconcile.
Context {World : Type}.
Variable post : string → jsobj → World → reply * World.
Variable config : NamecheapConfig.

Lemma bind_congr {A B} (m m' : M World A) (k : A → M World B) w w' :
  m w = m' w' → (m ≫= k) w = (m' ≫= k) w'.
Proof. intros H. unfold mbind, M_bind. by rewrite H. Qed.

Lemma rethrow_congr {A} what (m m' : M World A) w w' :
  m w = m' w' → rethrow what m w = rethrow what m' w'.
Proof. intros H. unfold rethrow. by rewrite H. Qed.

Lemma map_spread_nothing criteria (Z : list DNSRecord) :
  map (λ record, if matches criteria record then spread record ∅ else record) Z = Z.
Proof.
  induction Z as [|r Z IH]; [reflexivity|].
  cbn [map]. rewrite IH, spread_empty. by destruct (matches criteria r).
Qed.

Lemma criteriaHold_name_type (name type : string) (record : DNSRecord) :
  criteriaHold {[ "name" := JString name; "type" := JString type ]} record
  ↔ record.["name"] = JString name ∧ record.["type"] = JString type.
Proof.
  unfold criteriaHold.
  rewrite map_Forall_insert by done.
  by rewrite map_Forall_singleton.
Qed.

Lemma updates_lookup (args : UpdateArgs) key :
  ifGiven "ttl" (upd_newTtl args)
    (ifGiven "name" (upd_newName args) (ifGiven "address" (upd_newAddress args) ∅)) !! key
  = newValueFor args key.
Proof.
  rewrite !ifGiven_lookup, lookup_empty. unfold newValueFor.
  repeat case_decide; simplify_eq; try reflexivity;
    by repeat match goal with |- context [given ?o] => destruct (given o) end.
Qed.

End ToolReconcile.

(** X13. The [update-dns-record] handler selects the records by name and
    type only.  In a selected record it replaces the address, the name and
    the time-to-live by the new value that the arguments give, and leaves a
    property alone when its new value is missing or the empty string; every
    other record is written back as it was read.  When no new value is
    given at all, the zone is written back unchanged. *)
Theorem updateDNSRecordTool_replaces_what_is_given
    {World : Type} (post : string → jsobj → World → reply * World)
    (config : NamecheapConfig) (args : UpdateArgs) (w w1 : World) (Z : list DNSRecord) :
  getDNSRecords post config (upd_domain args) w = (Ok Z, w1) →
  ∃ written : list DNSRecord,
    updateDNSRecordTool_execute post config args w
      = rethrow "Failed to update DNS record: "
          (_ ← setDNSRecords post config (upd_domain args) written;
           mret (textContent ("Successfully updated " +:+ upd_findType args +:+
                              " record for " +:+ upd_findName args))) w1
    ∧ length written = length Z
    ∧ (∀ (i : nat) (record : DNSRecord), Z !! i = Some record →
         (record.["name"] = JString (upd_findName args)
          ∧ record.["type"] = JString (upd_findType args) →
            ∃ merged : DNSRecord,
              written !! i = Some merged
              ∧ ∀ key, merged !! key = match newValueFor args key with
                                       | Some v => Some v
                                       | None => record !! key
                                       end)
         ∧ (¬ (record.["name"] = JString (upd_findName args)
               ∧ record.["type"] = JString (upd_findType args)) →
            written !! i = Some record))
    ∧ (given (upd_newAddress args) = None → given (upd_newName args) = None →
       given (upd_newTtl args) = None → written = Z).
Proof.
  intros Hget. eexists. split.
  { unfold updateDNSRecordTool_execute. apply rethrow_congr, bind_congr.
    by apply updateDNSRecord_writes. }
  split; [apply length_map|]. split.
  - intros i record Hi. rewrite list_lookup_fmap, Hi. simpl. split.
    + intros Hsel. apply criteriaHold_name_type, matches_criteriaHold in Hsel.
      rewrite Hsel. eexists. split; [reflexivity|].
      intros key. by rewrite spread_lookup, updates_lookup.
    + intros Hsel. rewrite <- criteriaHold_name_type, <- matches_false in Hsel.
      by rewrite Hsel.
  - intros Ha Hn Ht.
    assert (ifGiven "ttl" (upd_newTtl args)
              (ifGiven "name" (upd_newName args)
                 (ifGiven "address" (upd_newAddress args) ∅)) = (∅ : jsobj)) as ->.
    { apply map_eq. intros key. rewrite updates_lookup, lookup_empty.
      unfold newValueFor. rewrite Ha, Hn, Ht. by repeat case_decide. }
    apply map_spread_nothing.
Qed.

Lemma updateDNSRecordTool_replaces_what_is_given_witness :
  getDNSRecords Registrar.post Sample.config "example.com" Sample.registrar
    = (Ok [Sample.recordA; Sample.recordB], Sample.registrar)
  ∧ ∃ written : list DNSRecord,
      updateDNSRecordTool_execute Registrar.post Sample.config Scenario.updateArgs
        Sample.registrar
        = rethrow "Failed to update DNS record: "
            (_ ← setDNSRecords Registrar.post Sample.config "example.com" written;
             mret (textContent "Successfully updated A record for a")) Sample.registrar
      ∧ length written = 2.
Proof.
  split; [reflexivity|].
  destruct (updateDNSRecordTool_replaces_what_is_given Registrar.post Sample.config
              Scenario.updateArgs Sample.registrar Sample.registrar
              [Sample.recordA; Sample.recordB] eq_refl) as (written & Hrun & Hlen & _).
  exists written. split; [exact Hrun | exact Hlen].
Defined.

Lemma criteria_of_delete_lookup (args : DeleteArgs) (record : DNSRecord) :
  criteriaHold
    (ifGiven "address" (del_address args)
       {[ "name" := JString (del_name args); "type" := JString (del_type args) ]}) record
  ↔ record.["name"] = JString (del_name args)
    ∧ record.["type"] = JString (del_type args)
    ∧ ∀ v, given (del_address args) = Some v → record.["address"] = v.
Proof.
  unfold criteriaHold, map_Forall. split.
  - intros H. split; [|split].
    + apply (H "name"). rewrite ifGiven_lookup. by rewrite decide_False.
    + apply (H "type"). rewrite ifGiven_lookup. by rewrite decide_False.
    + intros v Hv. apply (H "address"). rewrite ifGiven_lookup, decide_True by done.
      by rewrite Hv.
  - intros (Hn & Ht & Ha) key value. rewrite ifGiven_lookup.
    case_decide as Hk.
    + subst key. destruct (given (del_address args)) as [v|] eqn:Hv.
      * intros [= <-]. by apply Ha.
      * rewrite lookup_insert_ne, lookup_singleton_ne by done. done.
    + intros Hl. apply lookup_insert_Some in Hl as [[<- <-]|[_ Hl]]; [done|].
      by apply lookup_singleton_Some in Hl as [<- <-].
Qed.

(** X14. The [delete-dns-record] handler writes back the records it read
    without those that have the name and the type of the arguments and,
    when the arguments give a non-empty address, that address as well.
    Without an address every record of that name and type is removed,
    whatever its address. *)
Theorem deleteDNSRecordTool_removes_by_name_and_type
    {World : Type} (post : string → jsobj → World → reply * World)
    (config : NamecheapConfig) (args : DeleteArgs) (w w1 : World) (Z : list DNSRecord) :
  getDNSRecords post config (del_domain args) w = (Ok Z, w1) →
  ∃ written : list DNSRecord,
    deleteDNSRecordTool_execute post config args w
      = rethrow "Failed to delete DNS record: "
          (_ ← setDNSRecords post config (del_domain args) written;
           mret (textContent ("Successfully deleted " +:+ del_type args +:+
                              " record for " +:+ del_name args))) w1
    ∧ sublist written Z
    ∧ (∀ record, record ∈ written ↔
         record ∈ Z
         ∧ ¬ (record.["name"] = JString (del_name args)
              ∧ record.["type"] = JString (del_type args)
              ∧ ∀ v, given (del_address args) = Some v → record.["address"] = v)).
Proof.
  intros Hget. eexists. split.
  { unfold deleteDNSRecordTool_execute. apply rethrow_congr, bind_congr.
    by apply deleteDNSRecord_writes. }
  rewrite filter_negb_matches. split; [apply sublist_filter|].
  intros record. rewrite list_elem_of_filter, criteria_of_delete_lookup. tauto.
Qed.

Lemma deleteDNSRecordTool_removes_by_name_and_type_witness :
  getDNSRecords Registrar.post Sample.config "example.com" Sample.registrar
    = (Ok [Sample.recordA; Sample.recordB], Sample.registrar)
  ∧ ∃ written : list DNSRecord,
      deleteDNSRecordTool_execute Registrar.post Sample.config Scenario.deleteArgs
        Sample.registrar
        = rethrow "Failed to delete DNS record: "
            (_ ← setDNSRecords Registrar.post Sample.config "example.com" written;
             mret (textContent "Successfully deleted A record for a")) Sample.registrar
      ∧ sublist written [Sample.recordA; Sample.recordB].
Proof.
  split; [reflexivity|].
  destruct (deleteDNSRecordTool_removes_by_name_and_type Registrar.post Sample.config
              Scenario.deleteArgs Sample.registrar Sample.registrar
              [Sample.recordA; Sample.recordB] eq_refl) as (written & Hrun & Hsub & _).
  exists written. split; [exact Hrun | exact Hsub].
Defined.

(** ** Applying a template *)

Lemma conflicts_sharesNameAndType records existing :
  conflicts records existing = true ↔ sharesNameAndType records existing.
Proof.
  unfold conflicts, sharesNameAndType. rewrite existsb_exists, Exists_exists. split.
  - intros (r & Hin & H). apply andb_true_iff in H as [H1 H2].
    apply bool_decide_eq_true in H1, H2. apply list_elem_of_In in Hin. eauto.
  - intros (r & Hin & H1 & H2). exists r. apply list_elem_of_In in Hin.
    split; [done|]. apply andb_true_iff. by split; apply bool_decide_eq_true.
Qed.

Lemma filter_negb_conflicts records (Z : list DNSRecord) :
  List.filter (λ existing, negb (conflicts records existing)) Z
  = filter (λ existing, ¬ sharesNameAndType records existing) Z.
Proof.
  induction Z as [|r Z IH]; [reflexivity|].
  cbn [List.filter]. rewrite filter_cons, IH.
  destruct (conflicts records r) eqn:Hc; simpl.
  - apply conflicts_sharesNameAndType in Hc. by rewrite decide_False by tauto.
  - rewrite decide_True; [done|]. rewrite <- conflicts_sharesNameAndType. congruence.
Qed.

(** X15. The [apply-dns-template] handler writes the records of the zone
    that share name and type with no record of the template, in their
    order, followed by the records of the template.  An existing record
    that has the name and the type of a template record is dropped,
    whatever its address. *)
Theorem applyDNSTemplateTool_replaces_records_of_the_same_name_and_type
    {World : Type} (post : string → jsobj → World → reply * World)
    (config : NamecheapConfig) (args : TemplateArgs) (w w1 : World) (Z : list DNSRecord) :
  getDNSRecords post config (tpl_domain args) w = (Ok Z, w1) →
  ∃ (kept : list DNSRecord) (text : string),
    applyDNSTemplateTool_execute post config args w
      = rethrow "Failed to apply DNS template: "
          (_ ← setDNSRecords post config (tpl_domain args) (kept ++ templateRecords args);
           mret (textContent text)) w1
    ∧ sublist kept Z
    ∧ (∀ record, record ∈ kept ↔
         record ∈ Z ∧ ¬ sharesNameAndType (templateRecords args) record).
Proof.
  intros Hget. eexists _, _. split.
  { unfold applyDNSTemplateTool_execute. apply rethrow_congr.
    erewrite bind_ok by exact Hget. reflexivity. }
  rewrite filter_negb_conflicts. split; [apply sublist_filter|].
  intros record. rewrite list_elem_of_filter. tauto.
Qed.

Lemma applyDNSTemplateTool_replaces_records_of_the_same_name_and_type_witness :
  getDNSRecords Registrar.post Sample.config "example.com" Sample.registrar
    = (Ok [Sample.recordA; Sample.recordB], Sample.registrar)
  ∧ ∃ (kept : list DNSRecord) (text : string),
      applyDNSTemplateTool_execute Registrar.post Sample.config Scenario.templateArgs
        Sample.registrar
        = rethrow "Failed to apply DNS template: "
            (_ ← setDNSRecords Registrar.post Sample.config "example.com"
                   (kept ++ templateRecords Scenario.templateArgs);
             mret (textContent text)) Sample.registrar
      ∧ sublist kept [Sample.recordA; Sample.recordB].
Proof.
  split; [reflexivity|].
  destruct (applyDNSTemplateTool_replaces_records_of_the_same_name_and_type
              Registrar.post Sample.config Scenario.templateArgs
              Sample.registrar Sample.registrar [Sample.recordA; Sample.recordB] eq_refl)
    as (kept & text & Hrun & Hsub & _).
  exists kept, text. split; [exact Hrun | exact Hsub].
Defined.

Lemma typed_templateRecords args : Forall typedRecord (templateRecords args).
Proof.
  unfold templateRecords. destruct (tpl_template args);
    repeat first
      [ by apply Forall_nil
      | apply Forall_cons; split;
        [ unfold typedRecord, isOptString, isString; split_and!;
          first [ by eexists | by left | by right; eexists ] |] ].
Qed.

Lemma conflicts_stored records id record :
  typedRecord record →
  conflicts records (recordOfHost (hostOfRecord id record)) = conflicts records record.
Proof.
  intros Hty. unfold conflicts.
  rewrite !(stored_identity_fields id record) by (done || in_list).
  reflexivity.
Qed.

Lemma content_filter_stored records (L : list DNSRecord) : ∀ next,
  Forall typedRecord L →
  map content
    (List.filter (λ existing, negb (conflicts records existing))
       (map recordOfHost (stamp next L)))
  = map content (List.filter (λ existing, negb (conflicts records existing)) L).
Proof.
  induction L as [|r L IH]; intros next Hty; [reflexivity|].
  inversion_clear Hty as [|? ? Hr HL].
  cbn [stamp map List.filter]. rewrite conflicts_stored by done.
  destruct (conflicts records r); simpl; [by apply IH|].
  by rewrite content_stored, IH.
Qed.

Lemma filter_conflicts_self (records : list DNSRecord) :
  ∀ T, records ⊆ T →
  List.filter (λ existing, negb (conflicts T existing)) records = [].
Proof.
  induction records as [|r rs IH]; intros T Hsub; [reflexivity|].
  cbn [List.filter].
  assert (conflicts T r = true) as ->.
  { apply conflicts_sharesNameAndType, Exists_exists. exists r. split; [|done].
    apply Hsub, list_elem_of_here. }
  simpl. apply IH. intros x Hx. apply Hsub. by apply list_elem_of_further.
Qed.

Lemma filter_conflicts_idem T (Z : list DNSRecord) :
  List.filter (λ existing, negb (conflicts T existing))
    (List.filter (λ existing, negb (conflicts T existing)) Z)
  = List.filter (λ existing, negb (conflicts T existing)) Z.
Proof.
  induction Z as [|r Z IH]; [reflexivity|].
  cbn [List.filter]. destruct (conflicts T r) eqn:E; simpl; [done|].
  by rewrite E, IH.
Qed.

Lemma typed_filter (f : DNSRecord → bool) (Z : list DNSRecord) :
  Forall typedRecord Z → Forall typedRecord (List.filter f Z).
Proof.
  induction 1 as [|r Z Hr _ IH]; [constructor|].
  simpl. destruct (f r); [by constructor|done].
Qed.

Lemma registrar_applyDNSTemplate config args s :
  let T := templateRecords args in
  let Z := map recordOfHost
             (Registrar.zone s (sldOf (tpl_domain args)) (tldOf (tpl_domain args))) in
  let W := List.filter (λ existing, negb (conflicts T existing)) Z ++ T in
  ∃ text,
    applyDNSTemplateTool_execute Registrar.post config args s
    = (Ok (textContent text),
       {| Registrar.zones :=
            <[(sldOf (tpl_domain args), tldOf (tpl_domain args))
              := stamp (Registrar.nextHostId s) W]> (Registrar.zones s);
          Registrar.nextHostId := (Registrar.nextHostId s + N.of_nat (length W))%N |}).
Proof.
  intros T Z W. eexists. unfold applyDNSTemplateTool_execute. apply rethrow_ok.
  erewrite bind_ok by apply registrar_getDNSRecords.
  erewrite bind_ok; [reflexivity|].
  apply registrar_setDNSRecords.
  apply Forall_app. split; [|apply typed_templateRecords].
  apply typed_filter, typed_read.
Qed.

(** X16. Against the registrar, applying a template a second time changes
    nothing: after the first application the zone ends with the records of
    the template, and after the second it reads the same, record for
    record. *)
Theorem applyDNSTemplateTool_twice_is_once
    (config : NamecheapConfig) (args : TemplateArgs) (s : Registrar.state) :
  ∃ (s2 s3 : Registrar.state) (text2 text3 : string) (Z2 Z3 kept : list DNSRecord),
    applyDNSTemplateTool_execute Registrar.post config args s = (Ok (textContent text2), s2)
    ∧ getDNSRecords Registrar.post config (tpl_domain args) s2 = (Ok Z2, s2)
    ∧ map content Z2 = map content kept ++ map content (templateRecords args)
    ∧ applyDNSTemplateTool_execute Registrar.post config args s2 = (Ok (textContent text3), s3)
    ∧ getDNSRecords Registrar.post config (tpl_domain args) s3 = (Ok Z3, s3)
    ∧ map content Z3 = map content Z2.
Proof.
  set (T := templateRecords args).
  set (Z := map recordOfHost
              (Registrar.zone s (sldOf (tpl_domain args)) (tldOf (tpl_domain args)))).
  set (K := List.filter (λ existing, negb (conflicts T existing)) Z).
  assert (Forall typedRecord T) as HT by apply typed_templateRecords.
  assert (Forall typedRecord K) as HK by apply typed_filter, typed_read.
  assert (Forall typedRecord (K ++ T)) as HW by (by apply Forall_app).
  destruct (registrar_applyDNSTemplate config args s) as (text2 & Hrun2).
  fold T Z K in Hrun2.
  match type of Hrun2 with _ = (_, ?st) => set (s2 := st) in * end.
  destruct (registrar_applyDNSTemplate config args s2) as (text3 & Hrun3).
  fold T in Hrun3.
  assert (Registrar.zone s2 (sldOf (tpl_domain args)) (tldOf (tpl_domain args))
          = stamp (Registrar.nextHostId s) (K ++ T)) as Hzone2
    by apply registrar_zone_after_write.
  rewrite Hzone2 in Hrun3.
  match type of Hrun3 with _ = (_, ?st) => set (s3 := st) in * end.
  exists s2, s3, text2, text3.
  exists (map recordOfHost (stamp (Registrar.nextHostId s) (K ++ T))).
  eexists. exists K.
  split; [exact Hrun2|].
  split; [by rewrite registrar_getDNSRecords, Hzone2|].
  split; [by rewrite content_stamp, map_app|].
  split; [exact Hrun3|].
  split; [apply registrar_getDNSRecords|].
  unfold s3 at 1. rewrite registrar_zone_after_write.
  rewrite content_stamp.
  - rewrite map_app, content_filter_stored by done.
    rewrite List.filter_app. unfold K at 1.
    rewrite filter_conflicts_idem. fold K.
    rewrite (filter_conflicts_self T T) by done.
    by rewrite app_nil_r, content_stamp, map_app.
  - apply Forall_app. split; [|done].
    apply typed_filter, Forall_forall.
    intros r (h & -> & _)%list_elem_of_fmap. apply typedRecord_recordOfHost.
Qed.

(** ** The host name of the Microsoft 365 template *)

Lemma split_dot_cons_other c s :
  c ≠ "."%char →
  hd "" (split_dot (String c s)) = String c (hd "" (split_dot s))
  ∧ tl (split_dot (String c s)) = tl (split_dot s).
Proof.
  intros Hc. simpl. rewrite decide_False by done.
  pose proof (split_dot_nonempty s). by destruct (split_dot s).
Qed.

(** X17. The Microsoft 365 template derives its mail host from the domain
    by [replace('.', '-')], which touches the first dot only: for a domain
    with a dot the result is the SLD, a dash, and the TLD with its own dots
    kept; a domain without a dot is left as it is. *)
Theorem replaceDot_touches_the_first_dot_only (domain : string) :
  replaceDot domain
  = if hasDot domain then sldOf domain +:+ "-" +:+ tldOf domain else domain.
Proof.
  unfold sldOf, tldOf.
  induction domain as [|c s IH]; [reflexivity|].
  cbn [replaceDot hasDot]. destruct (decide (c = "."%char)) as [->|Hc].
  - simpl. by rewrite join_split_dot.
  - destruct (split_dot_cons_other c s Hc) as [-> ->].
    rewrite IH. by destruct (hasDot s).
Qed.

(** ** Failures at the tool layer *)

Section ToolFailures.
Context {World : Type}.
Variable post : string → jsobj → World → reply * World.
Variable config : NamecheapConfig.

Lemma getDNSRecords_first_failure domain w e w' :
  (∀ command params, makeRequest post config command params w = (Err e, w')) →
  getDNSRecords post config domain w = (Err e, w').
Proof. intros H. unfold getDNSRecords. by erewrite bind_err. Qed.

Lemma checkDomain_first_failure domain w e w' :
  (∀ command params, makeRequest post config command params w = (Err e, w')) →
  checkDomain post config domain w = (Err e, w').
Proof. intros H. unfold checkDomain. by erewrite bind_err. Qed.

End ToolFailures.

(** X18. When the registrar answers the first request of a tool with an API
    error, the four writing DNS tools and the registration tool throw a plain
    [Error] whose message is the tool's prefix followed by the registrar's
    message: the message reaches the caller, the error code does not. *)
Theorem tools_pass_on_the_message_and_drop_the_code
    {World : Type} (post : string → jsobj → World → reply * World)
    (config : NamecheapConfig) (w w' : World) (root : xml) (code message : string) :
  (∀ command params,
     post (apiUrl config) (requestParams config command params) w
       = (Parsed "ApiResponse" root, w')) →
  reportsError root code message →
  let thrown prefix : result (list ContentItem) * World :=
    (Err (Foreign (ErrorObject "Error" (prefix +:+ message))), w') in
  (∀ args, addDNSRecordTool_execute post config args w
             = thrown "Failed to add DNS record: ")
  ∧ (∀ args, updateDNSRecordTool_execute post config args w
               = thrown "Failed to update DNS record: ")
  ∧ (∀ args, deleteDNSRecordTool_execute post config args w
               = thrown "Failed to delete DNS record: ")
  ∧ (∀ args, applyDNSTemplateTool_execute post config args w
               = thrown "Failed to apply DNS template: ")
  ∧ (∀ args, registerDomainTool_execute post config args w
               = thrown "Failed to register domain: ").
Proof.
  intros Hpost Herr thrown.
  assert (Hreq : ∀ command params,
             makeRequest post config command params w
               = (Err (NamecheapError message (Some code) None), w'))
    by (intros; by eapply makeRequest_reportsError).
  pose proof (getDNSRecords_first_failure post config) as Hread.
  pose proof (checkDomain_first_failure post config) as Hcheck.
  set (e := NamecheapError message (Some code) None) in *.
  split_and!; intros args.
  - apply (rethrow_err _ _ w e w'). apply bind_err.
    unfold addDNSRecord. apply bind_err. by apply Hread.
  - apply (rethrow_err _ _ w e w'). apply bind_err.
    unfold updateDNSRecord. apply bind_err. by apply Hread.
  - apply (rethrow_err _ _ w e w'). apply bind_err.
    unfold deleteDNSRecord. apply bind_err. by apply Hread.
  - apply (rethrow_err _ _ w e w'). cbv zeta. apply bind_err. by apply Hread.
  - unfold registerDomainTool_execute, registerDomainTool_try.
    rewrite (bind_err _ _ w e w'); [reflexivity|]. by apply Hcheck.
Qed.

Lemma tools_pass_on_the_message_and_drop_the_code_witness :
  (∀ command params,
     Scripted.post (apiUrl Sample.config)
       (requestParams Sample.config command params)
       [Parsed "ApiResponse" Sample.alreadyExists]
     = (Parsed "ApiResponse" Sample.alreadyExists, []))
  ∧ reportsError Sample.alreadyExists "2019166" "Domain name already exists"
  ∧ deleteDNSRecordTool_execute Scripted.post Sample.config Scenario.deleteArgs
      [Parsed "ApiResponse" Sample.alreadyExists]
    = (Err (Foreign (ErrorObject "Error"
                       "Failed to delete DNS record: Domain name already exists")), []).
Proof.
  assert (Hpost : ∀ command params,
     Scripted.post (apiUrl Sample.config)
       (requestParams Sample.config command params)
       [Parsed "ApiResponse" Sample.alreadyExists]
     = (Parsed "ApiResponse" Sample.alreadyExists, [])) by reflexivity.
  assert (Herr : reportsError Sample.alreadyExists "2019166" "Domain name already exists").
  { unfold reportsError, Sample.alreadyExists. do 10 eexists.
    split_and!; reflexivity. }
  split_and!; [exact Hpost | exact Herr |].
  exact (proj1 (proj2 (proj2
    (tools_pass_on_the_message_and_drop_the_code Scripted.post Sample.config
       [Parsed "ApiResponse" Sample.alreadyExists] [] Sample.alreadyExists
       "2019166" "Domain name already exists" Hpost Herr))) Scenario.deleteArgs).
Defined.

(** ** The call handler *)

Section DispatchLemmas.
Context {World Args : Type}.

Lemma find_by_name (allTools : list (Tool World Args)) name :
  match List.find (λ t, bool_decide (tool_name t = name)) allTools with
  | None => Forall (λ t, tool_name t ≠ name) allTools
  | Some tool =>
      ∃ before after,
        allTools = before ++ tool :: after
        ∧ Forall (λ t, tool_name t ≠ name) before
        ∧ tool_name tool = name
  end.
Proof.
  induction allTools as [|t ts IH]; [by constructor|].
  cbn [List.find]. destruct (bool_decide_reflect (tool_name t = name)) as [Ht|Ht].
  - exists [], ts. by repeat split.
  - destruct (List.find _ ts) as [tool|].
    + destruct IH as (before & after & -> & Hb & Hn).
      exists (t :: before), after. repeat split; [|done]. by constructor.
    + by constructor.
Qed.

End DispatchLemmas.

(** X19. The call handler runs the first tool of the list that carries the
    requested name.  Whatever that tool throws is caught: the caller gets a
    text [Error executing <name>: <message>] as an ordinary result.  The one
    error the handler itself raises is [Unknown tool: <name>], when no tool
    has the name, and then nothing has been executed. *)
Theorem callTool_catches_what_the_tool_throws
    {World Args : Type} (allTools : list (Tool World Args))
    (name : string) (args : Args) (w : World) :
  (Forall (λ t, tool_name t ≠ name) allTools
   ∧ callTool allTools name args w
     = (Err (Foreign (ErrorObject "Error" ("Unknown tool: " +:+ name))), w))
  ∨ (∃ before tool after,
       allTools = before ++ tool :: after
       ∧ Forall (λ t, tool_name t ≠ name) before
       ∧ tool_name tool = name
       ∧ ∃ content w',
           callTool allTools name args w = (Ok content, w')
           ∧ (tool_execute tool args w = (Ok content, w')
              ∨ ∃ error,
                  tool_execute tool args w = (Err error, w')
                  ∧ content = textContent
                      ("Error executing " +:+ name +:+ ": " +:+
                       default "Unknown error" (exn_message error)))).
Proof.
  unfold callTool. pose proof (find_by_name allTools name) as Hfind.
  destruct (List.find _ allTools) as [tool|].
  - right. destruct Hfind as (before & after & -> & Hb & Hn).
    exists before, tool, after. repeat split; [done..|].
    destruct (tool_execute tool args w) as [[content|error] w'].
    + exists content, w'. by split; [|left].
    + eexists _, w'. split; [reflexivity|]. right. by exists error.
  - by left.
Qed.

(** A registrar error on the way through tool and handler. *)
Example callTool_on_a_registrar_error :
  callTool
    [ {| tool_name := "update-dns-record";
         tool_execute := λ _ : DeleteArgs, updateDNSRecordTool_execute Scripted.post
                           Sample.config Scenario.updateArgs |};
      {| tool_name := "delete-dns-record";
         tool_execute := deleteDNSRecordTool_execute Scripted.post Sample.config |} ]
    "delete-dns-record" Scenario.deleteArgs
    [Parsed "ApiResponse" Sample.alreadyExists]
  = (Ok (textContent
           "Error executing delete-dns-record: Failed to delete DNS record: Domain name already exists"),
     []).
Proof. reflexivity. Qed.

(** ** The resources *)

Lemma startsWith_append prefix rest : startsWith prefix (prefix +:+ rest) = true.
Proof.
  induction prefix as [|c p IH]; [reflexivity|].
  simpl. by rewrite decide_True.
Qed.

Lemma startsWith_inv prefix s :
  startsWith prefix s = true →
  s = prefix +:+ substringFrom (String.length prefix) s.
Proof.
  revert s. induction prefix as [|c p IH]; intros s H; [reflexivity|].
  destruct s as [|d s]; [done|]. simpl in H.
  destruct (decide (c = d)) as [->|]; [|done].
  change (String d s = String d (p +:+ substringFrom (String.length p) s)).
  f_equal. by apply IH.
Qed.

Lemma substringFrom_append prefix rest :
  substringFrom (String.length prefix) (prefix +:+ rest) = rest.
Proof. induction prefix as [|c p IH]; [reflexivity|]. exact IH. Qed.

(** X20. The resource handler routes by URI.  The list URI goes to the
    domain list; a URI that starts with the availability prefix goes to the
    availability check with exactly what follows the prefix; every other URI
    is refused with [Unknown resource: <uri>] and nothing is requested.  The
    contents returned carry the URI that was asked for. *)
Theorem readResource_routes_by_uri
    {World : Type} (post : string → jsobj → World → reply * World)
    (config : NamecheapConfig) (trim : string → string)
    (stringify : CheckOutput → string)
    (daysUntilExpiry : jsany → option Z)
    (sort : list DomainWithStatus → list DomainWithStatus) (now : string)
    (stringifyList : DomainListResult → string)
    (uri : string) (w : World) :
  let contentsOf (read : M World string) : result (list ResourceContent) * World :=
    (content ← read;
     mret [ {| content_uri := uri; content_mimeType := "application/json";
               content_text := content |} ]) w in
  let handled :=
    readResource post config trim stringify daysUntilExpiry sort now stringifyList uri w in
  (uri = "namecheap://domains/list"
   ∧ handled = contentsOf (domainListResource_read post config daysUntilExpiry sort now
                             stringifyList))
  ∨ (∃ domainsPart,
       uri = URI_PREFIX +:+ domainsPart
       ∧ handled = contentsOf (availability_read post config trim stringify domainsPart))
  ∨ (uri ≠ "namecheap://domains/list"
     ∧ (∀ rest, uri ≠ URI_PREFIX +:+ rest)
     ∧ handled = (Err (Foreign (ErrorObject "Error" ("Unknown resource: " +:+ uri))), w)).
Proof.
  intros contentsOf handled. unfold handled, contentsOf, readResource.
  destruct (decide (uri = "namecheap://domains/list")) as [Hlist|Hlist]; [by left|].
  right. unfold matchesUri, extractDomains.
  destruct (startsWith URI_PREFIX uri) eqn:Hm.
  - left. exists (substringFrom (String.length URI_PREFIX) uri).
    split; [by apply startsWith_inv|reflexivity].
  - right. split_and!; [done| |done].
    intros rest ->. by rewrite startsWith_append in Hm.
Qed.

(** The part handed to the availability check is the URI without its prefix. *)
Example readResource_availability_uri (domainsPart : string) :
  matchesUri (URI_PREFIX +:+ domainsPart) = true
  ∧ extractDomains (URI_PREFIX +:+ domainsPart) = domainsPart.
Proof.
  split; [apply startsWith_append|].
  apply (substringFrom_append URI_PREFIX).
Qed.

Section AvailabilityLemmas.
Context {World : Type}.
Variable post : string → jsobj → World → reply * World.
Variable config : NamecheapConfig.

Lemma checkDomains_recording domains w log :
  checkDomains (recording post) config domains (w, log) =
    let '(r, w') := checkDomains post config domains w in
    (r, (w', log ++ [(apiUrl config,
                      requestParams config "namecheap.domains.check"
                        {[ "DomainList" := JString (join "," domains) ]})])).
Proof. apply call_then_reshape_recording. Qed.

Lemma bind_mret_world {A B} (m : M World A) (f : A → B) w :
  ((x ← m; mret (f x)) w).2 = (m w).2.
Proof. unfold mbind, M_bind. by destruct (m w) as [[x|e] w']. Qed.

End AvailabilityLemmas.

(** X21. The availability resource cuts its argument at the commas, trims
    the pieces and drops the empty ones.  No empty name is ever sent.  With
    no name left it fails with [No domain specified in availability URI]
    before any request; otherwise it sends exactly one
    [namecheap.domains.check] request, whose [DomainList] is the names that
    are left, in their order, joined by commas. *)
Theorem availability_read_sends_one_check_of_the_names
    {World : Type} (post : string → jsobj → World → reply * World)
    (config : NamecheapConfig) (trim : string → string)
    (stringify : CheckOutput → string)
    (domainsStr : string) (w : World) (log : list (string * jsobj)) :
  let domains := availabilityDomains trim domainsStr in
  let run :=
    availability_read (recording post) config trim stringify domainsStr (w, log) in
  Forall (λ d, d ≠ "") domains
  ∧ (domains = [] →
     run = (Err (Foreign (ErrorObject "Error" "No domain specified in availability URI")),
            (w, log)))
  ∧ (domains ≠ [] →
     run.2.2 = log ++ [(apiUrl config,
                        requestParams config "namecheap.domains.check"
                          {[ "DomainList" := JString (join "," domains) ]})]).
Proof.
  intros domains run. split_and!.
  - unfold domains, availabilityDomains. apply Forall_forall.
    intros d Hd%list_elem_of_In%List.filter_In. destruct Hd as [_ Hd].
    intros ->. discriminate Hd.
  - intros Hnone. unfold run, availability_read. fold domains. by rewrite Hnone.
  - intros Hsome. unfold run, availability_read. fold domains.
    destruct domains as [|d [|d' rest]]; [done| |].
    + cbn [length Nat.eqb nth]. rewrite bind_mret_world, checkDomain_recording.
      by destruct (checkDomain post config d w).
    + cbn [length Nat.eqb]. rewrite bind_mret_world, checkDomains_recording.
      by destruct (checkDomains post config (d :: d' :: rest) w).
Qed.

(** ** The batches of [suggest-domains] *)

Lemma batchesFrom_concat fuel i (l : list string) :
  length l ≤ i + fuel → concat (batchesFrom fuel i l) = drop i l.
Proof.
  revert i. induction fuel as [|fuel IH]; intros i Hfuel.
  - simpl. rewrite drop_ge by lia. reflexivity.
  - cbn [batchesFrom]. destruct (Nat.ltb_spec i (length l)) as [Hi|Hi].
    + cbn [concat]. rewrite IH by (unfold batchSize; lia).
      unfold slice. replace (i + batchSize - i) with batchSize by lia.
      rewrite <- drop_drop. apply take_drop.
    + rewrite drop_ge by lia. reflexivity.
Qed.

Lemma batchesFrom_sizes fuel i (l : list string) :
  Forall (λ batch, 0 < length batch ≤ batchSize) (batchesFrom fuel i l).
Proof.
  revert i. induction fuel as [|fuel IH]; intros i; [by constructor|].
  cbn [batchesFrom]. destruct (Nat.ltb_spec i (length l)) as [Hi|Hi]; [|by constructor].
  constructor; [|apply IH].
  unfold slice. rewrite length_take, length_drop. unfold batchSize. lia.
Qed.

Lemma batchesFrom_full fuel i (l : list string) k batch :
  batchesFrom fuel i l !! k = Some batch →
  S k < length (batchesFrom fuel i l) →
  length batch = batchSize.
Proof.
  revert i k. induction fuel as [|fuel IH]; intros i k; [done|].
  cbn [batchesFrom]. destruct (Nat.ltb_spec i (length l)) as [Hi|Hi]; [|done].
  destruct k as [|k]; cbn [lookup list_lookup length].
  - intros [= <-] Hmore.
    destruct fuel as [|fuel]; [simpl in Hmore; lia|].
    cbn [batchesFrom] in Hmore.
    destruct (Nat.ltb_spec (i + batchSize) (length l)) as [Hi'|Hi'];
      [|simpl in Hmore; lia].
    unfold slice. rewrite length_take, length_drop. lia.
  - intros Hk Hmore. apply (IH (i + batchSize) k Hk). simpl in Hmore. lia.
Qed.

Section SuggestLemmas.
Context {World : Type}.
Variable post : string → jsobj → World → reply * World.
Variable config : NamecheapConfig.

Lemma checkBatches_recording fuel i suggestions results w log :
  match checkBatches (recording post) config fuel i suggestions results (w, log) with
  | (Ok _, (_, log')) =>
      log' = log ++ map (checkRequest config) (batchesFrom fuel i suggestions)
  | (Err _, (_, log')) =>
      ∃ sent, sent `prefix_of` map (checkRequest config) (batchesFrom fuel i suggestions)
              ∧ log' = log ++ sent
  end.
Proof.
  revert i results w log. induction fuel as [|fuel IH]; intros i results w log.
  - simpl. by rewrite app_nil_r.
  - cbn [checkBatches batchesFrom].
    destruct (Nat.ltb i (length suggestions)); [|simpl; by rewrite app_nil_r].
    cbv zeta. unfold mbind at 1, M_bind at 1. rewrite checkDomains_recording.
    destruct (checkDomains post config _ w) as [[batchResults|e] w1].
    + match goal with |- context [checkBatches _ _ _ _ _ ?rs ?st] =>
        specialize (IH (i + batchSize) rs w1
                      (log ++ [checkRequest config (slice i (i + batchSize) suggestions)]))
      end.
      unfold checkRequest in IH at 1. unfold checkRequest at 1.
      destruct (checkBatches _ _ _ _ _ _ _) as [[rs|e] [w2 log2]].
      * rewrite IH. cbn [map]. by rewrite <- app_assoc.
      * destruct IH as (sent & Hsent & ->).
        exists (checkRequest config (slice i (i + batchSize) suggestions) :: sent).
        split; [by apply prefix_cons|]. by rewrite <- app_assoc.
    + exists [checkRequest config (slice i (i + batchSize) suggestions)].
      split; [|reflexivity]. cbn [map]. apply prefix_cons, prefix_nil.
Qed.

End SuggestLemmas.

(** X22. The [suggest-domains] tool checks its suggestions in batches: the
    batches put end to end are the suggestions in their order, no batch is
    empty, none has more than twenty names, and every batch but the last has
    exactly twenty.  A run that succeeds has sent one availability check per
    batch, in this order, and nothing else; a run that fails has sent a
    first part of these checks and nothing else. *)
Theorem suggestDomainsTool_checks_in_batches_of_twenty
    {World : Type} (post : string → jsobj → World → reply * World)
    (config : NamecheapConfig) (toLowerCase : string → string)
    (args : SuggestArgs) (tlds : list string)
    (w : World) (log : list (string * jsobj)) :
  sug_tlds args = Some tlds →
  let suggestions :=
    concat (map (suggestionsFor (strip (toLowerCase (sug_baseKeyword args)))
                   (sug_includeVariations args)) tlds) in
  ∃ batches : list (list string),
    concat batches = suggestions
    ∧ Forall (λ batch, 0 < length batch ≤ 20) batches
    ∧ (∀ k batch, batches !! k = Some batch → S k < length batches → length batch = 20)
    ∧ match suggestDomainsTool_execute (recording post) config toLowerCase args (w, log) with
      | (Ok _, (_, log')) => log' = log ++ map (checkRequest config) batches
      | (Err _, (_, log')) =>
          ∃ sent, sent `prefix_of` map (checkRequest config) batches ∧ log' = log ++ sent
      end.
Proof.
  intros Htlds suggestions.
  exists (batchesFrom (length suggestions) 0 suggestions). split_and!.
  - by rewrite batchesFrom_concat by lia.
  - apply batchesFrom_sizes.
  - apply batchesFrom_full.
  - unfold suggestDomainsTool_execute, rethrow. rewrite Htlds. fold suggestions.
    unfold mbind at 1, M_bind at 1, lift at 1. cbv beta iota.
    unfold mbind at 1, M_bind at 1.
    pose proof (checkBatches_recording post config (length suggestions) 0 suggestions
                  [] w log) as Hrun.
    destruct (checkBatches _ _ _ _ _ _ _) as [[results|e] [w1 log1]]; exact Hrun.
Qed.

Lemma suggestDomainsTool_checks_in_batches_of_twenty_witness :
  sug_tlds Scenario.suggestArgs = Some [".com"; ".io"]
  ∧ ∃ batches : list (list string),
      concat batches
      = concat (map (suggestionsFor (strip "shop") true) [".com"; ".io"])
      ∧ Forall (λ batch, 0 < length batch ≤ 20) batches
      ∧ (∀ k batch, batches !! k = Some batch → S k < length batches → length batch = 20)
      ∧ match suggestDomainsTool_execute (recording Scripted.post) Sample.config (λ s, s)
                Scenario.suggestArgs ([], []) with
        | (Ok _, (_, log')) => log' = [] ++ map (checkRequest Sample.config) batches
        | (Err _, (_, log')) =>
            ∃ sent, sent `prefix_of` map (checkRequest Sample.config) batches
                    ∧ log' = [] ++ sent
        end.
Proof.
  split; [reflexivity|].
  apply (suggestDomainsTool_checks_in_batches_of_twenty Scripted.post Sample.config
           (λ s, s) Scenario.suggestArgs [".com"; ".io"] [] []).
  reflexivity.
Defined.

(** Twenty-two suggestions go out as twenty and two. *)
Example suggestDomainsTool_two_batches :
  map length
    (batchesFrom 22 0 (concat (map (suggestionsFor "shop" true) [".com"; ".io"])))
  = [20; 2].
Proof. reflexivity. Qed.

(** ** The list of domains *)

Lemma listedDomain_outcomes domain :
  match hostAttrs domain with
  | Some a =>
      listedDomain domain =
        Ok {| domainName := XText <$> a !! "Name";
              created := XText <$> a !! "Created";
              expires := XText <$> a !! "Expires";
              isLocked := bool_decide (a !! "IsLocked" = Some "true");
              isAutoRenew := bool_decide (a !! "AutoRenew" = Some "true");
              whoisGuard := bool_decide (a !! "WhoisGuard" = Some "ENABLED") |}
  | None => listedDomain domain = Err (Foreign (typeError "Name"))
  end.
Proof. destruct domain as [s|[a|] t cs]; reflexivity. Qed.

Lemma mapM_listedDomain_all elems :
  Forall (λ domain, is_Some (hostAttrs domain)) elems →
  ∃ domains, mapM listedDomain elems = Ok domains
       ∧ Forall2 (λ domain d, listedDomain domain = Ok d) elems domains.
Proof.
  induction 1 as [|domain elems [a Ha] _ (domains & HZ & Hall)].
  - exists []. by split; [|constructor].
  - pose proof (listedDomain_outcomes domain) as Hh. rewrite Ha in Hh.
    eexists (_ :: domains). rewrite mapM_result_cons, Hh, HZ. split; [reflexivity|].
    by constructor.
Qed.

Lemma mapM_listedDomain_some elems :
  Exists (λ domain, hostAttrs domain = None) elems →
  mapM listedDomain elems = Err (Foreign (typeError "Name")).
Proof.
  induction elems as [|domain elems IH]; intros Hex; [by inversion Hex|].
  rewrite mapM_result_cons.
  pose proof (listedDomain_outcomes domain) as Hh.
  destruct (hostAttrs domain) as [a|] eqn:Ha.
  - rewrite Hh. inversion Hex as [? ? Hbad|? ? Hrest]; subst; [congruence|].
    by rewrite (IH Hrest).
  - by rewrite Hh.
Qed.

(** X23. [listDomains] returns one entry per [Domain] element of the
    response, in the order of the response.  The three flags are exact
    comparisons: locked and auto-renew with the text [true], WhoisGuard with
    the text [ENABLED]; any other spelling reads as [false].  [totalItems]
    is read from the paging node and does not depend on the entries.  One
    element without attributes makes the whole call fail with a
    [TypeError]. *)
Theorem listDomains_is_all_or_nothing
    {World : Type} (post : string → jsobj → World → reply * World)
    (config : NamecheapConfig) (page pageSize : Z) (w w' : World)
    (root res0 : xml) (pa : gmap string string) (elems : list xml) :
  post (apiUrl config)
       (requestParams config "namecheap.domains.getList"
          {[ "Page" := JNumber page; "PageSize" := JNumber pageSize ]}) w
    = (Parsed "ApiResponse" root, w') →
  commandResult root "DomainGetListResult" res0 →
  pagingAttrs root pa →
  child "Domain" (Some res0) = Ok (Some elems) →
  (Forall (λ domain, is_Some (hostAttrs domain)) elems →
     ∃ domains,
       listDomains post config page pageSize w
         = (Ok (domains, parseInt (ofOption (pa !! "TotalItems"))), w')
       ∧ length domains = length elems
       ∧ ∀ i domain d, elems !! i = Some domain → domains !! i = Some d →
           ∃ a, hostAttrs domain = Some a
                ∧ domainName d = XText <$> a !! "Name"
                ∧ created d = XText <$> a !! "Created"
                ∧ expires d = XText <$> a !! "Expires"
                ∧ (isLocked d = true ↔ a !! "IsLocked" = Some "true")
                ∧ (isAutoRenew d = true ↔ a !! "AutoRenew" = Some "true")
                ∧ (whoisGuard d = true ↔ a !! "WhoisGuard" = Some "ENABLED"))
  ∧ (Exists (λ domain, hostAttrs domain = None) elems →
       listDomains post config page pageSize w = (Err (Foreign (typeError "Name")), w')).
Proof.
  intros Hpost (a & t & cs & ca & ct & ccs & more & more' & -> & Hst & Hcr & Hres)
    (a' & t' & cs' & pt & pcs & pmore & [= <- <- <-] & Hpg) Helems.
  assert (listDomains post config page pageSize w
          = (domains ← mapM listedDomain elems;
             mret (domains, parseInt (ofOption (pa !! "TotalItems"))), w')) as Hlist.
  { unfold listDomains.
    erewrite bind_ok by (by apply makeRequest_ok).
    unfold lift. f_equal. simpl. rewrite Hpg. simpl. rewrite Hcr. simpl. rewrite Hres. simpl.
    simpl in Helems. destruct res0 as [s|ra rt rcs]; [discriminate Helems|].
    simpl in *. injection Helems as ->. reflexivity. }
  split.
  - intros Hall. destruct (mapM_listedDomain_all elems Hall) as (domains & HZ & H2).
    exists domains. rewrite Hlist, HZ. split; [reflexivity|].
    split; [symmetry; by eapply Forall2_length|].
    intros i domain d Hi Hd.
    pose proof (Forall2_lookup_lr _ _ _ _ _ _ H2 Hi Hd) as Hrec. cbv beta in Hrec.
    pose proof (listedDomain_outcomes domain) as Hh.
    destruct (hostAttrs domain) as [a'|]; [|congruence].
    rewrite Hh in Hrec. injection Hrec as <-.
    exists a'. split; [reflexivity|]. simpl.
    split_and!; try reflexivity; apply bool_decide_eq_true.
  - intros Hex. by rewrite Hlist, (mapM_listedDomain_some elems Hex).
Qed.

Lemma listDomains_is_all_or_nothing_witness :
  Scripted.post (apiUrl Sample.config)
      (requestParams Sample.config "namecheap.domains.getList"
         {[ "Page" := JNumber 1; "PageSize" := JNumber 20 ]})
      [Parsed "ApiResponse" (Scenario.listDoc "57" [Scenario.listedElem])]
    = (Parsed "ApiResponse" (Scenario.listDoc "57" [Scenario.listedElem]), [])
  ∧ Forall (λ domain, is_Some (hostAttrs domain)) [Scenario.listedElem]
  ∧ ∃ domains,
      listDomains Scripted.post Sample.config 1 20
        [Parsed "ApiResponse" (Scenario.listDoc "57" [Scenario.listedElem])]
      = (Ok (domains, Some 57%Z), [])
      ∧ length domains = 1
      ∧ ∀ i domain d, [Scenario.listedElem] !! i = Some domain → domains !! i = Some d →
          ∃ a, hostAttrs domain = Some a
               ∧ domainName d = XText <$> a !! "Name"
               ∧ created d = XText <$> a !! "Created"
               ∧ expires d = XText <$> a !! "Expires"
               ∧ (isLocked d = true ↔ a !! "IsLocked" = Some "true")
               ∧ (isAutoRenew d = true ↔ a !! "AutoRenew" = Some "true")
               ∧ (whoisGuard d = true ↔ a !! "WhoisGuard" = Some "ENABLED").
Proof.
  assert (Hpost : Scripted.post (apiUrl Sample.config)
      (requestParams Sample.config "namecheap.domains.getList"
         {[ "Page" := JNumber 1; "PageSize" := JNumber 20 ]})
      [Parsed "ApiResponse" (Scenario.listDoc "57" [Scenario.listedElem])]
    = (Parsed "ApiResponse" (Scenario.listDoc "57" [Scenario.listedElem]), []))
    by reflexivity.
  assert (Hcr : commandResult (Scenario.listDoc "57" [Scenario.listedElem])
                  "DomainGetListResult"
                  (XElem None None [ ("Domain", [Scenario.listedElem]) ])).
  { unfold commandResult, Scenario.listDoc. do 8 eexists.
    repeat split; [|reflexivity..]. discriminate. }
  assert (Hpg : pagingAttrs (Scenario.listDoc "57" [Scenario.listedElem])
                  {[ "TotalItems" := "57"; "CurrentPage" := "1"; "PageSize" := "20" ]}).
  { unfold pagingAttrs, Scenario.listDoc. do 6 eexists. split; reflexivity. }
  assert (Hall : Forall (λ domain, is_Some (hostAttrs domain)) [Scenario.listedElem]).
  { repeat constructor. by eexists. }
  split_and!; [exact Hpost | exact Hall |].
  exact (proj1 (listDomains_is_all_or_nothing Scripted.post Sample.config 1 20
                  [Parsed "ApiResponse" (Scenario.listDoc "57" [Scenario.listedElem])] []
                  (Scenario.listDoc "57" [Scenario.listedElem])
                  (XElem None None [ ("Domain", [Scenario.listedElem]) ])
                  {[ "TotalItems" := "57"; "CurrentPage" := "1"; "PageSize" := "20" ]}
                  [Scenario.listedElem] Hpost Hcr Hpg eq_refl) Hall).
Defined.

(** ** The details of one domain *)

Lemma result_bind_Ok_inv {A B} (m : result A) (f : A → result B) (b : B) :
  (x ← m; f x) = Ok b → ∃ x, m = Ok x ∧ f x = Ok b.
Proof. destruct m as [x|e]; [by exists x|discriminate]. Qed.

(** X24. [getDomainInfo] sends one [namecheap.domains.getInfo] request that
    names the domain, whatever comes of it.  The [domainName] of a result
    is the name that was asked for, not a name read from the response. *)
Theorem getDomainInfo_answers_under_the_name_asked_for
    {World : Type} (post : string → jsobj → World → reply * World)
    (config : NamecheapConfig) (domain : string)
    (w : World) (log : list (string * jsobj)) :
  let run := getDomainInfo (recording post) config domain (w, log) in
  run.2.2 = log ++ [(apiUrl config,
                     requestParams config "namecheap.domains.getInfo"
                       {[ "DomainName" := JString domain ]})]
  ∧ match run.1 with
    | Ok info => domainName info = Some (XText domain)
    | Err _ => True
    end.
Proof.
  intros run. split.
  - unfold run, getDomainInfo. rewrite call_then_reshape_recording.
    match goal with |- context [let '(_, _) := ?m in _] => by destruct m end.
  - unfold run, getDomainInfo. rewrite bind_lift.
    destruct (makeRequest _ _ _ _ _) as [[response|e] st]; [|exact I].
    cbn [fst].
    match goal with |- match ?r with _ => _ end => destruct r as [info|e] eqn:Hinfo end;
      [|exact I].
    repeat (apply result_bind_Ok_inv in Hinfo as (? & _ & Hinfo)).
    by injection Hinfo as <-.
Qed.

Example getDomainInfo_keeps_the_spelling_of_the_caller :
  getDomainInfo Scripted.post Sample.config "example.com"
    [Parsed "ApiResponse" Scenario.infoDoc]
  = (Ok {| domainName := Some (XText "example.com");
           created := Some (XText "01/02/2020");
           expires := Some (XText "01/02/2030");
           isLocked := true; isAutoRenew := false; whoisGuard := true |}, []).
Proof. reflexivity. Qed.

(** ** The suggested names *)

Lemma strip_allowed s : allChars allowedChar (strip s) = true.
Proof.
  induction s as [|c s IH]; [reflexivity|].
  simpl. destruct (allowedChar c) eqn:Hc; [|exact IH].
  simpl. by rewrite Hc.
Qed.

Lemma strip_fixes_allowed s : allChars allowedChar s = true → strip s = s.
Proof.
  induction s as [|c s IH]; [reflexivity|].
  simpl. intros [Hc Hs]%andb_true_iff. rewrite Hc. f_equal. by apply IH.
Qed.

Lemma elem_of_concat {A} (x : A) (ls : list (list A)) :
  x ∈ concat ls → ∃ l, x ∈ l ∧ l ∈ ls.
Proof.
  induction ls as [|l ls IH]; [by intros ?%elem_of_nil|].
  cbn [concat]. intros [Hx|Hx]%elem_of_app.
  - exists l. split; [done|]. apply list_elem_of_here.
  - destruct (IH Hx) as (l' & ? & ?). exists l'. split; [done|].
    by apply list_elem_of_further.
Qed.

Lemma suggestionsFor_shape base includeVariations tld name :
  name ∈ suggestionsFor base includeVariations tld →
  ∃ pre suf,
    name = pre +:+ base +:+ suf +:+ tld
    ∧ (pre, suf) ∈ [ ("", ""); ("get", ""); ("my", ""); ("the", ""); ("go", "");
                     ("", "app"); ("", "hq"); ("", "io"); ("", "pro");
                     ("", "-app"); ("", "-online") ]
    ∧ (includeVariations = false → pre = "" ∧ suf = "").
Proof.
  unfold suggestionsFor. intros Hin.
  apply elem_of_cons in Hin as [->|Hin].
  { exists "", "". split_and!; [reflexivity|in_list|done]. }
  destruct includeVariations; [|by apply elem_of_nil in Hin].
  repeat (apply elem_of_cons in Hin as [->|Hin];
          [ first
              [ (eexists "get", ""; split_and!; [reflexivity|in_list|done])
              | (eexists "my", ""; split_and!; [reflexivity|in_list|done])
              | (eexists "the", ""; split_and!; [reflexivity|in_list|done])
              | (eexists "go", ""; split_and!; [reflexivity|in_list|done])
              | (eexists "", "app"; split_and!; [reflexivity|in_list|done])
              | (eexists "", "hq"; split_and!; [reflexivity|in_list|done])
              | (eexists "", "io"; split_and!; [reflexivity|in_list|done])
              | (eexists "", "pro"; split_and!; [reflexivity|in_list|done])
              | (eexists "", "-app"; split_and!; [reflexivity|in_list|done])
              | (eexists "", "-online"; split_and!; [reflexivity|in_list|done]) ] |]).
  by apply elem_of_nil in Hin.
Qed.

(** X25. Every name that [suggest-domains] asks about is the sanitised
    keyword with one of eleven fixed affixes around it and one of the given
    TLDs behind it.  The sanitised keyword has lower-case letters, digits
    and hyphens only, and a lower-cased keyword that has nothing else is
    kept as it is.
    There are eleven names per TLD with the variations and one without. *)
Theorem suggestions_are_built_on_the_sanitised_keyword
    (lowered : string) (includeVariations : bool) (tlds : list string) :
  let base := strip lowered in
  let suggestions := concat (map (suggestionsFor base includeVariations) tlds) in
  allChars allowedChar base = true
  ∧ (allChars allowedChar lowered = true → base = lowered)
  ∧ length suggestions = (if includeVariations then 11 else 1) * length tlds
  ∧ ∀ name, name ∈ suggestions →
      ∃ pre suf tld,
        tld ∈ tlds
        ∧ name = pre +:+ base +:+ suf +:+ tld
        ∧ (pre, suf) ∈ [ ("", ""); ("get", ""); ("my", ""); ("the", ""); ("go", "");
                         ("", "app"); ("", "hq"); ("", "io"); ("", "pro");
                         ("", "-app"); ("", "-online") ]
        ∧ (includeVariations = false → pre = "" ∧ suf = "").
Proof.
  intros base suggestions. split_and!.
  - apply strip_allowed.
  - apply strip_fixes_allowed.
  - unfold suggestions. induction tlds as [|tld tlds IH]; [by destruct includeVariations|].
    cbn [map concat]. rewrite length_app, IH.
    destruct includeVariations; simpl; lia.
  - intros name Hin. unfold suggestions in Hin.
    apply elem_of_concat in Hin as (names & Hname & Hnames).
    apply list_elem_of_fmap in Hnames as (tld & -> & Htld).
    destruct (suggestionsFor_shape _ _ _ _ Hname) as (pre & suf & -> & Haff & Hplain).
    by exists pre, suf, tld.
Qed.

(** ** The summary of the domain list *)

Lemma countStatus_total (domains : list DomainWithStatus) :
  countStatus Active domains + countStatus ExpiringSoon domains
  + countStatus Urgent domains + countStatus Expired domains
  = length domains.
Proof.
  unfold countStatus. induction domains as [|d domains IH]; [reflexivity|].
  cbn [List.filter length]. destruct (dws_status d); simpl; lia.
Qed.

Lemma listDomains_recording {World : Type}
    (post : string → jsobj → World → reply * World) (config : NamecheapConfig)
    page pageSize w log :
  listDomains (recording post) config page pageSize (w, log) =
    let '(r, w') := listDomains post config page pageSize w in
    (r, (w', log ++ [(apiUrl config,
                      requestParams config "namecheap.domains.getList"
                        {[ "Page" := JNumber page; "PageSize" := JNumber pageSize ]})])).
Proof. apply call_then_reshape_recording. Qed.

(** X26. The domain list resource asks for the first hundred domains, once.
    Provided that sorting only reorders, every retrieved domain is counted in
    exactly one of the four groups of the summary, so the four counts add up
    to [retrievedDomains]; a domain is [expired] from zero days down,
    [urgent] up to seven, [expiring-soon] up to thirty, and [active] beyond
    or when its expiry date cannot be read. *)
Theorem domainList_summary_counts_every_domain_once
    {World : Type} (post : string → jsobj → World → reply * World)
    (config : NamecheapConfig) (daysUntilExpiry : jsany → option Z)
    (sort : list DomainWithStatus → list DomainWithStatus) (now : string)
    (w : World) (log : list (string * jsobj)) :
  (∀ domains, sort domains ≡ₚ domains) →
  let run := domainList_result (recording post) config daysUntilExpiry sort now (w, log) in
  run.2.2 = log ++ [(apiUrl config,
                     requestParams config "namecheap.domains.getList"
                       {[ "Page" := JNumber 1; "PageSize" := JNumber 100 ]})]
  ∧ match run.1 with
    | Ok r =>
        length (listed r) = retrievedDomains r
        ∧ sum_active (summary r) + sum_expiringSoon (summary r)
          + sum_urgent (summary r) + sum_expired (summary r)
          = retrievedDomains r
        ∧ Forall (λ d,
            dws_daysUntilExpiry d = daysUntilExpiry (expires (dws_domain d))
            ∧ match dws_daysUntilExpiry d with
              | None => dws_status d = Active
              | Some days =>
                  (dws_status d = Expired ↔ (days ≤ 0)%Z)
                  ∧ (dws_status d = Urgent ↔ (0 < days ≤ 7)%Z)
                  ∧ (dws_status d = ExpiringSoon ↔ (7 < days ≤ 30)%Z)
                  ∧ (dws_status d = Active ↔ (30 < days)%Z)
              end) (listed r)
    | Err _ => True
    end.
Proof.
  intros Hsort run. unfold run, domainList_result.
  unfold mbind, M_bind. rewrite listDomains_recording.
  destruct (listDomains post config 1 100 w) as [[[domains totalItems]|e] w1];
    [|by split].
  split; [reflexivity|].
  match goal with |- context [sort ?l] => set (mapped := l) end.
  assert (Hlen : length (sort mapped) = length domains)
    by (by rewrite (Hsort mapped); unfold mapped; rewrite length_map).
  assert (Hall : Forall (λ d,
            dws_daysUntilExpiry d = daysUntilExpiry (expires (dws_domain d))
            ∧ dws_status d = statusOf (dws_daysUntilExpiry d)) (sort mapped)).
  { rewrite (Hsort mapped). apply Forall_forall.
    by intros d (domain & -> & _)%list_elem_of_fmap. }
  generalize dependent (sort mapped). intros sorted Hlen Hall. simpl.
  split_and!.
  - exact Hlen.
  - by rewrite countStatus_total.
  - eapply Forall_impl; [exact Hall|]. intros d [Hdays ->]. split; [exact Hdays|].
    unfold statusOf. destruct (dws_daysUntilExpiry d) as [days|]; [|reflexivity].
    destruct (Z.leb_spec days 0); [split_and!; split; first [done | lia]|].
    destruct (Z.leb_spec days 7); [split_and!; split; first [done | lia]|].
    destruct (Z.leb_spec days 30); split_and!; split; first [done | lia].
Qed.

Lemma domainList_summary_counts_every_domain_once_witness :
  (∀ domains : list DomainWithStatus, reverse domains ≡ₚ domains)
  ∧ let run :=
      domainList_result (recording Scripted.post) Sample.config
        (λ _, Some 5%Z) reverse "2026-01-01T00:00:00.000Z"
        ([Parsed "ApiResponse" (Scenario.listDoc "57" [Scenario.listedElem])], []) in
    run.2.2 = [] ++ [(apiUrl Sample.config,
                      requestParams Sample.config "namecheap.domains.getList"
                        {[ "Page" := JNumber 1; "PageSize" := JNumber 100 ]})]
    ∧ match run.1 with
      | Ok r =>
          length (listed r) = retrievedDomains r
          ∧ sum_active (summary r) + sum_expiringSoon (summary r)
            + sum_urgent (summary r) + sum_expired (summary r)
            = retrievedDomains r
          ∧ Forall (λ d,
              dws_daysUntilExpiry d = (λ _ : jsany, Some 5%Z) (expires (dws_domain d))
              ∧ match dws_daysUntilExpiry d with
                | None => dws_status d = Active
                | Some days =>
                    (dws_status d = Expired ↔ (days ≤ 0)%Z)
                    ∧ (dws_status d = Urgent ↔ (0 < days ≤ 7)%Z)
                    ∧ (dws_status d = ExpiringSoon ↔ (7 < days ≤ 30)%Z)
                    ∧ (dws_status d = Active ↔ (30 < days)%Z)
                end) (listed r)
      | Err _ => True
      end.
Proof.
  assert (Hsort : ∀ domains : list DomainWithStatus, reverse domains ≡ₚ domains)
    by (intros domains; apply reverse_Permutation).
  split; [exact Hsort|].
  exact (domainList_summary_counts_every_domain_once Scripted.post Sample.config
           (λ _, Some 5%Z) reverse "2026-01-01T00:00:00.000Z"
           [Parsed "ApiResponse" (Scenario.listDoc "57" [Scenario.listedElem])] [] Hsort).
Defined.

(** One domain that expires in five days. *)
Example domainList_one_urgent_domain :
  (domainList_result Scripted.post Sample.config
     (λ _, Some 5%Z) reverse "2026-01-01T00:00:00.000Z"
     [Parsed "ApiResponse" (Scenario.listDoc "57" [Scenario.listedElem])]).1
  = Ok {| totalDomains := Some 57%Z; retrievedDomains := 1;
          lastUpdated := "2026-01-01T00:00:00.000Z";
          listed :=
            [ {| dws_domain :=
                   {| domainName := Some (XText "example.com");
                      created := Some (XText "01/02/2020");
                      expires := Some (XText "01/02/2030");
                      isLocked := false; isAutoRenew := true; whoisGuard := true |};
                 dws_daysUntilExpiry := Some 5%Z; dws_status := Urgent |} ];
          summary := {| sum_active := 0; sum_expiringSoon := 0;
                        sum_urgent := 1; sum_expired := 0 |} |}.
Proof. reflexivity. Qed.
